(** * pyart.io.cfradial: reading and writing CF/Radial files

    A shallow embedding of [pyart/io/cfradial.py].  Python dictionaries
    are association lists in iteration order, exceptions are an error
    result, the netCDF4 file object is an explicit state threaded through
    the writer, and float64 cells are Rocq's primitive binary64 floats. *)

From Stdlib Require Import ZArith List String Ascii Bool Lia Floats.
Import ListNotations.
Open Scope string_scope.
Open Scope list_scope.
Open Scope Z_scope.

Set Implicit Arguments.

(** ** Python results and exceptions *)

Inductive exn : Type :=
| IndexError
| KeyError (key : string)
| ValueError
| TypeError
| RuntimeError.

Inductive result (A : Type) : Type :=
| Ok (a : A)
| Raise (e : exn).

Arguments Ok {A} a.
Arguments Raise {A} e.

Definition rbind {A B : Type} (m : result A) (f : A -> result B) : result B :=
  match m with
  | Ok a => f a
  | Raise e => Raise e
  end.

Definition of_option {A : Type} (e : exn) (o : option A) : result A :=
  match o with
  | Some a => Ok a
  | None => Raise e
  end.

Definition is_ok {A : Type} (m : result A) : bool :=
  match m with Ok _ => true | Raise _ => false end.

Declare Scope result_scope.
Delimit Scope result_scope with result.
Notation "x <- m ;; k" := (rbind m (fun x => k))
  (at level 61, m at next level, right associativity) : result_scope.
Notation "' pat <- m ;; k" := (rbind m (fun x => match x with pat => k end))
  (at level 61, pat pattern, m at next level, right associativity) : result_scope.

(** [for x in l: st = body st x], stopping at the first exception. *)
Fixpoint for_each {S X : Type} (body : S -> X -> result S) (l : list X) (st : S)
  : result S :=
  match l with
  | [] => Ok st
  | x :: l' => rbind (body st x) (for_each body l')
  end.

(** ** Python sequences: indexing, slicing, [range] *)

Module Py.

Definition len {A : Type} (l : list A) : Z := Z.of_nat (List.length l).

(** [l[i]]: negative indices count from the end; [None] is IndexError. *)
Definition get {A : Type} (l : list A) (i : Z) : option A :=
  let n := len l in
  if (0 <=? i) && (i <? n) then nth_error l (Z.to_nat i)
  else if (- n <=? i) && (i <? 0) then nth_error l (Z.to_nat (i + n))
  else None.

(** A slice bound [i] brought into [0 .. n]. *)
Definition bound (n i : Z) : Z :=
  if i <? 0 then Z.max (i + n) 0 else Z.min i n.

(** [l[lo:hi]]; never raises. *)
Definition slice {A : Type} (l : list A) (lo hi : Z) : list A :=
  let n := len l in
  let a := bound n lo in
  let b := bound n hi in
  firstn (Z.to_nat (b - a)) (skipn (Z.to_nat a) l).

(** [l[-k:]] for a string. *)
Definition str_slice_from (s : string) (lo : Z) : string :=
  let n := Z.of_nat (String.length s) in
  let a := bound n lo in
  substring (Z.to_nat a) (Z.to_nat (n - a)) s.

(** [range(n)]: empty when [n <= 0]. *)
Definition range (n : Z) : list Z := map Z.of_nat (seq 0 (Z.to_nat n)).

Definition sum (l : list Z) : Z := fold_right Z.add 0 l.

(** [pat in s] on strings. *)
Fixpoint contains (pat s : string) : bool :=
  prefix pat s ||
  match s with
  | EmptyString => false
  | String _ s' => contains pat s'
  end.

End Py.

(** ** Dictionaries

    A [dict] keeps its entries in iteration order; keys are unique when
    every entry was added with [dict_set]. *)

Section Dict.
Variable V : Type.

Definition dict : Type := list (string * V).

Fixpoint dict_get (d : dict) (k : string) : option V :=
  match d with
  | [] => None
  | (k', v) :: d' => if String.eqb k k' then Some v else dict_get d' k
  end.

Definition dict_has (d : dict) (k : string) : bool :=
  match dict_get d k with Some _ => true | None => false end.

(** [d[k] = v]: an existing key keeps its place, a new one goes last. *)
Fixpoint dict_set (d : dict) (k : string) (v : V) : dict :=
  match d with
  | [] => [(k, v)]
  | (k', v') :: d' =>
      if String.eqb k k' then (k', v) :: d' else (k', v') :: dict_set d' k v
  end.

(** [del d[k]] / [d.pop(k)] *)
Fixpoint dict_del (d : dict) (k : string) : dict :=
  match d with
  | [] => []
  | (k', v') :: d' =>
      if String.eqb k k' then dict_del d' k else (k', v') :: dict_del d' k
  end.

Definition dict_keys (d : dict) : list string := map fst d.

(** [dict(pairs)]: later pairs override earlier ones. *)
Definition dict_of (pairs : list (string * V)) : dict :=
  fold_left (fun d kv => dict_set d (fst kv) (snd kv)) pairs [].
End Dict.

Arguments dict_get {V} d k.
Arguments dict_has {V} d k.
Arguments dict_set {V} d k v.
Arguments dict_del {V} d k.
Arguments dict_keys {V} d.
Arguments dict_of {V} pairs.

Definition str_in (k : string) (l : list string) : bool :=
  existsb (String.eqb k) l.

(** Equality of tuples of strings. *)
Fixpoint strs_eqb (a b : list string) : bool :=
  match a, b with
  | [], [] => true
  | x :: a', y :: b' => String.eqb x y && strs_eqb a' b'
  | _, _ => false
  end.

(** ** Scan type (read_cfradial, lines 154-179) *)

Inductive scan_type_t : Type := ppi | rhi | vpt | sector | other.

Definition scan_type_of_mode (mode : string) : scan_type_t :=
  (* options specified in the CF/Radial standard *)
  if String.eqb mode "rhi" then rhi
  else if String.eqb mode "vertical_pointing" then vpt
  else if String.eqb mode "azimuth_surveillance" then ppi
  else if String.eqb mode "elevation_surveillance" then rhi
  else if String.eqb mode "manual_ppi" then ppi
  else if String.eqb mode "manual_rhi" then rhi
  (* fallback types *)
  else if Py.contains "sur" mode then ppi
  else if Py.contains "sec" mode then sector
  else if Py.contains "rhi" mode then rhi
  else other.

(** The string stored in the record for each scan type. *)
Definition scan_type_str (t : scan_type_t) : string :=
  match t with
  | ppi => "ppi"
  | rhi => "rhi"
  | vpt => "vpt"
  | sector => "sector"
  | other => "other"
  end.

(** ** Ray reshape: [_stream_to_2d] (lines 326-347)

    Index arrays ([sweeps], [sweepe], [ray_len], [ray_start_index]) are
    integer arrays read from the file, cells are float64.  numpy's rules
    are written out: an index outside the array raises IndexError, a
    slice is clamped, [reshape] and assignment of a block whose shape
    does not broadcast to the target raise ValueError.  The index arrays
    are int32, the type CF/Radial gives these variables: the product of
    two of their scalars, [(se - ss) * rle], is an int32 and wraps to 32
    bits, while [sum()] accumulates in 64 bits and [cp], which starts as
    a Python int, is a 64-bit count; both are taken as exact.  The
    difference [se - ss] and the sum [ray_start_index[i] + ray_len[i]]
    of two int32 scalars are written without wrap: they wrap only for a
    negative index or for a ray that ends at or beyond gate 2^31.  Masks
    of masked arrays are not modelled. *)

(** The value an int32 scalar holds after an arithmetic result [z]. *)
Definition int32 (z : Z) : Z := (z + 2 ^ 31) mod 2 ^ 32 - 2 ^ 31.

Module Stream.

(** [np.ma.zeros([nrays, maxgates]) - 9999.0] *)
Definition sentinel : float := (0 - 9999.0)%float.

Definition full {A : Type} (nrays maxgates : nat) (x : A) : list (list A) :=
  repeat (repeat x maxgates) nrays.

(** [n] consecutive rows of width [c] cut from [l]. *)
Fixpoint chunks {A : Type} (c n : nat) (l : list A) : list (list A) :=
  match n with
  | O => []
  | S n' => firstn c l :: chunks c n' (skipn c l)
  end.

(** [d.reshape(r, c)] on a 1-D array, giving the block with its shape.
    One dimension may be [-1] (inferred); sizes must agree. *)
Definition reshape2 {A : Type} (d : list A) (r c : Z)
  : result (Z * Z * list (list A)) :=
  let n := Py.len d in
  if (r =? -1) && (c =? -1) then Raise ValueError
  else if r =? -1 then
    if (0 <? c) && (n mod c =? 0)
    then Ok (n / c, c, chunks (Z.to_nat c) (Z.to_nat (n / c)) d)
    else Raise ValueError
  else if c =? -1 then
    if (0 <? r) && (n mod r =? 0)
    then Ok (r, n / r, chunks (Z.to_nat (n / r)) (Z.to_nat r) d)
    else Raise ValueError
  else if (r <? 0) || (c <? 0) then Raise ValueError
  else if r * c =? n then Ok (r, c, chunks (Z.to_nat c) (Z.to_nat r) d)
  else Raise ValueError.

(** A source of length 1 is repeated along a broadcast dimension. *)
Definition broadcast_to {A : Type} (n : nat) (src : list A) : list A :=
  if Nat.eqb (List.length src) n then src
  else match src with
       | x :: _ => repeat x n
       | [] => []
       end.

(** Shapes broadcast when each source dimension equals the target's or is 1. *)
Definition broadcasts (src tgt : Z) : bool := (src =? tgt) || (src =? 1).

(** [l[i] = f(l[i])] at a position inside the list. *)
Fixpoint update_at {A : Type} (l : list A) (i : nat) (f : A -> A) : list A :=
  match l, i with
  | [], _ => []
  | x :: l', O => f x :: l'
  | x :: l', S i' => x :: update_at l' i' f
  end.

(** [row[0:hi] = src], shapes already checked. *)
Definition write_prefix {A : Type} (tc : nat) (src row : list A) : list A :=
  broadcast_to tc src ++ skipn tc row.

(** [grid[lo:hi, 0:hc] = block], [block] of shape [(r, c)], on a grid
    with [ncols] columns. *)
Definition assign_block {A : Type} (ncols : nat) (grid : list (list A))
    (lo hi hc r c : Z) (block : list (list A)) : result (list (list A)) :=
  let nr := Py.len grid in
  let a := Py.bound nr lo in
  let tr := Z.max (Py.bound nr hi - a) 0 in
  let tc := Py.bound (Z.of_nat ncols) hc in
  if broadcasts r tr && broadcasts c tc then
    Ok (fold_left
          (fun g i =>
             update_at g (Z.to_nat a + i)
               (write_prefix (Z.to_nat tc)
                  (nth i (broadcast_to (Z.to_nat tr) block) [])))
          (seq 0 (Z.to_nat tr)) grid)
  else Raise ValueError.

(** [grid[i, 0:hc] = src] for a 1-D [src]. *)
Definition assign_ray {A : Type} (ncols : nat) (grid : list (list A))
    (i hc : Z) (src : list A) : result (list (list A)) :=
  let nr := Py.len grid in
  let tc := Py.bound (Z.of_nat ncols) hc in
  if (- nr <=? i) && (i <? nr) then
    if broadcasts (Py.len src) tc then
      Ok (update_at grid (Z.to_nat (if i <? 0 then i + nr else i))
            (write_prefix (Z.to_nat tc) src))
    else Raise ValueError
  else Raise IndexError.

Section StreamTo2d.
Variables (data : list float) (sweeps sweepe ray_len : list Z).
Variables (maxgates nrays : nat) (ray_start_index : list Z).

Local Open Scope result_scope.

(** The test of line 337: the sweep's gate counts add up to the first
    ray's count times the number of rays, a product of int32 scalars. *)
Definition uniform_check (ss se rle : Z) : bool :=
  Py.sum (Py.slice ray_len ss se) =? int32 (rle * (se - ss)).

(** Lines 342-345: one ray of a ragged sweep. *)
Definition copy_ray (ss : Z) (time_range : list (list float)) (rn : Z)
  : result (list (list float)) :=
  start <- of_option IndexError (Py.get ray_start_index (ss + rn)) ;;
  n <- of_option IndexError (Py.get ray_len (ss + rn)) ;;
  assign_ray maxgates time_range (ss + rn) n
    (Py.slice data start (start + n)).

(** Lines 333-346: the body of the loop over sweeps; the state is
    [(time_range, cp)]. *)
Definition sweep_body (st : list (list float) * Z) (sweep_number : Z)
  : result (list (list float) * Z) :=
  let '(time_range, cp) := st in
  ss <- of_option IndexError (Py.get sweeps sweep_number) ;;
  se <- of_option IndexError (Py.get sweepe sweep_number) ;;
  rle <- of_option IndexError (Py.get ray_len ss) ;;
  if uniform_check ss se rle then
    ' (r, c, block) <-
        reshape2 (Py.slice data cp (cp + int32 ((se - ss) * rle)))
          (se - ss) rle ;;
    time_range' <- assign_block maxgates time_range ss se rle r c block ;;
    Ok (time_range', cp + int32 ((se - ss) * rle))
  else
    time_range' <- for_each (copy_ray ss) (Py.range (se - ss)) time_range ;;
    Ok (time_range', cp + Py.sum (Py.slice ray_len ss se)).

Definition _stream_to_2d : result (list (list float)) :=
  st <- for_each sweep_body (Py.range (Py.len sweepe))
          (full nrays maxgates sentinel, 0) ;;
  Ok (fst st).
End StreamTo2d.

End Stream.

(** ** numpy arrays and Python values

    An array is its dtype, its shape and its items in row-major order.
    Only what cfradial.py looks at is kept: the dtype's kind and item
    size, the shape, and the items themselves. *)

Inductive strkind : Type := Bytes | Unicode.   (* dtype.char 'S' / 'U' *)

Inductive dtype : Type :=
| DFloat
| DInt
| DStr (k : strkind) (itemsize : nat).

Inductive item : Type :=
| IFloat (x : float)
| IInt (n : Z)
| IStr (s : string).

Record ndarray : Type := mk_ndarray {
  nd_dtype : dtype;
  nd_shape : list nat;
  nd_items : list item
}.

Inductive value : Type :=
| VNone
| VStr (s : string)
| VInt (n : Z)
| VFloat (x : float)
| VArr (a : ndarray).

(** An attributed array: a dictionary with the array under ['data'] and
    its attributes under their names. *)
Definition attr_array : Type := dict value.

Definition dtype_eqb (a b : dtype) : bool :=
  match a, b with
  | DFloat, DFloat => true
  | DInt, DInt => true
  | DStr Bytes n, DStr Bytes m => Nat.eqb n m
  | DStr Unicode n, DStr Unicode m => Nat.eqb n m
  | _, _ => false
  end.

Definition nd_size (a : ndarray) : nat := fold_right Nat.mul 1%nat (nd_shape a).

(** [len(a)]: the first dimension; a 0-d array has no length. *)
Definition nd_len (a : ndarray) : result Z :=
  match nd_shape a with
  | [] => Raise TypeError
  | n :: _ => Ok (Z.of_nat n)
  end.

(** [a[i]] for a 1-D array: the item itself. *)
Definition nd_item (a : ndarray) (i : Z) : result item :=
  of_option IndexError (Py.get (nd_items a) i).

(** [a[0]]: the first item of a 1-D array, the first row of a 2-D one,
    given as the list of its items. *)
Definition nd_first (a : ndarray) : result (list item) :=
  match nd_shape a with
  | [] => Raise IndexError
  | O :: _ => Raise IndexError
  | S _ :: rest => Ok (firstn (fold_right Nat.mul 1%nat rest) (nd_items a))
  end.

(** [np.array(s)] / [np.array(s, dtype='S')] for a Python string: a 0-d
    array whose item size is the string's length (1 for the empty string). *)
Definition np_array_str (s : string) : ndarray :=
  mk_ndarray (DStr Bytes (Nat.max 1 (String.length s))) [] [IStr s].

(** Whether a Python int fits an int32 cell. *)
Definition fits_int32 (n : Z) : bool := (- 2 ^ 31 <=? n) && (n <? 2 ^ 31).

(** [int(x)] for a float: truncation toward zero. *)
Definition float_trunc (x : float) : result Z :=
  match Prim2SF x with
  | S754_zero _ => Ok 0
  | S754_finite s m e =>
      let v := if 0 <=? e then Zpos m * 2 ^ e else Zpos m / 2 ^ (- e) in
      Ok (if s then - v else v)
  | S754_infinity _ => Raise ValueError
  | S754_nan => Raise ValueError
  end.

(** The float64 cell an integer is cast to. *)
Definition float_of_Z (n : Z) : float :=
  if n <? 0 then (- PrimFloat.of_uint63 (Uint63.of_Z (- n)))%float
  else PrimFloat.of_uint63 (Uint63.of_Z n).

Definition item_int (i : item) : result Z :=
  match i with
  | IInt n => Ok n
  | IFloat x => float_trunc x
  | IStr _ => Raise ValueError
  end.

(** An item used as an index: only integers index an array. *)
Definition item_index (i : item) : result Z :=
  match i with
  | IInt n => Ok n
  | _ => Raise IndexError
  end.

(** An item stored into a float64 array. *)
Definition item_float (i : item) : result float :=
  match i with
  | IFloat x => Ok x
  | IInt n => Ok (float_of_Z n)
  | IStr _ => Raise ValueError
  end.

(** [x == 0] for an array item. *)
Definition item_is_zero (i : item) : bool :=
  match i with
  | IFloat x => PrimFloat.eqb x 0
  | IInt n => n =? 0
  | IStr _ => false
  end.

Fixpoint mapM {A B : Type} (f : A -> result B) (l : list A) : result (list B) :=
  match l with
  | [] => Ok []
  | x :: l' =>
      rbind (f x) (fun y => rbind (mapM f l') (fun ys => Ok (y :: ys)))
  end.

(** [np.array(v)] for what is not yet an array (line 627). *)
Definition np_array (v : value) : result ndarray :=
  match v with
  | VArr a => Ok a
  | VStr s => Ok (np_array_str s)
  | VInt n => Ok (mk_ndarray DInt [] [IInt n])
  | VFloat x => Ok (mk_ndarray DFloat [] [IFloat x])
  | VNone => Raise TypeError
  end.

(** ** The file layer: netCDF4 datasets

    A dataset is its dimensions, its global attributes and its variables,
    each in creation order.  A variable keeps its dimension names, its
    attributes in the order the file holds them, and its data. *)

Record Variable_ : Type := mk_var {
  var_dtype : dtype;
  var_dimensions : list string;
  var_attrs : dict value;
  var_data : ndarray
}.

Record Dataset : Type := mk_dataset {
  ds_dimensions : dict (option Z);      (* [None]: unlimited *)
  ds_attrs : dict value;
  ds_variables : dict Variable_;
  ds_closed : bool
}.

(** [netCDF4.Dataset(filename, 'w')] *)
Definition new_dataset : Dataset := mk_dataset [] [] [] false.

(** What lies outside this module and is taken as given: the attributes
    the file layer assigns to a variable when it creates it (from the
    [least_significant_digit] and [fill_value] it is passed), the string
    to character array bridge of [pyart.io.common], and the calendar
    functions used on time values, and numpy's conversion to int32 of
    what is not a Python int that fits 32 bits (a float, a string, an
    array, an int out of range: what numpy makes of these, or whether it
    raises, is its own and has changed between its versions). *)
Record externals : Type := mk_externals {
  created_attrs : value -> value -> dict value;
  stringarray_to_chararray : ndarray -> result ndarray;
  numpy_int32 : value -> result ndarray;     (* np.array([v], dtype='int32') *)
  datetime : Type;
  num2date : item -> value -> result datetime;
  isoformat : datetime -> string;
  strftime_arm : datetime -> string;     (* '%d-%b-%Y,%H:%M:%S GMT' *)
  epoch_seconds : datetime -> Z          (* td.seconds + td.days * 24 * 3600 *)
}.

(** [np.array([v], dtype='int32')] (lines 435 and 557-560): a Python int
    that fits is the one cell of the array. *)
Definition np_int32_of (ext : externals) (v : value) : result ndarray :=
  match v with
  | VInt n =>
      if fits_int32 n then Ok (mk_ndarray DInt [1%nat] [IInt n])
      else numpy_int32 ext v
  | _ => numpy_int32 ext v
  end.

(** The identity of the caller and the clock, read when a history
    attribute is synthesized. *)
Record environment : Type := mk_environment {
  getuser : string;          (* getpass.getuser() *)
  node : string;             (* platform.node() *)
  now_isoformat : string     (* datetime.datetime.now().isoformat() *)
}.

(** ** The radar volume record

    [pyart.core.radar.Radar] is a plain record of attributed arrays;
    [ngates] and [nsweeps] are the lengths its constructor derives from
    [range] and [sweep_number]. *)

Module Radar.
Record t : Type := mk {
  time : attr_array;
  range : attr_array;
  fields : dict attr_array;
  metadata : dict value;
  scan_type : string;
  latitude : attr_array;
  longitude : attr_array;
  altitude : attr_array;
  sweep_number : attr_array;
  sweep_mode : attr_array;
  fixed_angle : attr_array;
  sweep_start_ray_index : attr_array;
  sweep_end_ray_index : attr_array;
  azimuth : attr_array;
  elevation : attr_array;
  instrument_parameters : option (dict attr_array);
  radar_calibration : option (dict attr_array);
  altitude_agl : option attr_array;
  scan_rate : option attr_array;
  antenna_transition : option attr_array;
  target_scan_rate : option attr_array;
  rotation : option attr_array;
  tilt : option attr_array;
  roll : option attr_array;
  drift : option attr_array;
  heading : option attr_array;
  pitch : option attr_array;
  georefs_applied : option attr_array;
  ngates : Z;
  nsweeps : Z
}.
End Radar.

(** [d[k]] *)
Definition getitem {V : Type} (d : dict V) (k : string) : result V :=
  of_option (KeyError k) (dict_get d k).

(** [len(v)] *)
Definition value_len (v : value) : result Z :=
  match v with
  | VArr a => nd_len a
  | VStr s => Ok (Z.of_nat (String.length s))
  | _ => Raise TypeError
  end.

(** [v[i]] where an item is expected (a 1-D array). *)
Definition value_item (v : value) (i : Z) : result item :=
  match v with
  | VArr a =>
      match nd_shape a with
      | [_] => nd_item a i
      | [] => Raise IndexError
      | _ => Raise TypeError
      end
  | _ => Raise TypeError
  end.

(** [len(v[0])]: the width of the first row of a character array, or
    the length of the first string of a string array. *)
Definition first_len (v : value) : result Z :=
  match v with
  | VArr a =>
      match nd_shape a with
      | [] => Raise IndexError
      | [_] =>
          rbind (nd_item a 0)
                (fun i => match i with
                          | IStr s => Ok (Z.of_nat (String.length s))
                          | _ => Raise TypeError
                          end)
      | O :: _ => Raise IndexError
      | _ :: m :: _ => Ok (Z.of_nat m)
      end
  | VStr s =>
      match s with
      | EmptyString => Raise IndexError
      | String _ _ => Ok 1
      end
  | _ => Raise TypeError
  end.

(** [v.size] *)
Definition value_size (v : value) : result Z :=
  match v with
  | VArr a => Ok (Z.of_nat (nd_size a))
  | _ => Raise TypeError
  end.

Definition value_str (v : value) : result string :=
  match v with
  | VStr s => Ok s
  | _ => Raise TypeError
  end.

(** [s.replace('T', ' ').replace('Z', '')] *)
Fixpoint arm_units (s : string) : string :=
  match s with
  | EmptyString => EmptyString
  | String c s' =>
      if Ascii.eqb c "T" then String " " (arm_units s')
      else if Ascii.eqb c "Z" then arm_units s'
      else String c (arm_units s')
  end.

(** Variables and dimensions of the instrument_parameter convention and
    radar_parameters sub-convention (lines 37-61). *)
Definition _INSTRUMENT_PARAMS_DIMS : dict (list string) :=
  [ ("frequency", ["frequency"]);
    ("follow_mode", ["sweep"; "string_length"]);
    ("pulse_width", ["time"]);
    ("prt_mode", ["sweep"; "string_length"]);
    ("prt", ["time"]);
    ("prt_ratio", ["time"]);
    ("polarization_mode", ["sweep"; "string_length"]);
    ("nyquist_velocity", ["time"]);
    ("unambiguous_range", ["time"]);
    ("n_samples", ["time"]);
    ("sampling_ratio", ["time"]);
    ("radar_antenna_gain_h", []);
    ("radar_antenna_gain_v", []);
    ("radar_beam_width_h", []);
    ("radar_beam_width_v", []);
    ("radar_reciever_bandwidth", []);
    ("radar_measured_transmit_power_h", ["time"]);
    ("radar_measured_transmit_power_v", ["time"]);
    ("radar_rx_bandwidth", []);
    ("measured_transmit_power_v", ["time"]);
    ("measured_transmit_power_h", ["time"]) ].

(** ** Writing: the dataset is threaded through, exceptions propagate *)

Definition M (A : Type) : Type := Dataset -> result (A * Dataset).

Definition ret {A : Type} (a : A) : M A := fun ds => Ok (a, ds).

Definition bind {A B : Type} (m : M A) (f : A -> M B) : M B :=
  fun ds =>
    match m ds with
    | Ok (a, ds') => f a ds'
    | Raise e => Raise e
    end.

(** A computation that does not touch the dataset. *)
Definition lift {A : Type} (r : result A) : M A :=
  fun ds =>
    match r with
    | Ok a => Ok (a, ds)
    | Raise e => Raise e
    end.

Declare Scope nc_scope.
Delimit Scope nc_scope with nc.
Notation "x <- m ;; k" := (bind m (fun x => k))
  (at level 61, m at next level, right associativity) : nc_scope.
Notation "m ;; k" := (bind m (fun _ => k))
  (at level 61, right associativity) : nc_scope.

(** [if c: body] *)
Definition when (c : bool) (body : M unit) : M unit :=
  if c then body else ret tt.

(** [for x in l: body x] *)
Fixpoint forM {X : Type} (l : list X) (body : X -> M unit) : M unit :=
  match l with
  | [] => ret tt
  | x :: l' => bind (body x) (fun _ => forM l' body)
  end.

(** [if o is not None: body o] *)
Definition when_set {X : Type} (o : option X) (body : X -> M unit) : M unit :=
  match o with
  | Some x => body x
  | None => ret tt
  end.

Section FileLayer.
Variable ext : externals.
Local Open Scope nc_scope.

Definition createDimension (name : string) (size : option Z) : M unit :=
  fun ds =>
    if dict_has (ds_dimensions ds) name then Raise RuntimeError
    else Ok (tt, mk_dataset (dict_set (ds_dimensions ds) name size)
                   (ds_attrs ds) (ds_variables ds) (ds_closed ds)).

Definition setncattr (k : string) (v : value) : M unit :=
  fun ds =>
    Ok (tt, mk_dataset (ds_dimensions ds) (dict_set (ds_attrs ds) k v)
              (ds_variables ds) (ds_closed ds)).

Definition setncatts (d : dict value) : M unit :=
  forM d (fun kv => setncattr (fst kv) (snd kv)).

Definition ncattrs : M (list string) :=
  fun ds => Ok (dict_keys (ds_attrs ds), ds).

Definition close : M unit :=
  fun ds =>
    Ok (tt, mk_dataset (ds_dimensions ds) (ds_attrs ds) (ds_variables ds) true).

(** [dataset.createVariable(name, dtype, dimensions, zlib=True,
    least_significant_digit=lsd, fill_value=fill_value)]: the name must
    be new and the dimensions declared; the variable starts with the
    attributes the file layer assigns and no data. *)
Definition createVariable (name : string) (dt : dtype)
    (dimensions : list string) (lsd fill_value : value) : M unit :=
  fun ds =>
    if dict_has (ds_variables ds) name then Raise RuntimeError
    else if forallb (dict_has (ds_dimensions ds)) dimensions then
      Ok (tt, mk_dataset (ds_dimensions ds) (ds_attrs ds)
                (dict_set (ds_variables ds) name
                   (mk_var dt dimensions (created_attrs ext lsd fill_value)
                      (mk_ndarray dt [] [])))
                (ds_closed ds))
    else Raise ValueError.

(** The variable object [ncvar] is the entry of that name. *)
Definition get_var (name : string) : M Variable_ :=
  fun ds =>
    match dict_get (ds_variables ds) name with
    | Some v => Ok (v, ds)
    | None => Raise (KeyError name)
    end.

Definition put_var (name : string) (v : Variable_) : M unit :=
  fun ds =>
    Ok (tt, mk_dataset (ds_dimensions ds) (ds_attrs ds)
              (dict_set (ds_variables ds) name v) (ds_closed ds)).

(** [ncvar.setncattr(k, x)].  The file layer's refusal of a value it
    cannot store (an attribute of None raises TypeError) is not
    modelled: what is proved of a written file is proved of a write
    that succeeded. *)
Definition var_setncattr (name k : string) (x : value) : M unit :=
  v <- get_var name ;;
  put_var name (mk_var (var_dtype v) (var_dimensions v)
                  (dict_set (var_attrs v) k x) (var_data v)).

Definition var_delncattr (name k : string) : M unit :=
  v <- get_var name ;;
  put_var name (mk_var (var_dtype v) (var_dimensions v)
                  (dict_del (var_attrs v) k) (var_data v)).

Definition var_ncattrs (name : string) : M (list string) :=
  v <- get_var name ;;
  ret (dict_keys (var_attrs v)).

Definition var_getattr (name k : string) : M value :=
  v <- get_var name ;;
  lift (getitem (var_attrs v) k).

(** [ncvar[:] = data[:]], and [ncvar[..., :n] = data[:]] for character
    data: the variable holds what it was given (the file layer pads a
    character row up to the string_length dimension).  The file layer's
    refusal of data that does not conform to the variable's dimensions
    (IndexError) is not modelled, nor is its own encoding of the data
    (compression, quantization by least_significant_digit, packing,
    masking by the fill value): a write that succeeds here may fail
    there, and a variable read back is the array that was stored. *)
Definition var_assign (name : string) (data : ndarray) : M unit :=
  v <- get_var name ;;
  put_var name (mk_var (var_dtype v) (var_dimensions v) (var_attrs v) data).

(** *** [_create_ncvar] (lines 607-674) *)

Definition is_str_not_1 (k : strkind) (dt : dtype) : bool :=
  match k, dt with
  | Bytes, DStr Bytes n => negb (Nat.eqb n 1)
  | Unicode, DStr Unicode n => negb (Nat.eqb n 1)
  | _, _ => false
  end.

Definition dict_get_or_none (dic : attr_array) (k : string) : value :=
  match dict_get dic k with
  | Some v => v
  | None => VNone
  end.

(** Lines 623-633: the array to write.  What is not an array is made
    one (the warning printed then is left out), string arrays become
    character arrays. *)
Definition array_to_write (dic : attr_array) : result ndarray :=
  (* create array from list, etc. *)
  (data <- getitem dic "data" ;;
   data <- np_array data ;;
   (* convert string array to character arrays *)
   data <- (if is_str_not_1 Bytes (nd_dtype data)
            then stringarray_to_chararray ext data else Ok data) ;;
   data <- (if is_str_not_1 Unicode (nd_dtype data)
            then stringarray_to_chararray ext data else Ok data) ;;
   Ok data)%result.

(** Lines 669-670: [if data.shape == (): data.shape = (1,)].  The
    record's own array is reshaped in place by this; the record is not
    looked at again afterwards. *)
Definition at_least_1d (data : ndarray) : ndarray :=
  match nd_shape data with
  | [] => mk_ndarray (nd_dtype data) [1%nat] (nd_items data)
  | _ => data
  end.

Definition _create_ncvar (dic : attr_array) (name : string)
    (dimensions : list string) : M unit :=
  data <- lift (array_to_write dic) ;;
  (* create the dataset variable *)
  let lsd := dict_get_or_none dic "least_significant_digit" in
  let fill_value := dict_get_or_none dic "_FillValue" in
  createVariable name (nd_dtype data) dimensions lsd fill_value ;;
  (* long_name attribute first if present, ARM standard *)
  when_set (dict_get dic "long_name") (var_setncattr name "long_name") ;;
  (* units attribute second if present, ARM standard *)
  when_set (dict_get dic "units") (var_setncattr name "units") ;;
  (* remove _FillValue and replace to make it the third attribute. *)
  attrs <- var_ncattrs name ;;
  when (str_in "_FillValue" attrs)
    (fv <- var_getattr name "_FillValue" ;;
     var_delncattr name "_FillValue" ;;
     var_setncattr name "_FillValue" fv) ;;
  (* set all attributes *)
  forM dic (fun kv =>
    when (negb (str_in (fst kv) ["data"; "_FillValue"; "long_name"; "units"]))
      (var_setncattr name (fst kv) (snd kv))) ;;
  (* set the data *)
  var_assign name (at_least_1d data).
End FileLayer.

(** *** [write_cfradial] (lines 350-604)

    [time_reference] is the caller's tri-state (None, True, False); the
    [format] argument only selects the file layer's encoding and is left
    out.  Dictionary literals are iterated in the order they are written. *)

Section Writer.
Variable ext : externals.
Variable env : environment.

Definition create_ncvar := _create_ncvar ext.

(** Lines 383-390: the maximum string length, at least 32. *)
Definition string_length (radar : Radar.t) : result Z :=
  (data <- getitem (Radar.sweep_mode radar) "data" ;;
   max_str_len <- first_len data ;;
   max_str_len <-
     for_each
       (fun max_str_len k =>
          match Radar.instrument_parameters radar with
          | Some ip =>
              match dict_get ip k with
              | Some d =>
                  data <- getitem d "data" ;;
                  sdim_length <- first_len data ;;
                  Ok (Z.max max_str_len sdim_length)
              | None => Ok max_str_len
              end
          | None => Ok max_str_len
          end)
       ["follow_mode"; "prt_mode"; "polarization_mode"] max_str_len ;;
   Ok (Z.max max_str_len 32))%result.

Local Open Scope nc_scope.

(** Lines 392-396. *)
Definition create_dimensions (radar : Radar.t) : M unit :=
  str_len <- lift (string_length radar) ;;
  createDimension "time" None ;;
  createDimension "range" (Some (Radar.ngates radar)) ;;
  createDimension "sweep" (Some (Radar.nsweeps radar)) ;;
  createDimension "string_length" (Some str_len).

Definition global_variables : list string :=
  ["volume_number"; "platform_type"; "instrument_type"; "primary_axis";
   "time_coverage_start"; "time_coverage_end"; "time_reference"].

(** Line 417: ['created by %s on %s at %s using Py-ART' % (t)] *)
Definition synthesized_history : string :=
  ("created by " ++ getuser env ++ " on " ++ node env ++ " at "
     ++ now_isoformat env ++ " using Py-ART")%string.

(** Lines 400-417: the metadata to copy and the history attribute. *)
Definition metadata_copy (radar : Radar.t) : dict value :=
  fold_left (@dict_del value) global_variables (Radar.metadata radar).

Definition history_of (radar : Radar.t) : value :=
  match dict_get (metadata_copy radar) "history" with
  | Some h => h
  | None => VStr synthesized_history
  end.

(** Lines 398-428. *)
Definition write_global_attributes (radar : Radar.t) : M unit :=
  setncatts (dict_del (metadata_copy radar) "history") ;;
  attrs <- ncattrs ;;
  when (negb (str_in "Conventions" attrs))
    (setncattr "Conventions" (VStr "CF/Radial")) ;;
  attrs <- ncattrs ;;
  when (negb (str_in "field_names" attrs))
    (setncattr "field_names"
       (VStr (String.concat ", " (dict_keys (Radar.fields radar))))) ;;
  (* history should be the last attribute, ARM standard *)
  setncattr "history" (history_of radar).

(** Lines 430-450. *)
Definition write_arm_time_variables (radar : Radar.t) : M unit :=
  data <- lift (getitem (Radar.time radar) "data") ;;
  t0 <- lift (value_item data 0) ;;
  units <- lift (getitem (Radar.time radar) "units") ;;
  dt <- lift (num2date ext t0 units) ;;
  base <- lift (np_int32_of ext (VInt (epoch_seconds ext dt))) ;;
  create_ncvar
    [ ("data", VArr base);
      ("string", VStr (strftime_arm ext dt));
      ("units", VStr "seconds since 1970-1-1 0:00:00 0:00");
      ("ancillary_variables", VStr "time_offset");
      ("long_name", VStr "Base time in Epoch") ]
    "base_time" [] ;;
  data <- lift (getitem (Radar.time radar) "data") ;;
  units <- lift (getitem (Radar.time radar) "units") ;;
  units <- lift (value_str units) ;;
  create_ncvar
    [ ("data", data);
      ("long_name", VStr "Time offset from base_time");
      ("units", VStr (arm_units units));
      ("ancillary_variables", VStr "time_offset");
      ("calendar", VStr "gregorian") ]
    "time_offset" ["time"].

(** Lines 452-480: standard variables, optional sensor pointing
    variables, fields and sweep parameters. *)
Definition write_standard_variables (radar : Radar.t) : M unit :=
  create_ncvar (Radar.time radar) "time" ["time"] ;;
  create_ncvar (Radar.range radar) "range" ["range"] ;;
  create_ncvar (Radar.azimuth radar) "azimuth" ["time"] ;;
  create_ncvar (Radar.elevation radar) "elevation" ["time"] ;;
  when_set (Radar.scan_rate radar)
    (fun d => create_ncvar d "scan_rate" ["time"]) ;;
  when_set (Radar.antenna_transition radar)
    (fun d => create_ncvar d "antenna_transition" ["time"]).

Definition write_fields (radar : Radar.t) : M unit :=
  forM (Radar.fields radar)
    (fun kv => create_ncvar (snd kv) (fst kv) ["time"; "range"]).

Definition write_sweep_parameters (radar : Radar.t) : M unit :=
  create_ncvar (Radar.sweep_number radar) "sweep_number" ["sweep"] ;;
  create_ncvar (Radar.fixed_angle radar) "fixed_angle" ["sweep"] ;;
  create_ncvar (Radar.sweep_start_ray_index radar)
    "sweep_start_ray_index" ["sweep"] ;;
  create_ncvar (Radar.sweep_end_ray_index radar)
    "sweep_end_ray_index" ["sweep"] ;;
  create_ncvar (Radar.sweep_mode radar) "sweep_mode"
    ["sweep"; "string_length"] ;;
  when_set (Radar.target_scan_rate radar)
    (fun d => create_ncvar d "target_scan_rate" ["sweep"]).

(** Lines 482-494. *)
Definition write_instrument_parameters (radar : Radar.t) : M unit :=
  when_set (Radar.instrument_parameters radar)
    (fun ip =>
       when_set (dict_get ip "frequency")
         (fun d =>
            data <- lift (getitem d "data") ;;
            size <- lift (value_len data) ;;
            createDimension "frequency" (Some size))) ;;
  when_set (Radar.instrument_parameters radar)
    (fun ip =>
       forM ip
         (fun kv =>
            let dim := match dict_get _INSTRUMENT_PARAMS_DIMS (fst kv) with
                       | Some dim => dim
                       | None => []
                       end in
            create_ncvar (snd kv) (fst kv) dim)).

(** Line 498-499: the list of the lengths of every entry other than
    r_calib_index and r_calib_time, then its first element. *)
Definition r_calib_size (rc : dict attr_array) : result Z :=
  (sizes <- mapM (fun kd => data <- getitem (snd kd) "data" ;; value_len data)
              (filter
                 (fun kd => negb (str_in (fst kd)
                                    ["r_calib_index"; "r_calib_time"]))
                 rc) ;;
   of_option IndexError (hd_error sizes))%result.

(** Lines 496-508. *)
Definition write_radar_calibration (radar : Radar.t) : M unit :=
  when_set (Radar.radar_calibration radar)
    (fun rc =>
       size <- lift (r_calib_size rc) ;;
       createDimension "r_calib" (Some size) ;;
       forM rc
         (fun kv =>
            let dims :=
              if String.eqb (fst kv) "r_calib_index" then ["time"]
              else if String.eqb (fst kv) "r_calib_time"
                   then ["r_calib"; "string_length"]
                   else ["r_calib"] in
            create_ncvar (snd kv) (fst kv) dims)).

(** Lines 510-525: a single value is a stationary platform. *)
Definition write_location (radar : Radar.t) : M unit :=
  data <- lift (getitem (Radar.latitude radar) "data") ;;
  size <- lift (value_size data) ;;
  let dims := if size =? 1 then [] else ["time"] in
  create_ncvar (Radar.latitude radar) "latitude" dims ;;
  create_ncvar (Radar.longitude radar) "longitude" dims ;;
  create_ncvar (Radar.altitude radar) "altitude" dims ;;
  when_set (Radar.altitude_agl radar)
    (fun d => create_ncvar d "altitude_agl" dims).

(** Lines 527-539. *)
Definition write_time_coverage (radar : Radar.t) : M unit :=
  units <- lift (getitem (Radar.time radar) "units") ;;
  data <- lift (getitem (Radar.time radar) "data") ;;
  t0 <- lift (value_item data 0) ;;
  start_dt <- lift (num2date ext t0 units) ;;
  data <- lift (getitem (Radar.time radar) "data") ;;
  t1 <- lift (value_item data (-1)) ;;
  end_dt <- lift (num2date ext t1 units) ;;
  create_ncvar
    [ ("data", VArr (np_array_str (isoformat ext start_dt ++ "Z")));
      ("long_name", VStr "UTC time of first ray in the file");
      ("units", VStr "unitless") ]
    "time_coverage_start" ["string_length"] ;;
  create_ncvar
    [ ("data", VArr (np_array_str (isoformat ext end_dt ++ "Z")));
      ("long_name", VStr "UTC time of last ray in the file");
      ("units", VStr "unitless") ]
    "time_coverage_end" ["string_length"].

(** Lines 542-546: whether time_reference is required or requested. *)
Definition time_reference_wanted (radar : Radar.t)
    (time_reference : option bool) : result bool :=
  match time_reference with
  | Some b => Ok b
  | None =>
      (data <- getitem (Radar.time radar) "data" ;;
       t0 <- value_item data 0 ;;
       Ok (negb (item_is_zero t0)))%result
  end.

(** Line 548: [np.array(radar.time['units'][-20:], dtype='S')] *)
Definition time_reference_data (units : string) : ndarray :=
  np_array_str (Py.str_slice_from units (-20)).

Definition ref_dic (units : string) : attr_array :=
  [ ("data", VArr (time_reference_data units));
    ("long_name", VStr "UTC time reference");
    ("units", VStr "unitless") ].

(** Lines 541-551. *)
Definition write_time_reference (radar : Radar.t)
    (time_reference : option bool) : M unit :=
  wanted <- lift (time_reference_wanted radar time_reference) ;;
  when wanted
    (units <- lift (getitem (Radar.time radar) "units") ;;
     units <- lift (value_str units) ;;
     create_ncvar (ref_dic units) "time_reference" ["string_length"]).

(** Lines 553-579: global variables. *)
Definition write_global_variables (radar : Radar.t) : M unit :=
  data <- lift (match dict_get (Radar.metadata radar) "volume_number" with
                | Some v => np_int32_of ext v
                | None => np_int32_of ext (VInt 0)
                end) ;;
  create_ncvar
    [ ("long_name", VStr "Volume number"); ("units", VStr "unitless");
      ("data", VArr data) ]
    "volume_number" [] ;;
  when_set (dict_get (Radar.metadata radar) "platform_type")
    (fun v =>
       data <- lift (np_array v) ;;
       create_ncvar [ ("long_name", VStr "Platform type"); ("data", VArr data) ]
         "platform_type" ["string_length"]) ;;
  when_set (dict_get (Radar.metadata radar) "instrument_type")
    (fun v =>
       data <- lift (np_array v) ;;
       create_ncvar [ ("long_name", VStr "Instrument type"); ("data", VArr data) ]
         "instrument_type" ["string_length"]) ;;
  when_set (dict_get (Radar.metadata radar) "primary_axis")
    (fun v =>
       data <- lift (np_array v) ;;
       create_ncvar [ ("long_name", VStr "Primary axis"); ("data", VArr data) ]
         "primary_axis" ["string_length"]).

(** Lines 581-602: moving platform geo-reference variables. *)
Definition write_georeference (radar : Radar.t) : M unit :=
  when_set (Radar.rotation radar) (fun d => create_ncvar d "rotation" ["time"]) ;;
  when_set (Radar.tilt radar) (fun d => create_ncvar d "tilt" ["time"]) ;;
  when_set (Radar.roll radar) (fun d => create_ncvar d "roll" ["time"]) ;;
  when_set (Radar.drift radar) (fun d => create_ncvar d "drift" ["time"]) ;;
  when_set (Radar.heading radar) (fun d => create_ncvar d "heading" ["time"]) ;;
  when_set (Radar.pitch radar) (fun d => create_ncvar d "pitch" ["time"]) ;;
  when_set (Radar.georefs_applied radar)
    (fun d => create_ncvar d "georefs_applied" ["time"]).

(** The body of [write_cfradial], run on the dataset it has opened. *)
Definition write_body (radar : Radar.t) (time_reference : option bool)
    (arm_time_variables : bool) : M unit :=
  create_dimensions radar ;;
  write_global_attributes radar ;;
  when arm_time_variables (write_arm_time_variables radar) ;;
  write_standard_variables radar ;;
  write_fields radar ;;
  write_sweep_parameters radar ;;
  write_instrument_parameters radar ;;
  write_radar_calibration radar ;;
  write_location radar ;;
  write_time_coverage radar ;;
  write_time_reference radar time_reference ;;
  write_global_variables radar ;;
  write_georeference radar ;;
  close.

(** The file [write_cfradial] leaves behind, or the exception it
    propagates. *)
Definition write_cfradial (radar : Radar.t) (time_reference : option bool)
    (arm_time_variables : bool) : result Dataset :=
  match write_body radar time_reference arm_time_variables new_dataset with
  | Ok (_, ds) => Ok ds
  | Raise e => Raise e
  end.
End Writer.

(** ** Reading *)

(** [_ncvar_to_dict] (lines 304-313): the attributes and the data.  As
    the comment of lines 309-310 has it, reading a 0-dimensional variable
    gives a scalar ("netCDF4 1.1.0+ returns a scalar for 0-dim array"),
    which line 308 detects and lines 311-312 turn into an array of shape
    [(1,)]; a file layer that hands back a 0-d array instead would leave
    it as it is. *)
Definition _ncvar_to_dict (ncvar : Variable_) : attr_array :=
  dict_set (var_attrs ncvar) "data" (VArr (at_least_1d (var_data ncvar))).

(** [v.meta_group == meta_group_name] *)
Definition value_is_str (v : value) (s : string) : bool :=
  match v with
  | VStr s' => String.eqb s' s
  | _ => false
  end.

(** [_find_all_meta_group_vars] (lines 296-301). *)
Definition _find_all_meta_group_vars (ncvars : dict Variable_)
    (meta_group_name : string) : list string :=
  map fst
    (filter
       (fun kv =>
          match dict_get (var_attrs (snd kv)) "meta_group" with
          | Some g => value_is_str g meta_group_name
          | None => false
          end)
       ncvars).

(** [str(netCDF4.chartostring(a))] for one row of characters: the
    characters joined, trailing NULs dropped. *)
Fixpoint strip_nul (s : string) : string :=
  match s with
  | EmptyString => EmptyString
  | String c s' =>
      match strip_nul s' with
      | EmptyString => if Ascii.eqb c Ascii.zero then EmptyString
                       else String c EmptyString
      | t => String c t
      end
  end.

Definition chartostring (row : list item) : result string :=
  rbind
    (mapM (fun i => match i with
                    | IStr s => Ok s
                    | _ => Raise TypeError
                    end) row)
    (fun l => Ok (strip_nul (String.concat EmptyString l))).

(** [int(a)] for an array read from a variable: one element only. *)
Definition int_of_array (a : ndarray) : result Z :=
  match nd_items a with
  | [i] => item_int i
  | _ => Raise TypeError
  end.

(** Modelled from the spec: the constructor of [pyart.core.radar.Radar],
    which is not part of this module.  It keeps its arguments as they are
    and derives the scalars [ngates] and [nsweeps] from the lengths of
    [range] and [sweep_number]. *)
Definition data_len (d : attr_array) : result Z :=
  rbind (getitem d "data") value_len.

(** Modelled from the spec: [FileMetadata.get_field_name] of
    [pyart.config], which is not part of this module.  The field-name
    policy is a translation mapping from on-disk field name to output
    field name, a flag to use the on-disk names verbatim, and an
    exclusion set that is applied after the translation; one of these
    gives the output name of a field, [None] when it has none. *)
Module FileMetadata.
Record t : Type := mk {
  field_names : option (dict (option string));
  file_field_names : bool;
  exclude_fields : option (list string)
}.

Definition get_field_name (fm : t) (file_field_name : string) : option string :=
  let translated :=
    if file_field_names fm then Some file_field_name
    else match field_names fm with
         | None => Some file_field_name
         | Some names =>
             match dict_get names file_field_name with
             | Some (Some field_name) => Some field_name
             | _ => None
             end
         end in
  match translated with
  | Some field_name =>
      match exclude_fields fm with
      | Some ex => if str_in field_name ex then None else Some field_name
      | None => Some field_name
      end
  | None => None
  end.
End FileMetadata.

Section Reader.
(** [filemetadata.get_field_name] and the [exclude_fields] argument. *)
Variable get_field_name : string -> option string.
Variable exclude_fields : option (list string).

Local Open Scope result_scope.

Definition excluded (key : string) : bool :=
  match exclude_fields with
  | Some ex => str_in key ex
  | None => false
  end.

(** Lines 238-244 and 257-265: one turn of the loop over field keys;
    [convert] is [_ncvar_to_dict] or [_stream_ncvar_to_dict]. *)
Definition add_field (convert : Variable_ -> result attr_array)
    (ncvars : dict Variable_) (fields : dict attr_array) (key : string)
  : result (dict attr_array) :=
  match get_field_name key with
  | Some field_name =>
      ncvar <- getitem ncvars key ;;
      d <- convert ncvar ;;
      Ok (dict_set fields field_name d)
  | None =>
      if excluded key then Ok fields
      else
        ncvar <- getitem ncvars key ;;
        d <- convert ncvar ;;
        Ok (dict_set fields key d)
  end.

(** Lines 234-244: every variable with dimensions [('time', 'range')]
    is a field. *)
Definition cfradial_field_keys (ncvars : dict Variable_) : list string :=
  map fst
    (filter
       (fun kv =>
          strs_eqb (var_dimensions (snd kv)) ["time"; "range"])
       ncvars).

Definition read_fields_cfradial (ncvars : dict Variable_)
  : result (dict attr_array) :=
  for_each (add_field (fun v => Ok (_ncvar_to_dict v)) ncvars)
    (cfradial_field_keys ncvars) [].

(** An index variable read whole, and one item of it. *)
Definition index_array (ncvars : dict Variable_) (name : string)
  : result (list Z) :=
  v <- getitem ncvars name ;;
  mapM item_index (nd_items (var_data v)).

Definition shape0 (ncvars : dict Variable_) (name : string) : result nat :=
  v <- getitem ncvars name ;;
  of_option IndexError (hd_error (nd_shape (var_data v))).

(** [_stream_ncvar_to_dict] (lines 316-323). *)
Definition _stream_ncvar_to_dict (ncvar : Variable_)
    (sweeps sweepe ray_len : list Z) (maxgates nrays : nat)
    (ray_start_index : list Z) : result attr_array :=
  cells <- mapM item_float (nd_items (var_data ncvar)) ;;
  data <- Stream._stream_to_2d cells sweeps sweepe ray_len maxgates nrays
            ray_start_index ;;
  Ok (dict_set (var_attrs ncvar) "data"
        (VArr (mk_ndarray DFloat [nrays; maxgates]
                 (map IFloat (List.concat data))))).

(** Lines 246-265: the stream layout. *)
Definition read_fields_stream (ncvars : dict Variable_)
  : result (dict attr_array) :=
  rsi <- index_array ncvars "ray_start_index" ;;
  last_start <- of_option IndexError (Py.get rsi (-1)) ;;
  rng <- index_array ncvars "ray_n_gates" ;;
  last_n <- of_option IndexError (Py.get rng (-1)) ;;
  let ngates := last_start + last_n in
  sweeps <- index_array ncvars "sweep_start_ray_index" ;;
  sweepe <- index_array ncvars "sweep_end_ray_index" ;;
  ray_len <- index_array ncvars "ray_n_gates" ;;
  maxgates <- shape0 ncvars "range" ;;
  nrays <- shape0 ncvars "time" ;;
  ray_start_index <- index_array ncvars "ray_start_index" ;;
  let keys :=
    map fst
      (filter
         (fun kv =>
            match nd_shape (var_data (snd kv)) with
            | [n] => Z.of_nat n =? ngates
            | _ => false
            end)
         ncvars) in
  for_each
    (add_field
       (fun v => _stream_ncvar_to_dict v sweeps sweepe ray_len maxgates nrays
                   ray_start_index)
       ncvars)
    keys [].

(** [_ncvar_to_dict(ncvars[name])] *)
Definition read_var (ncvars : dict Variable_) (name : string)
  : result attr_array :=
  v <- getitem ncvars name ;;
  Ok (_ncvar_to_dict v).

(** [_ncvar_to_dict(ncvars[name]) if name in ncvars else None] *)
Definition read_optional (ncvars : dict Variable_) (name : string)
  : option attr_array :=
  match dict_get ncvars name with
  | Some v => Some (_ncvar_to_dict v)
  | None => None
  end.

(** Lines 107-126: global attributes and global variables.  The three
    global variables are taken in the order [global_vars] lists them. *)
Definition read_metadata (ncobj : Dataset) : result (dict value) :=
  let ncvars := ds_variables ncobj in
  let metadata := ds_attrs ncobj in
  metadata <-
    match dict_get ncvars "volume_number" with
    | Some v =>
        n <- int_of_array (var_data v) ;;
        Ok (dict_set metadata "volume_number" (VInt n))
    | None => Ok (dict_set metadata "volume_number" (VInt 0))
    end ;;
  for_each
    (fun metadata vd =>
       match dict_get ncvars (fst vd) with
       | Some v =>
           s <- chartostring (nd_items (var_data v)) ;;
           Ok (dict_set metadata (fst vd) (VStr s))
       | None => Ok (dict_set metadata (fst vd) (VStr (snd vd)))
       end)
    [ ("platform_type", "fixed"); ("instrument_type", "radar");
      ("primary_axis", "axis_z") ]
    metadata.

(** Lines 267-272: the instrument parameters found in the file, [None]
    when there are none. *)
Definition read_instrument_parameters (ncvars : dict Variable_)
  : option (dict attr_array) :=
  let keys := filter (dict_has ncvars) (dict_keys _INSTRUMENT_PARAMS_DIMS) in
  let instrument_parameters :=
    dict_of
      (flat_map
         (fun k => match dict_get ncvars k with
                   | Some v => [(k, _ncvar_to_dict v)]
                   | None => []
                   end)
         keys) in
  match instrument_parameters with
  | [] => None
  | _ => Some instrument_parameters
  end.

(** Lines 276-278: the variables of the radar_calibration meta group. *)
Definition read_radar_calibration (ncvars : dict Variable_)
  : dict attr_array :=
  let keys := _find_all_meta_group_vars ncvars "radar_calibration" in
  dict_of
    (flat_map
       (fun k => match dict_get ncvars k with
                 | Some v => [(k, _ncvar_to_dict v)]
                 | None => []
                 end)
       keys).

(** [read_cfradial] (lines 64-293) on the opened file [ncobj]. *)
Definition read_cfradial (ncobj : Dataset) : result Radar.t :=
  let ncvars := ds_variables ncobj in
  metadata <- read_metadata ncobj ;;
  time <- read_var ncvars "time" ;;
  _range <- read_var ncvars "range" ;;
  latitude <- read_var ncvars "latitude" ;;
  longitude <- read_var ncvars "longitude" ;;
  altitude <- read_var ncvars "altitude" ;;
  let altitude_agl := read_optional ncvars "altitude_agl" in
  sweep_number <- read_var ncvars "sweep_number" ;;
  sweep_mode <- read_var ncvars "sweep_mode" ;;
  fixed_angle <- read_var ncvars "fixed_angle" ;;
  sweep_start_ray_index <- read_var ncvars "sweep_start_ray_index" ;;
  sweep_end_ray_index <- read_var ncvars "sweep_end_ray_index" ;;
  let target_scan_rate := read_optional ncvars "target_scan_rate" in
  (* first sweep mode determines scan_type *)
  modes <- getitem sweep_mode "data" ;;
  row <- match modes with
         | VArr a => nd_first a
         | _ => Raise TypeError
         end ;;
  mode <- chartostring row ;;
  let scan_type := scan_type_str (scan_type_of_mode mode) in
  azimuth <- read_var ncvars "azimuth" ;;
  elevation <- read_var ncvars "elevation" ;;
  let scan_rate := read_optional ncvars "scan_rate" in
  let antenna_transition := read_optional ncvars "antenna_transition" in
  let rotation := read_optional ncvars "rotation" in
  let tilt := read_optional ncvars "tilt" in
  let roll := read_optional ncvars "roll" in
  let drift := read_optional ncvars "drift" in
  let heading := read_optional ncvars "heading" in
  let pitch := read_optional ncvars "pitch" in
  let georefs_applied := read_optional ncvars "georefs_applied" in
  fields <- (if dict_has ncvars "ray_start_index"
             then read_fields_stream ncvars
             else read_fields_cfradial ncvars) ;;
  let instrument_parameters := read_instrument_parameters ncvars in
  let radar_calibration := read_radar_calibration ncvars in
  ngates <- data_len _range ;;
  nsweeps <- data_len sweep_number ;;
  Ok (Radar.mk time _range fields metadata scan_type
        latitude longitude altitude
        sweep_number sweep_mode fixed_angle sweep_start_ray_index
        sweep_end_ray_index azimuth elevation
        instrument_parameters (Some radar_calibration)
        altitude_agl scan_rate antenna_transition target_scan_rate
        rotation tilt roll drift heading pitch georefs_applied
        ngates nsweeps).
End Reader.

(** [read_cfradial(filename, field_names, file_field_names=..,
    exclude_fields=..)] with the field-name policy the arguments make. *)
Definition read_cfradial_file (ncobj : Dataset)
    (field_names : option (dict (option string))) (file_field_names : bool)
    (exclude_fields : option (list string)) : result Radar.t :=
  read_cfradial
    (FileMetadata.get_field_name
       (FileMetadata.mk field_names file_field_names exclude_fields))
    exclude_fields ncobj.

Unset Implicit Arguments.

(** ** A file layer and sample data to run the model on *)

Definition is_none (v : value) : bool :=
  match v with
  | VNone => true
  | _ => false
  end.

(** netCDF4's [createVariable]: a fill value other than None becomes the
    attribute [_FillValue] of the new variable, and a
    [least_significant_digit] other than None the attribute of that name. *)
Definition netcdf4_created_attrs (lsd fill_value : value) : dict value :=
  (if is_none fill_value then [] else [("_FillValue", fill_value)])
  ++ (if is_none lsd then [] else [("least_significant_digit", lsd)]).

(** The characters of [s] as items, padded with NULs to [n] items. *)
Fixpoint chars_of (n : nat) (s : string) : list item :=
  match n with
  | O => []
  | S n' =>
      match s with
      | EmptyString => IStr EmptyString :: chars_of n' s
      | String c s' => IStr (String c EmptyString) :: chars_of n' s'
      end
  end.

(** Modelled from the spec: [stringarray_to_chararray] of
    [pyart.io.common], which is not part of this module.  String data is
    bridged to a fixed-length character-array representation: one more
    dimension of the item size, one character per item. *)
Definition stringtochar (a : ndarray) : result ndarray :=
  match nd_dtype a with
  | DStr k n =>
      Ok (mk_ndarray (DStr k 1) (nd_shape a ++ [n])
            (flat_map (fun i => match i with
                                | IStr s => chars_of n s
                                | _ => []
                                end)
               (nd_items a)))
  | _ => Raise TypeError
  end.

(** A calendar that knows one instant: every time value is read as the
    epoch.  It stands in for [netCDF4.num2date] on the sample volume,
    whose rays are all at time 0 of units counted from the epoch.  The
    sample volumes hold no value that numpy would have to convert to
    int32 by its own rules, and the conversion refuses all. *)
Definition sample_externals : externals :=
  mk_externals netcdf4_created_attrs stringtochar
    (fun _ => Raise TypeError)
    (fun _ _ => Ok tt)
    (fun _ => "1970-01-01T00:00:00")
    (fun _ => "01-Jan-1970,00:00:00 GMT")
    (fun _ => 0).

Definition sample_environment : environment :=
  mk_environment "alice" "radar-host" "2014-06-01T12:00:00".

Definition float_array (shape : list nat) (l : list float) : value :=
  VArr (mk_ndarray DFloat shape (map IFloat l)).

Definition int_array (l : list Z) : value :=
  VArr (mk_ndarray DInt [List.length l] (map IInt l)).

(** A reflectivity field of two rays and three gates. *)
Definition sample_field : attr_array :=
  [ ("data", float_array [2%nat; 3%nat] [1; 2; 3; 4; 5; 6]%float);
    ("units", VStr "dBZ");
    ("_FillValue", VFloat (-9999)%float);
    ("long_name", VStr "reflectivity");
    ("standard_name", VStr "equivalent_reflectivity_factor") ].

(** One sweep of two rays and three gates, one field, nothing optional. *)
Definition sample_radar : Radar.t :=
  Radar.mk
    [ ("data", float_array [2%nat] [0; 0]%float);
      ("units", VStr "seconds since 1970-01-01T00:00:00Z") ]
    [ ("data", float_array [3%nat] [100; 200; 300]%float);
      ("units", VStr "meters") ]
    [ ("DBZ", sample_field) ]
    [ ("title", VStr "sample volume") ]
    "ppi"
    [ ("data", float_array [1%nat] [35]%float) ]
    [ ("data", float_array [1%nat] [-97]%float) ]
    [ ("data", float_array [1%nat] [300]%float) ]
    [ ("data", int_array [0]) ]
    [ ("data", VArr (mk_ndarray (DStr Bytes 20) [1%nat]
                       [IStr "azimuth_surveillance"])) ]
    [ ("data", float_array [1%nat] [1]%float) ]
    [ ("data", int_array [0]) ]
    [ ("data", int_array [1]) ]
    [ ("data", float_array [2%nat] [0; 1]%float) ]
    [ ("data", float_array [2%nat] [1; 1]%float) ]
    None None None None None None None None None None None None None
    3 1.

(** [radar.radar_calibration = rc] *)
Definition with_radar_calibration (radar : Radar.t)
    (rc : option (dict attr_array)) : Radar.t :=
  Radar.mk (Radar.time radar) (Radar.range radar) (Radar.fields radar)
    (Radar.metadata radar) (Radar.scan_type radar) (Radar.latitude radar)
    (Radar.longitude radar) (Radar.altitude radar) (Radar.sweep_number radar)
    (Radar.sweep_mode radar) (Radar.fixed_angle radar)
    (Radar.sweep_start_ray_index radar) (Radar.sweep_end_ray_index radar)
    (Radar.azimuth radar) (Radar.elevation radar)
    (Radar.instrument_parameters radar) rc
    (Radar.altitude_agl radar) (Radar.scan_rate radar)
    (Radar.antenna_transition radar) (Radar.target_scan_rate radar)
    (Radar.rotation radar) (Radar.tilt radar) (Radar.roll radar)
    (Radar.drift radar) (Radar.heading radar) (Radar.pitch radar)
    (Radar.georefs_applied radar) (Radar.ngates radar) (Radar.nsweeps radar).

(** What a run leaves, for runs that are known to succeed. *)
Definition the {A : Type} (r : result A) (default : A) : A :=
  match r with
  | Ok a => a
  | Raise _ => default
  end.

(** The file the writer makes of the sample volume. *)
Definition sample_file : Dataset :=
  the (write_cfradial sample_externals sample_environment sample_radar
         None false)
      new_dataset.

(** A file being written, its time and range dimensions declared. *)
Definition sample_dims : Dataset :=
  mk_dataset [("time", None); ("range", Some 3)] [] [] false.

(** The sample field with a fill value of None, and with a
    least_significant_digit. *)
Definition sample_field_unfilled : attr_array :=
  [ ("data", float_array [2%nat; 3%nat] [1; 2; 3; 4; 5; 6]%float);
    ("units", VStr "dBZ");
    ("_FillValue", VNone);
    ("long_name", VStr "reflectivity");
    ("standard_name", VStr "equivalent_reflectivity_factor") ].

Definition sample_field_lsd : attr_array :=
  sample_field ++ [("least_significant_digit", VInt 2)].

(** The dataset after [_create_ncvar(dic, dataset, 'DBZ', ('time', 'range'))]. *)
Definition create_sample (dic : attr_array) : Dataset :=
  snd (the (_create_ncvar sample_externals dic "DBZ" ["time"; "range"]
              sample_dims)
         (tt, sample_dims)).

(** The names of the attributes of a variable, in file order. *)
Definition attr_names (ds : Dataset) (name : string) : option (list string) :=
  option_map (fun v => dict_keys (var_attrs v)) (dict_get (ds_variables ds) name).

(** A calibration table with only the per-ray index. *)
Definition index_only_calibration : dict attr_array :=
  [ ("r_calib_index", [("data", int_array [0; 0])]) ].

(** The file of the sample volume with the time reference forced. *)
Definition sample_file_with_reference : Dataset :=
  the (write_cfradial sample_externals sample_environment sample_radar
         (Some true) false)
      new_dataset.

(** The record the reader makes of the sample file. *)
Definition sample_read : Radar.t :=
  the (read_cfradial_file sample_file None false None) sample_radar.

(** A translation of the sample field's on-disk name. *)
Definition sample_field_names : option (dict (option string)) :=
  Some [("DBZ", Some "reflectivity")].

(** The flat array [[0., 1., ..., n-1.]]. *)
Definition arange (n : nat) : list float :=
  map (fun i => float_of_Z (Z.of_nat i)) (seq 0 n).

(** ** Vocabulary of the statements *)

(** [pat] occurs in [s]. *)
Definition occurs_in (pat s : string) : Prop :=
  exists a b, s = (a ++ pat ++ b)%string.

(** The six mode strings of the CF/Radial convention. *)
Definition convention_modes : list string :=
  ["rhi"; "vertical_pointing"; "azimuth_surveillance";
   "elevation_surveillance"; "manual_ppi"; "manual_rhi"].

(** The first sweep-mode string of a record, read as line 155 reads it:
    [str(netCDF4.chartostring(sweep_mode['data'][0]))]. *)
Definition first_sweep_mode (r : Radar.t) : result string :=
  (modes <- getitem (Radar.sweep_mode r) "data" ;;
   row <- match modes with
          | VArr a => nd_first a
          | _ => Raise TypeError
          end ;;
   chartostring row)%result.

(** Every ray of the sweep [ss:se] has the gate count [n]. *)
Definition sweep_uniform (ray_len : list Z) (ss se n : Z) : Prop :=
  forall i, ss <= i < se -> Py.get ray_len i = Some n.

(** A grid of [nrays] rows of [maxgates] cells. *)
Definition grid_shape {A : Type} (nrays maxgates : nat) (g : list (list A)) : Prop :=
  List.length g = nrays /\ Forall (fun row => List.length row = maxgates) g.

(** [g'] is [g] except in the cells of the rows in [rows] before column [tc]. *)
Definition same_outside {A : Type} (rows : nat -> Prop) (tc : nat)
    (g g' : list (list A)) : Prop :=
  forall r j d, ~ rows r \/ (tc <= j)%nat ->
    nth j (nth r g' []) d = nth j (nth r g []) d.

(** The cell [(i, j)] holds a gate of ray [i]: the ray lies in one of the
    sweeps and has more than [j] gates. *)
Definition covered (sweeps sweepe ray_len : list Z) (i j : nat) : Prop :=
  exists k ss se n,
    0 <= k < Py.len sweepe /\
    Py.get sweeps k = Some ss /\ Py.get sweepe k = Some se /\
    ss <= Z.of_nat i < se /\
    Py.get ray_len (Z.of_nat i) = Some n /\ Z.of_nat j < n.

(** The bookkeeping the reshape relies on: sweep bounds and gate counts
    are not negative, and a sweep that passes the test of line 337 has
    rays of one gate count. *)
Definition stream_consistent (sweeps sweepe ray_len : list Z) : Prop :=
  (forall k ss se, 0 <= k < Py.len sweepe ->
     Py.get sweeps k = Some ss -> Py.get sweepe k = Some se ->
     0 <= ss /\ 0 <= se) /\
  (forall i n, Py.get ray_len i = Some n -> 0 <= n) /\
  (forall k ss se rle, 0 <= k < Py.len sweepe ->
     Py.get sweeps k = Some ss -> Py.get sweepe k = Some se ->
     Py.get ray_len ss = Some rle ->
     Stream.uniform_check ray_len ss se rle = true ->
     forall i, ss <= i < se -> Py.get ray_len i = Some rle).

(** A variable of the dataset replaced (or added). *)
Definition with_var (ds : Dataset) (name : string) (v : Variable_) : Dataset :=
  mk_dataset (ds_dimensions ds) (ds_attrs ds)
    (dict_set (ds_variables ds) name v) (ds_closed ds).

Definition with_attrs (v : Variable_) (attrs : dict value) : Variable_ :=
  mk_var (var_dtype v) (var_dimensions v) attrs (var_data v).

(** The keys [_create_ncvar] does not copy in its last loop. *)
Definition written_first : list string :=
  ["data"; "_FillValue"; "long_name"; "units"].

(** The remaining attributes of an attributed array, in its order. *)
Definition remaining_attrs (dic : attr_array) : dict value :=
  filter (fun kv => negb (str_in (fst kv) written_first)) dic.

(** The attributes [_create_ncvar] leaves on the variable, in order
    (lines 649-666), from those the file layer assigned at creation. *)
Definition ncvar_attrs (created : dict value) (dic : attr_array) : dict value :=
  let a1 := match dict_get dic "long_name" with
            | Some v => dict_set created "long_name" v
            | None => created
            end in
  let a2 := match dict_get dic "units" with
            | Some v => dict_set a1 "units" v
            | None => a1
            end in
  let a3 := match dict_get a2 "_FillValue" with
            | Some fv => dict_set (dict_del a2 "_FillValue") "_FillValue" fv
            | None => a2
            end in
  fold_left
    (fun a kv =>
       if str_in (fst kv) written_first then a
       else dict_set a (fst kv) (snd kv))
    dic a3.

(** The global attributes after lines 419-428, from those before. *)
Definition global_attrs (env : environment) (radar : Radar.t)
    (a0 : dict value) : dict value :=
  let a1 := fold_left (fun a kv => dict_set a (fst kv) (snd kv))
              (dict_del (metadata_copy radar) "history") a0 in
  let a2 := if str_in "Conventions" (dict_keys a1) then a1
            else dict_set a1 "Conventions" (VStr "CF/Radial") in
  let a3 := if str_in "field_names" (dict_keys a2) then a2
            else dict_set a2 "field_names"
                   (VStr (String.concat ", " (dict_keys (Radar.fields radar)))) in
  dict_set a3 "history" (history_of env radar).

(** The variable is wanted when the caller forces it, or leaves the
    choice open and the first time value is not zero. *)
Definition time_reference_emitted (radar : Radar.t)
    (time_reference : option bool) : Prop :=
  time_reference = Some true \/
  (time_reference = None /\
   exists data t0,
     dict_get (Radar.time radar) "data" = Some data /\
     value_item data 0 = Ok t0 /\
     item_is_zero t0 = false).

(** A step of the writer leaves an observation of the dataset alone. *)
Definition preserves {X A : Type} (obs : Dataset -> X) (m : M A) : Prop :=
  forall ds a ds', m ds = Ok (a, ds') -> obs ds' = obs ds.

(** Where a name of the field mapping comes from: a variable the policy
    translates to it, or a variable of that name which the policy gives
    no name and the exclusion set does not hold. *)
Definition names_field (gfn : string -> option string)
    (ex : option (list string)) (key name : string) : Prop :=
  gfn key = Some name \/
  (gfn key = None /\ excluded ex key = false /\ name = key).

(** The number of gates of a stream file (line 247); the sum is written
    without wrap, as it is in [read_fields_stream]. *)
Definition stream_ngates (ncvars : dict Variable_) : result Z :=
  (rsi <- index_array ncvars "ray_start_index" ;;
   last_start <- of_option IndexError (Py.get rsi (-1)) ;;
   rng <- index_array ncvars "ray_n_gates" ;;
   last_n <- of_option IndexError (Py.get rng (-1)) ;;
   Ok (last_start + last_n))%result.

(** Whether the reader takes a variable of the file for a field: by its
    dimensions (lines 236-237), or in a stream file by its shape
    (line 254). *)
Definition is_field (ncvars : dict Variable_) (v : Variable_) : result bool :=
  if dict_has ncvars "ray_start_index" then
    (ngates <- stream_ngates ncvars ;;
     Ok match nd_shape (var_data v) with
        | [n] => Z.of_nat n =? ngates
        | _ => false
        end)%result
  else Ok (strs_eqb (var_dimensions v) ["time"; "range"]).

(** The dictionary the reader makes of a field variable (line 244, and
    lines 248-253 and 263-265 in a stream file). *)
Definition field_of (ncvars : dict Variable_) (v : Variable_)
  : result attr_array :=
  if dict_has ncvars "ray_start_index" then
    (sweeps <- index_array ncvars "sweep_start_ray_index" ;;
     sweepe <- index_array ncvars "sweep_end_ray_index" ;;
     ray_len <- index_array ncvars "ray_n_gates" ;;
     maxgates <- shape0 ncvars "range" ;;
     nrays <- shape0 ncvars "time" ;;
     ray_start_index <- index_array ncvars "ray_start_index" ;;
     _stream_ncvar_to_dict v sweeps sweepe ray_len maxgates nrays
       ray_start_index)%result
  else Ok (_ncvar_to_dict v).


(** ** Vocabulary of the file's contents *)

(** [ds'] has every dimension and every variable of [ds], unchanged. *)
Definition extends (ds ds' : Dataset) : Prop :=
  (forall n x, dict_get (ds_dimensions ds) n = Some x ->
               dict_get (ds_dimensions ds') n = Some x) /\
  (forall n v, dict_get (ds_variables ds) n = Some v ->
               dict_get (ds_variables ds') n = Some v).

(** A step of the writer only adds dimensions and variables. *)
Definition grows {A : Type} (m : M A) : Prop :=
  forall ds a ds', m ds = Ok (a, ds') -> extends ds ds'.

(** The states a successful write goes through, one for each block of
    [write_cfradial]. *)
Inductive write_trace (ext : externals) (env : environment) (radar : Radar.t)
    (tr : option bool) (arm : bool) (ds : Dataset) : Prop :=
| write_trace_intro
    (d_dims d_attrs d_arm d_std d_fields d_sweep d_instr d_calib d_loc d_cov
       d_ref d_glob d_geo : Dataset)
    (t_dims : create_dimensions radar new_dataset = Ok (tt, d_dims))
    (t_attrs : write_global_attributes env radar d_dims = Ok (tt, d_attrs))
    (t_arm : when arm (write_arm_time_variables ext radar) d_attrs = Ok (tt, d_arm))
    (t_std : write_standard_variables ext radar d_arm = Ok (tt, d_std))
    (t_fields : write_fields ext radar d_std = Ok (tt, d_fields))
    (t_sweep : write_sweep_parameters ext radar d_fields = Ok (tt, d_sweep))
    (t_instr : write_instrument_parameters ext radar d_sweep = Ok (tt, d_instr))
    (t_calib : write_radar_calibration ext radar d_instr = Ok (tt, d_calib))
    (t_loc : write_location ext radar d_calib = Ok (tt, d_loc))
    (t_cov : write_time_coverage ext radar d_loc = Ok (tt, d_cov))
    (t_ref : write_time_reference ext radar tr d_cov = Ok (tt, d_ref))
    (t_glob : write_global_variables ext radar d_ref = Ok (tt, d_glob))
    (t_geo : write_georeference ext radar d_glob = Ok (tt, d_geo))
    (t_close : close d_geo = Ok (tt, ds)).

(** The variable [_create_ncvar] makes of an attributed array whose
    array to write is [a]. *)
Definition ncvar_of (ext : externals) (dic : attr_array) (dims : list string)
    (a : ndarray) : Variable_ :=
  mk_var (nd_dtype a) dims
    (ncvar_attrs
       (created_attrs ext (dict_get_or_none dic "least_significant_digit")
          (dict_get_or_none dic "_FillValue")) dic)
    (at_least_1d a).

(** [len(d['data'][0])] *)
Definition string_width (d : attr_array) : result Z :=
  rbind (getitem d "data") first_len.

(** The instrument parameters that hold strings (line 385). *)
Definition string_parameters : list string :=
  ["follow_mode"; "prt_mode"; "polarization_mode"].

(** A step of the writer creates the variable [name], with the
    dimensions [dims], from the attributed array [dic], and the variable
    is still there when the step ends. *)
Definition creates {A : Type} (ext : externals) (m : M A) (name : string)
    (dims : list string) (dic : attr_array) : Prop :=
  forall ds a ds', m ds = Ok (a, ds') ->
    exists arr,
      array_to_write ext dic = Ok arr /\
      dict_get (ds_variables ds') name = Some (ncvar_of ext dic dims arr).

(** The variables the writer makes of the record's own attributed
    arrays (lines 452-480 and 581-602), with their dimensions; the
    optional ones are [None] when the record does not have them. *)
Definition record_variables (radar : Radar.t)
  : list (string * list string * option attr_array) :=
  [ ("time", ["time"], Some (Radar.time radar));
    ("range", ["range"], Some (Radar.range radar));
    ("azimuth", ["time"], Some (Radar.azimuth radar));
    ("elevation", ["time"], Some (Radar.elevation radar));
    ("scan_rate", ["time"], Radar.scan_rate radar);
    ("antenna_transition", ["time"], Radar.antenna_transition radar);
    ("sweep_number", ["sweep"], Some (Radar.sweep_number radar));
    ("fixed_angle", ["sweep"], Some (Radar.fixed_angle radar));
    ("sweep_start_ray_index", ["sweep"],
     Some (Radar.sweep_start_ray_index radar));
    ("sweep_end_ray_index", ["sweep"], Some (Radar.sweep_end_ray_index radar));
    ("sweep_mode", ["sweep"; "string_length"], Some (Radar.sweep_mode radar));
    ("target_scan_rate", ["sweep"], Radar.target_scan_rate radar);
    ("rotation", ["time"], Radar.rotation radar);
    ("tilt", ["time"], Radar.tilt radar);
    ("roll", ["time"], Radar.roll radar);
    ("drift", ["time"], Radar.drift radar);
    ("heading", ["time"], Radar.heading radar);
    ("pitch", ["time"], Radar.pitch radar);
    ("georefs_applied", ["time"], Radar.georefs_applied radar) ].

(** The dimensions of an instrument parameter (lines 490-493). *)
Definition instrument_parameter_dims (k : string) : list string :=
  match dict_get _INSTRUMENT_PARAMS_DIMS k with
  | Some dim => dim
  | None => []
  end.


(** The variable names the record itself chooses: those of its fields,
    instrument parameters and calibration entries. *)
Definition record_names (radar : Radar.t) : list string :=
  dict_keys (Radar.fields radar) ++
  match Radar.instrument_parameters radar with
  | Some ip => dict_keys ip
  | None => []
  end ++
  match Radar.radar_calibration radar with
  | Some rc => dict_keys rc
  | None => []
  end.

(** The variable names [write_cfradial] spells out, apart from
    base_time, time_offset and time_reference. *)
Definition core_names : list string :=
  ["time"; "range"; "azimuth"; "elevation"; "scan_rate"; "antenna_transition";
   "sweep_number"; "fixed_angle"; "sweep_start_ray_index";
   "sweep_end_ray_index"; "sweep_mode"; "target_scan_rate";
   "latitude"; "longitude"; "altitude"; "altitude_agl";
   "time_coverage_start"; "time_coverage_end";
   "volume_number"; "platform_type"; "instrument_type"; "primary_axis";
   "rotation"; "tilt"; "roll"; "drift"; "heading"; "pitch"; "georefs_applied"].

(** Whether the file has a variable of that name. *)
Definition has_variable (ds : Dataset) (n : string) : Prop :=
  In n (dict_keys (ds_variables ds)).

(** The variable of that name, if the file has one. *)
Definition var_named (n : string) (d : Dataset) : option Variable_ :=
  dict_get (ds_variables d) n.

(** The variables [read_cfradial] reads unconditionally, with the place
    of the record each goes to. *)
Definition mandatory_variables : list (string * (Radar.t -> attr_array)) :=
  [ ("time", Radar.time); ("range", Radar.range);
    ("latitude", Radar.latitude); ("longitude", Radar.longitude);
    ("altitude", Radar.altitude);
    ("sweep_number", Radar.sweep_number); ("sweep_mode", Radar.sweep_mode);
    ("fixed_angle", Radar.fixed_angle);
    ("sweep_start_ray_index", Radar.sweep_start_ray_index);
    ("sweep_end_ray_index", Radar.sweep_end_ray_index);
    ("azimuth", Radar.azimuth); ("elevation", Radar.elevation) ].

(** The variables it reads when the file has them. *)
Definition optional_variables
  : list (string * (Radar.t -> option attr_array)) :=
  [ ("altitude_agl", Radar.altitude_agl);
    ("target_scan_rate", Radar.target_scan_rate);
    ("scan_rate", Radar.scan_rate);
    ("antenna_transition", Radar.antenna_transition);
    ("rotation", Radar.rotation); ("tilt", Radar.tilt);
    ("roll", Radar.roll); ("drift", Radar.drift);
    ("heading", Radar.heading); ("pitch", Radar.pitch);
    ("georefs_applied", Radar.georefs_applied) ].

(** The global variables with a default (lines 118-119). *)
Definition global_defaults : list (string * string) :=
  [ ("platform_type", "fixed"); ("instrument_type", "radar");
    ("primary_axis", "axis_z") ].

(** The variable carries the attribute meta_group with that value. *)
Definition in_meta_group (v : Variable_) (g : string) : bool :=
  match dict_get (var_attrs v) "meta_group" with
  | Some x => value_is_str x g
  | None => false
  end.

(** The optional global variables with their long names (lines 563-579). *)
Definition platform_variables : list (string * string) :=
  [ ("platform_type", "Platform type");
    ("instrument_type", "Instrument type");
    ("primary_axis", "Primary axis") ].

(** The start of ray [i] in a packed stream: the gates of the rays
    before it. *)
Definition packed_start (ray_len : list Z) (i : nat) : Z :=
  Py.sum (firstn i ray_len).

(** The number of rays in the sweeps before sweep [k], when the sweeps
    follow one another: the end of the sweep before. *)
Definition rays_before (sweepe : list Z) (k : nat) : Z :=
  match k with
  | O => 0
  | S k' => nth k' sweepe 0
  end.

(** A packed stream: the rays' gates follow one another in [data], in
    ray order, [ray_start_index] says where each ray starts, no ray has
    more than [maxgates] gates, and the sweeps follow one another from
    ray 0 on, each ending (exclusively) where the next starts. *)
Definition packed_stream (data : list float) (sweeps sweepe ray_len : list Z)
    (maxgates nrays : nat) (ray_start_index : list Z) : Prop :=
  List.length ray_len = nrays /\
  (forall i, (i < nrays)%nat ->
     nth_error ray_start_index i = Some (packed_start ray_len i)) /\
  (forall n, In n ray_len -> 0 <= n <= Z.of_nat maxgates) /\
  Py.sum ray_len <= Py.len data /\
  List.length sweeps = List.length sweepe /\
  (forall k, (k < List.length sweepe)%nat ->
     nth k sweeps 0 = rays_before sweepe k /\
     rays_before sweepe k <= nth k sweepe 0 <= Z.of_nat nrays).

(** The cells of the rows before [b] that hold a gate hold the gate of
    the stream. *)
Definition rows_packed (data : list float) (ray_len : list Z) (b : nat)
    (g : list (list float)) : Prop :=
  forall i j, (i < b)%nat -> Z.of_nat j < nth i ray_len 0 ->
    nth j (nth i g []) Stream.sentinel =
    nth (Z.to_nat (packed_start ray_len i) + j) data Stream.sentinel.


(** [radar.instrument_parameters = ip] *)
Definition with_instrument_parameters (radar : Radar.t)
    (ip : option (dict attr_array)) : Radar.t :=
  Radar.mk (Radar.time radar) (Radar.range radar) (Radar.fields radar)
    (Radar.metadata radar) (Radar.scan_type radar) (Radar.latitude radar)
    (Radar.longitude radar) (Radar.altitude radar) (Radar.sweep_number radar)
    (Radar.sweep_mode radar) (Radar.fixed_angle radar)
    (Radar.sweep_start_ray_index radar) (Radar.sweep_end_ray_index radar)
    (Radar.azimuth radar) (Radar.elevation radar)
    ip (Radar.radar_calibration radar)
    (Radar.altitude_agl radar) (Radar.scan_rate radar)
    (Radar.antenna_transition radar) (Radar.target_scan_rate radar)
    (Radar.rotation radar) (Radar.tilt radar) (Radar.roll radar)
    (Radar.drift radar) (Radar.heading radar) (Radar.pitch radar)
    (Radar.georefs_applied radar) (Radar.ngates radar) (Radar.nsweeps radar).

(** Two instrument parameters and a calibration table of one row. *)
Definition sample_parameters : dict attr_array :=
  [ ("frequency",
     [ ("data", float_array [1%nat] [3]%float); ("units", VStr "s-1") ]);
    ("prt",
     [ ("data", float_array [2%nat] [1; 1]%float);
       ("units", VStr "seconds") ]) ].

Definition sample_calibration : dict attr_array :=
  [ ("r_calib_index",
     [ ("data", int_array [0; 0]);
       ("meta_group", VStr "radar_calibration") ]);
    ("r_calib_pulse_width",
     [ ("data", float_array [1%nat] [1]%float);
       ("meta_group", VStr "radar_calibration") ]) ].

(** The sample volume with these, the file the writer makes of it and
    the record the reader makes of that file. *)
Definition sample_radar_full : Radar.t :=
  with_radar_calibration
    (with_instrument_parameters sample_radar (Some sample_parameters))
    (Some sample_calibration).

Definition sample_file_full : Dataset :=
  the (write_cfradial sample_externals sample_environment sample_radar_full
         None false)
      new_dataset.

Definition sample_read_full : Radar.t :=
  the (read_cfradial_file sample_file_full None false None) sample_radar.

(** The sample file turned into a stream file: two rays of 3 and 2
    gates, and a field of 5 gates. *)
Definition sample_stream_file : Dataset :=
  mk_dataset (ds_dimensions sample_file) (ds_attrs sample_file)
    (ds_variables sample_file ++
     [ ("ray_start_index",
        mk_var DInt ["time"] []
          (mk_ndarray DInt [2%nat] [IInt 0; IInt 3]));
       ("ray_n_gates",
        mk_var DInt ["time"] []
          (mk_ndarray DInt [2%nat] [IInt 3; IInt 2]));
       ("REF",
        mk_var DFloat ["n_points"] [("units", VStr "dBZ")]
          (mk_ndarray DFloat [5%nat] (map IFloat [1; 2; 3; 4; 5]%float))) ])
    true.

Definition sample_stream_read : Radar.t :=
  the (read_cfradial_file sample_stream_file None false None) sample_radar.

(** The keys of a list are pairwise different. *)
Fixpoint distinct (l : list string) : bool :=
  match l with
  | [] => true
  | x :: l' => negb (str_in x l') && distinct l'
  end.

(** The file of the sample volume with the ARM time variables. *)
Definition sample_file_arm : Dataset :=
  the (write_cfradial sample_externals sample_environment sample_radar
         None true)
      new_dataset.

(** The sample volume on a moving platform, and its file. *)
Definition sample_radar_aircraft : Radar.t :=
  Radar.mk (Radar.time sample_radar) (Radar.range sample_radar)
    (Radar.fields sample_radar)
    [ ("title", VStr "sample volume"); ("platform_type", VStr "aircraft");
      ("volume_number", VInt 7) ]
    (Radar.scan_type sample_radar) (Radar.latitude sample_radar)
    (Radar.longitude sample_radar) (Radar.altitude sample_radar)
    (Radar.sweep_number sample_radar) (Radar.sweep_mode sample_radar)
    (Radar.fixed_angle sample_radar)
    (Radar.sweep_start_ray_index sample_radar)
    (Radar.sweep_end_ray_index sample_radar)
    (Radar.azimuth sample_radar) (Radar.elevation sample_radar)
    None None None None None None None None None None None None None
    3 1.

Definition sample_file_aircraft : Dataset :=
  the (write_cfradial sample_externals sample_environment
         sample_radar_aircraft None false)
      new_dataset.

(** The sample volume with the sweep mode "sector_surveillance", its
    file and the record read from that file. *)
Definition sample_sector_radar : Radar.t :=
  Radar.mk (Radar.time sample_radar) (Radar.range sample_radar)
    (Radar.fields sample_radar) (Radar.metadata sample_radar)
    (Radar.scan_type sample_radar) (Radar.latitude sample_radar)
    (Radar.longitude sample_radar) (Radar.altitude sample_radar)
    (Radar.sweep_number sample_radar)
    [ ("data", VArr (mk_ndarray (DStr Bytes 19) [1%nat]
                       [IStr "sector_surveillance"])) ]
    (Radar.fixed_angle sample_radar)
    (Radar.sweep_start_ray_index sample_radar)
    (Radar.sweep_end_ray_index sample_radar)
    (Radar.azimuth sample_radar) (Radar.elevation sample_radar)
    None None None None None None None None None None None None None
    3 1.

Definition sample_sector_file : Dataset :=
  the (write_cfradial sample_externals sample_environment
         sample_sector_radar None false)
      new_dataset.

Definition sample_sector_read : Radar.t :=
  the (read_cfradial_file sample_sector_file None false None) sample_radar.

(** The sample file with a second field variable, and a translation
    that gives both field variables one name. *)
Definition sample_file_two_fields : Dataset :=
  mk_dataset (ds_dimensions sample_file) (ds_attrs sample_file)
    (ds_variables sample_file ++
     [ ("REF",
        mk_var DFloat ["time"; "range"] [("units", VStr "dBZ")]
          (mk_ndarray DFloat [2%nat; 3%nat]
             (map IFloat [6; 5; 4; 3; 2; 1]%float))) ])
    true.

Definition sample_field_names_merged : option (dict (option string)) :=
  Some [("DBZ", Some "reflectivity"); ("REF", Some "reflectivity")].



(** * Properties *)


(** ** Substrings *)

Lemma prefix_app (pat s : string) :
  prefix pat s = true <-> exists b, s = (pat ++ b)%string.
Proof.
  revert s. induction pat as [|c pat IH]; intros s.
  - split; [intros _; exists s; reflexivity | intros _; now destruct s].
  - destruct s as [|d s]; simpl.
    + split; [discriminate | intros [b Hb]; discriminate].
    + destruct (ascii_dec c d) as [->|Hne].
      * rewrite IH. split; intros [b Hb]; exists b; congruence.
      * split; [discriminate | intros [b Hb]; congruence].
Qed.

Lemma contains_eq (pat s : string) :
  Py.contains pat s =
    prefix pat s || match s with
                    | EmptyString => false
                    | String _ s' => Py.contains pat s'
                    end.
Proof. destruct s; reflexivity. Qed.

Lemma contains_occurs (pat s : string) :
  Py.contains pat s = true <-> occurs_in pat s.
Proof.
  induction s as [|c s IH]; rewrite contains_eq.
  - rewrite orb_false_r, prefix_app. split.
    + intros [b Hb]. exists EmptyString, b. exact Hb.
    + intros [a [b Hab]]. destruct a; simpl in Hab.
      * exists b. exact Hab.
      * discriminate.
  - rewrite orb_true_iff, prefix_app, IH. split.
    + intros [[b Hb] | [a [b Hab]]].
      * exists EmptyString, b. exact Hb.
      * exists (String c a), b. simpl. now rewrite Hab.
    + intros [a [b Hab]]. destruct a as [|d a]; simpl in Hab.
      * left. exists b. exact Hab.
      * right. exists a, b. congruence.
Qed.

Lemma not_contains_occurs (pat s : string) :
  Py.contains pat s = false <-> ~ occurs_in pat s.
Proof.
  rewrite <- contains_occurs. destruct (Py.contains pat s); split; congruence.
Qed.

Lemma occurs_in_trans (p q s : string) :
  occurs_in p q -> occurs_in q s -> occurs_in p s.
Proof.
  intros [a [b ->]] [a' [b' ->]].
  exists (a' ++ a)%string, (b ++ b')%string.
  induction a' as [|c a' IH]; simpl.
  - induction a as [|c a IHa]; simpl.
    + induction p as [|c p IHp]; simpl; [reflexivity | now rewrite IHp].
    + now rewrite IHa.
  - now rewrite IH.
Qed.

Lemma scan_type_fallback (mode : string) :
  ~ In mode convention_modes ->
  scan_type_of_mode mode =
    if Py.contains "sur" mode then ppi
    else if Py.contains "sec" mode then sector
    else if Py.contains "rhi" mode then rhi
    else other.
Proof.
  intros Hn. unfold scan_type_of_mode.
  repeat match goal with
         | |- context [String.eqb mode ?s] =>
             destruct (String.eqb_spec mode s) as [->|_];
             [exfalso; apply Hn; simpl; tauto|]
         end.
  reflexivity.
Qed.

(** The scan type of a mode string (lines 157-179).  The six mode
    strings of the convention map exactly; any other string falls back
    on substrings, tried in this order: 'sur' gives ppi, 'sec' gives
    sector, 'rhi' gives rhi, and a string with none of them gives
    other. *)
Lemma scan_type_of_mode_cases :
  (scan_type_of_mode "azimuth_surveillance" = ppi /\
   scan_type_of_mode "manual_ppi" = ppi /\
   scan_type_of_mode "rhi" = rhi /\
   scan_type_of_mode "elevation_surveillance" = rhi /\
   scan_type_of_mode "manual_rhi" = rhi /\
   scan_type_of_mode "vertical_pointing" = vpt) /\
  (forall mode, ~ In mode convention_modes ->
     (occurs_in "sur" mode -> scan_type_of_mode mode = ppi) /\
     (~ occurs_in "sur" mode -> occurs_in "sec" mode ->
      scan_type_of_mode mode = sector) /\
     (~ occurs_in "sur" mode -> ~ occurs_in "sec" mode ->
      occurs_in "rhi" mode -> scan_type_of_mode mode = rhi) /\
     (~ occurs_in "sur" mode -> ~ occurs_in "sec" mode ->
      ~ occurs_in "rhi" mode -> scan_type_of_mode mode = other)) /\
  (forall mode, occurs_in "sector" mode -> ~ occurs_in "sur" mode ->
     scan_type_of_mode mode = sector) /\
  scan_type_of_mode "sector" = sector /\
  scan_type_of_mode "idle" = other.
Proof.
  split; [repeat split; reflexivity|].
  split.
  { intros mode Hn. rewrite (scan_type_fallback _ Hn).
    repeat split.
    - intros H. apply contains_occurs in H. now rewrite H.
    - intros H1 H2. apply not_contains_occurs in H1. apply contains_occurs in H2.
      now rewrite H1, H2.
    - intros H1 H2 H3. apply not_contains_occurs in H1, H2.
      apply contains_occurs in H3. now rewrite H1, H2, H3.
    - intros H1 H2 H3. apply not_contains_occurs in H1, H2, H3.
      now rewrite H1, H2, H3. }
  split; [|split; reflexivity].
  intros mode Hsec Hsur.
  assert (Hn : ~ In mode convention_modes).
  { intros Hin. simpl in Hin.
    assert (Hc : Py.contains "sector" mode = true) by now apply contains_occurs.
    repeat (destruct Hin as [<-|Hin]; [vm_compute in Hc; discriminate|]).
    exact Hin. }
  rewrite (scan_type_fallback _ Hn).
  apply not_contains_occurs in Hsur. rewrite Hsur.
  assert (Hc : Py.contains "sec" mode = true).
  { apply contains_occurs. apply occurs_in_trans with (q := "sector"); [|exact Hsec].
    exists EmptyString, "tor". reflexivity. }
  now rewrite Hc.
Qed.


Lemma sum_repeat (n : Z) (k : nat) : Py.sum (repeat n k) = n * Z.of_nat k.
Proof.
  induction k as [|k IH]; simpl repeat; unfold Py.sum in *; simpl fold_right.
  - lia.
  - rewrite IH. lia.
Qed.

Lemma get_nonneg {A : Type} (l : list A) (i : Z) :
  0 <= i < Py.len l -> Py.get l i = nth_error l (Z.to_nat i).
Proof.
  intros H. unfold Py.get.
  destruct (Z.leb_spec 0 i); [|lia].
  destruct (Z.ltb_spec i (Py.len l)); [|lia]. reflexivity.
Qed.

Lemma slice_nonneg {A : Type} (l : list A) (lo hi : Z) :
  0 <= lo <= hi -> hi <= Py.len l ->
  Py.slice l lo hi = firstn (Z.to_nat (hi - lo)) (skipn (Z.to_nat lo) l).
Proof.
  intros H1 H2. unfold Py.slice, Py.bound.
  destruct (Z.ltb_spec lo 0); [lia|].
  destruct (Z.ltb_spec hi 0); [lia|].
  rewrite !Z.min_l by lia. reflexivity.
Qed.

Lemma all_eq_repeat {A : Type} (l : list A) (x : A) :
  (forall i, (i < List.length l)%nat -> nth_error l i = Some x) ->
  l = repeat x (List.length l).
Proof.
  induction l as [|y l IH]; intros H; simpl.
  - reflexivity.
  - f_equal.
    + specialize (H O ltac:(simpl; lia)). simpl in H. congruence.
    + apply IH. intros i Hi. apply (H (S i)). simpl. lia.
Qed.

(** An int32 holds a result that fits 32 bits as it is. *)
Lemma int32_fits (z : Z) : - 2 ^ 31 <= z < 2 ^ 31 -> int32 z = z.
Proof.
  intros H. unfold int32. rewrite Z.mod_small; lia.
Qed.

(** The test of line 337 passes on every sweep whose rays have the same
    gate count, when the number of its gates fits an int32 (beyond that
    the product of line 337 wraps and the test fails). *)
Lemma uniform_check_complete (ray_len : list Z) (ss se n : Z) :
  0 <= ss <= se -> se <= Py.len ray_len ->
  sweep_uniform ray_len ss se n ->
  - 2 ^ 31 <= n * (se - ss) < 2 ^ 31 ->
  Stream.uniform_check ray_len ss se n = true.
Proof.
  intros H1 H2 Hu Hfit. unfold Stream.uniform_check.
  rewrite (int32_fits _ Hfit).
  rewrite slice_nonneg by lia.
  set (s := firstn _ _).
  assert (Hlen : List.length s = Z.to_nat (se - ss)).
  { unfold s. rewrite length_firstn, length_skipn.
    assert (se <= Z.of_nat (List.length ray_len)) by exact H2. lia. }
  assert (Hs : s = repeat n (List.length s)).
  { apply all_eq_repeat. intros i Hi. unfold s.
    rewrite nth_error_firstn.
    destruct (Nat.ltb_spec i (Z.to_nat (se - ss))); [|lia].
    rewrite nth_error_skipn.
    assert (Hr : ss <= ss + Z.of_nat i < se) by lia.
    specialize (Hu _ Hr).
    rewrite get_nonneg in Hu by lia.
    replace (Z.to_nat ss + i)%nat with (Z.to_nat (ss + Z.of_nat i)) by lia.
    exact Hu. }
  rewrite Hs, sum_repeat, Hlen, Z2Nat.id by lia. apply Z.eqb_refl.
Qed.

(** C2: the bulk path is meant for sweeps whose rays all have one gate
    count, but the test the code makes does not say so.  For one sweep of
    three rays with 3, 2 and 4 gates the sums agree (3 + 2 + 4 = 3 * 3),
    the test passes although the rays differ, and the sweep is reshaped 3
    cells wide: the grid the code returns (third statement) is not the
    one the ray-by-ray copy gives (fourth statement). *)
Theorem uniform_check_not_sound :
  Stream.uniform_check [3; 2; 4] 0 3 3 = true /\
  ~ sweep_uniform [3; 2; 4] 0 3 3 /\
  Stream._stream_to_2d (arange 9) [0] [3] [3; 2; 4] 4 3 [0; 3; 5] =
    Ok [ [0; 1; 2; -9999]; [3; 4; 5; -9999]; [6; 7; 8; -9999] ]%float /\
  for_each (Stream.copy_ray (arange 9) [3; 2; 4] 4 [0; 3; 5] 0) (Py.range 3)
    (Stream.full 3 4 Stream.sentinel) =
    Ok [ [0; 1; 2; -9999]; [3; 4; -9999; -9999]; [5; 6; 7; 8] ]%float.
Proof.
  split; [reflexivity|]. split.
  - intros H. assert (Hr : 0 <= 1 < 3) by lia.
    specialize (H 1 Hr). discriminate H.
  - split; vm_compute; reflexivity.
Qed.

(** C3: the two examples of the ray reshape hold, the general statement
    does not.  Two sweeps of 3 rays of 4 gates turn the flat array
    [0..23] into the 6 by 4 grid, no cell at the sentinel; one sweep of 2
    rays with 3 and 5 gates leaves columns 3 and 4 of the first ray at
    -9999.0.  For one sweep of rays with 3, 2 and 4 gates the cell
    (1, 2), which lies beyond the 2 gates of ray 1, holds 5.0 and not
    the sentinel. *)
Theorem stream_to_2d_examples :
  Stream._stream_to_2d (arange 24) [0; 3] [3; 6] [4; 4; 4; 4; 4; 4] 4 6
      [0; 4; 8; 12; 16; 20] =
    Ok [ [0; 1; 2; 3]; [4; 5; 6; 7]; [8; 9; 10; 11];
         [12; 13; 14; 15]; [16; 17; 18; 19]; [20; 21; 22; 23] ]%float /\
  Stream._stream_to_2d (arange 8) [0] [2] [3; 5] 5 2 [0; 3] =
    Ok [ [0; 1; 2; -9999; -9999]; [3; 4; 5; 6; 7] ]%float /\
  (exists grid,
     Stream._stream_to_2d (arange 9) [0] [3] [3; 2; 4] 4 3 [0; 3; 5] = Ok grid /\
     Py.get [3; 2; 4] 1 = Some 2 /\
     nth 2 (nth 1 grid []) Stream.sentinel = 5%float /\
     5%float <> Stream.sentinel).
Proof.
  split; [vm_compute; reflexivity|].
  split; [vm_compute; reflexivity|].
  eexists. split; [vm_compute; reflexivity|].
  split; [reflexivity|]. split; [reflexivity|].
  intros H. 
  assert (PrimFloat.eqb 5 Stream.sentinel = true) by (rewrite <- H; reflexivity).
  discriminate.
Qed.


(** ** The grid of the ray reshape *)

Import Stream.

Section GridFacts.
Context {A : Type}.
Implicit Types (g : list (list A)) (row src : list A).

Lemma length_update_at {B : Type} (l : list B) : forall i f,
  List.length (update_at l i f) = List.length l.
Proof.
  induction l as [|x l IH]; intros [|i] f; simpl; auto.
Qed.

Lemma nth_update_at {B : Type} (l : list B) : forall i f r d,
  nth r (update_at l i f) d = nth r l d \/
  (r = i /\ nth r (update_at l i f) d = f (nth r l d)).
Proof.
  induction l as [|x l IH]; intros [|i] f [|r] d; simpl; auto.
  destruct (IH i f r d) as [H|[-> H]]; auto.
Qed.

Lemma nth_update_at_other {B : Type} (l : list B) : forall i f r d,
  r <> i -> nth r (update_at l i f) d = nth r l d.
Proof.
  intros i f r d Hne. destruct (nth_update_at l i f r d) as [H|[E _]];
    [exact H | contradiction].
Qed.

Lemma Forall_update_at {B : Type} (P : B -> Prop) (l : list B) : forall i f,
  Forall P l -> (forall x, P x -> P (f x)) -> Forall P (update_at l i f).
Proof.
  induction l as [|x l IH]; intros [|i] f Hl Hf; simpl; auto;
    inversion Hl; subst; constructor; auto.
Qed.

Lemma length_broadcast_to (n : nat) src :
  List.length src = n \/ List.length src = 1%nat ->
  List.length (broadcast_to n src) = n.
Proof.
  intros H. unfold broadcast_to.
  destruct (Nat.eqb_spec (List.length src) n) as [E|E]; [exact E|].
  destruct src as [|x src]; [simpl in *; lia|]. apply repeat_length.
Qed.

Lemma length_write_prefix (tc : nat) src row :
  List.length (broadcast_to tc src) = tc -> (tc <= List.length row)%nat ->
  List.length (write_prefix tc src row) = List.length row.
Proof.
  intros H Hle. unfold write_prefix. rewrite List.length_app, H, length_skipn. lia.
Qed.

Lemma nth_write_prefix (tc : nat) src row j d :
  List.length (broadcast_to tc src) = tc -> (tc <= j)%nat ->
  nth j (write_prefix tc src row) d = nth j row d.
Proof.
  intros H Hle. unfold write_prefix.
  rewrite app_nth2 by lia. rewrite H, nth_skipn. f_equal. lia.
Qed.

Lemma in_broadcast_to (n : nat) (l : list (list A)) row :
  In row (broadcast_to n l) -> In row l.
Proof.
  unfold broadcast_to. destruct (Nat.eqb _ _); [auto|].
  destruct l as [|x l]; [auto|]. intros H. apply repeat_spec in H. subst. now left.
Qed.

(** Rows written one after the other, each with a prefix of [tc] cells. *)
Lemma fold_write_rows (nrays maxgates a tc : nat) (srcs : nat -> list A)
    (rows : nat -> Prop) (l : list nat) : forall g,
  (tc <= maxgates)%nat ->
  (forall i, In i l -> List.length (broadcast_to tc (srcs i)) = tc) ->
  (forall i, In i l -> rows (a + i)%nat) ->
  grid_shape nrays maxgates g ->
  let g' := fold_left
              (fun g i => update_at g (a + i) (write_prefix tc (srcs i))) l g in
  grid_shape nrays maxgates g' /\ same_outside rows tc g g'.
Proof.
  induction l as [|i l IH]; intros g Htc Hsrc Hrows Hg; cbn [fold_left].
  - split; [exact Hg|]. intros r j d _. reflexivity.
  - assert (Hi : List.length (broadcast_to tc (srcs i)) = tc)
      by (apply Hsrc; now left).
    assert (Hg1 : grid_shape nrays maxgates
                    (update_at g (a + i) (write_prefix tc (srcs i)))).
    { destruct Hg as [Hlen Hall]. split.
      - now rewrite length_update_at.
      - apply Forall_update_at; [exact Hall|].
        intros row Hrow. rewrite length_write_prefix; [exact Hrow | exact Hi | lia]. }
    destruct (IH _ Htc (fun k Hk => Hsrc k (or_intror Hk))
                (fun k Hk => Hrows k (or_intror Hk)) Hg1) as [Hs Ho].
    split; [exact Hs|].
    intros r j d Hrj. rewrite (Ho r j d Hrj).
    destruct (nth_update_at g (a + i) (write_prefix tc (srcs i)) r [])
      as [E|[-> E]]; rewrite E; [reflexivity|].
    destruct Hrj as [Hr|Hj].
    + exfalso. apply Hr. apply Hrows. now left.
    + now apply nth_write_prefix.
Qed.

Lemma length_chunks (c n : nat) : forall (l : list A),
  List.length (Stream.chunks c n l) = n.
Proof. induction n as [|n IH]; intros l; simpl; [reflexivity | now rewrite IH]. Qed.

Lemma Forall_chunks (c n : nat) : forall (l : list A),
  (c * n <= List.length l)%nat ->
  Forall (fun row => List.length row = c) (Stream.chunks c n l).
Proof.
  induction n as [|n IH]; intros l H; simpl; constructor.
  - rewrite length_firstn. lia.
  - apply IH. rewrite length_skipn. lia.
Qed.

Lemma reshape2_ok (d : list A) (r c r' c' : Z) block :
  Stream.reshape2 d r c = Ok (r', c', block) ->
  0 <= r' /\ 0 <= c' /\ List.length block = Z.to_nat r' /\
  Forall (fun row => List.length row = Z.to_nat c') block /\
  (0 <= r -> 0 <= c -> r' = r /\ c' = c).
Proof.
  unfold Stream.reshape2, Py.len. intros H.
  destruct ((r =? -1) && (c =? -1)) eqn:E1; [discriminate|].
  destruct (r =? -1) eqn:Er.
  { destruct ((0 <? c) && _) eqn:E2; [|discriminate].
    apply andb_prop in E2. destruct E2 as [Hc Hm].
    apply Z.ltb_lt in Hc. apply Z.eqb_eq in Hm. apply Z.eqb_eq in Er.
    inversion H. subst r' c' block. clear H.
    assert (Hq : 0 <= Z.of_nat (List.length d) / c) by (apply Z.div_pos; lia).
    assert (Hd : Z.of_nat (List.length d) = c * (Z.of_nat (List.length d) / c))
      by (apply Z.div_exact; lia).
    repeat split; try lia.
    - apply length_chunks.
    - apply Forall_chunks. nia. }
  destruct (c =? -1) eqn:Ec.
  { destruct ((0 <? r) && _) eqn:E2; [|discriminate].
    apply andb_prop in E2. destruct E2 as [Hc Hm].
    apply Z.ltb_lt in Hc. apply Z.eqb_eq in Hm. apply Z.eqb_eq in Ec.
    inversion H. subst r' c' block. clear H.
    assert (Hq : 0 <= Z.of_nat (List.length d) / r) by (apply Z.div_pos; lia).
    assert (Hd : Z.of_nat (List.length d) = r * (Z.of_nat (List.length d) / r))
      by (apply Z.div_exact; lia).
    repeat split; try lia.
    - apply length_chunks.
    - apply Forall_chunks. nia. }
  destruct ((r <? 0) || (c <? 0)) eqn:E3; [discriminate|].
  apply orb_false_elim in E3. destruct E3 as [Hr Hc].
  apply Z.ltb_ge in Hr. apply Z.ltb_ge in Hc.
  destruct (r * c =? Z.of_nat (List.length d)) eqn:E4; [|discriminate].
  apply Z.eqb_eq in E4. inversion H. subst r' c' block. clear H.
  repeat split; try lia.
  - apply length_chunks.
  - apply Forall_chunks. nia.
Qed.
End GridFacts.

Lemma for_each_invariant {S X : Type} (P : S -> Prop)
    (body : S -> X -> result S) (l : list X) : forall st st',
  (forall s x s', In x l -> body s x = Ok s' -> P s -> P s') ->
  for_each body l st = Ok st' -> P st -> P st'.
Proof.
  induction l as [|x l IH]; intros st st' Hb H Hst; cbn [for_each] in H.
  - inversion H. now subst.
  - destruct (body st x) as [s1|e] eqn:E; cbn [rbind] in H; [|discriminate].
    eapply IH; [|exact H|].
    + intros s y s' Hy. apply Hb. now right.
    + eapply Hb; [now left | exact E | exact Hst].
Qed.

Lemma bound_range (n i : Z) : 0 <= n -> 0 <= Py.bound n i <= n.
Proof. intros H. unfold Py.bound. destruct (Z.ltb_spec i 0); lia. Qed.

Lemma bound_nonneg (n i : Z) : 0 <= n -> 0 <= i -> Py.bound n i = Z.min i n.
Proof.
  intros Hn Hi. unfold Py.bound. destruct (Z.ltb_spec i 0); [lia | reflexivity].
Qed.

Lemma broadcasts_cases (s t : Z) : broadcasts s t = true -> s = t \/ s = 1.
Proof.
  unfold broadcasts. intros H. apply orb_prop in H.
  destruct H as [H|H]; apply Z.eqb_eq in H; auto.
Qed.

Lemma in_range (n i : Z) : In i (Py.range n) <-> 0 <= i < n.
Proof.
  unfold Py.range. rewrite in_map_iff. split.
  - intros [k [<- Hk]]. apply in_seq in Hk. lia.
  - intros H. exists (Z.to_nat i). split; [lia|]. apply in_seq. lia.
Qed.

Section AssignFacts.
Context {A : Type}.

Lemma assign_ray_spec (nrays maxgates : nat) (g g' : list (list A))
    (i hc : Z) (src : list A) :
  grid_shape nrays maxgates g ->
  assign_ray maxgates g i hc src = Ok g' ->
  grid_shape nrays maxgates g' /\
  (0 <= i ->
   same_outside (fun r => r = Z.to_nat i)
     (Z.to_nat (Py.bound (Z.of_nat maxgates) hc)) g g').
Proof.
  intros Hg H. unfold assign_ray in H.
  destruct ((- Py.len g <=? i) && (i <? Py.len g)) eqn:Ei; [|discriminate].
  destruct (broadcasts (Py.len src) _) eqn:Eb; [|discriminate].
  inversion H. clear H.
  set (tc := Z.to_nat (Py.bound (Z.of_nat maxgates) hc)).
  set (k := Z.to_nat (if i <? 0 then i + Py.len g else i)).
  pose proof (bound_range (Z.of_nat maxgates) hc (Nat2Z.is_nonneg _)) as Hb.
  assert (Hsrc : List.length (broadcast_to tc src) = tc).
  { apply length_broadcast_to. apply broadcasts_cases in Eb.
    unfold Py.len in Eb. unfold tc. lia. }
  destruct (fold_write_rows nrays maxgates k tc (fun _ => src)
              (fun r => r = k) [O] g) as [Hs Ho].
  - unfold tc. lia.
  - intros _ _. exact Hsrc.
  - intros j [<-|[]]. lia.
  - exact Hg.
  - cbn [fold_left] in Hs, Ho. rewrite Nat.add_0_r in Hs, Ho.
    split; [exact Hs|].
    intros Hi. subst k. destruct (Z.ltb_spec i 0); [lia|]. exact Ho.
Qed.

Lemma assign_block_spec (nrays maxgates : nat) (g g' : list (list A))
    (lo hi hc r c : Z) (block : list (list A)) :
  grid_shape nrays maxgates g ->
  0 <= r -> 0 <= c ->
  List.length block = Z.to_nat r ->
  Forall (fun row => List.length row = Z.to_nat c) block ->
  assign_block maxgates g lo hi hc r c block = Ok g' ->
  grid_shape nrays maxgates g' /\
  same_outside
    (fun k => (Z.to_nat (Py.bound (Z.of_nat nrays) lo) <= k
               < Z.to_nat (Py.bound (Z.of_nat nrays) lo)
                 + Z.to_nat (Z.max (Py.bound (Z.of_nat nrays) hi
                                    - Py.bound (Z.of_nat nrays) lo) 0))%nat)
    (Z.to_nat (Py.bound (Z.of_nat maxgates) hc)) g g'.
Proof.
  intros Hg Hr Hc Hlen Hrows H. unfold assign_block in H.
  assert (Hnr : Py.len g = Z.of_nat nrays) by (unfold Py.len; destruct Hg; lia).
  rewrite Hnr in H.
  set (a := Py.bound (Z.of_nat nrays) lo) in *.
  set (tr := Z.max (Py.bound (Z.of_nat nrays) hi - a) 0) in *.
  set (tc := Py.bound (Z.of_nat maxgates) hc) in *.
  destruct (broadcasts r tr && broadcasts c tc) eqn:Eb; [|discriminate].
  apply andb_prop in Eb. destruct Eb as [Ebr Ebc].
  apply broadcasts_cases in Ebr. apply broadcasts_cases in Ebc.
  inversion H. clear H.
  pose proof (bound_range (Z.of_nat maxgates) hc (Nat2Z.is_nonneg _)) as Hb.
  assert (Hbl : List.length (broadcast_to (Z.to_nat tr) block) = Z.to_nat tr).
  { apply length_broadcast_to. lia. }
  apply (fold_write_rows nrays maxgates (Z.to_nat a) (Z.to_nat tc)
           (fun i => nth i (broadcast_to (Z.to_nat tr) block) [])
           (fun k => (Z.to_nat a <= k < Z.to_nat a + Z.to_nat tr)%nat)
           (seq 0 (Z.to_nat tr)) g).
  - fold tc in Hb. lia.
  - intros i Hi. apply in_seq in Hi. apply length_broadcast_to.
    assert (Hin : In (nth i (broadcast_to (Z.to_nat tr) block) [])
                     (broadcast_to (Z.to_nat tr) block))
      by (apply nth_In; lia).
    apply in_broadcast_to in Hin.
    rewrite Forall_forall in Hrows. rewrite (Hrows _ Hin). lia.
  - intros i Hi. apply in_seq in Hi. lia.
  - exact Hg.
Qed.
End AssignFacts.

Section StreamFacts.
Variables (data : list float) (sweeps sweepe ray_len : list Z).
Variables (maxgates nrays : nat) (ray_start_index : list Z).

Lemma copy_ray_shape ss g rn g' :
  copy_ray data ray_len maxgates ray_start_index ss g rn = Ok g' ->
  grid_shape nrays maxgates g -> grid_shape nrays maxgates g'.
Proof.
  unfold Stream.copy_ray. intros H Hg.
  destruct (of_option IndexError (Py.get ray_start_index (ss + rn)));
    cbn [rbind] in H; [|discriminate].
  destruct (of_option IndexError (Py.get ray_len (ss + rn)));
    cbn [rbind] in H; [|discriminate].
  now apply (assign_ray_spec nrays maxgates _ _ _ _ _ Hg) in H.
Qed.

Lemma sweep_body_shape st k st' :
  sweep_body data sweeps sweepe ray_len maxgates ray_start_index st k = Ok st' ->
  grid_shape nrays maxgates (fst st) -> grid_shape nrays maxgates (fst st').
Proof.
  destruct st as [g cp]. unfold Stream.sweep_body. intros H Hg. cbn [fst] in Hg.
  destruct (of_option IndexError (Py.get sweeps k)) as [ss|];
    cbn [rbind] in H; [|discriminate].
  destruct (of_option IndexError (Py.get sweepe k)) as [se|];
    cbn [rbind] in H; [|discriminate].
  destruct (of_option IndexError (Py.get ray_len ss)) as [rle|];
    cbn [rbind] in H; [|discriminate].
  destruct (uniform_check ray_len ss se rle).
  - destruct (reshape2 _ _ _) as [[[r c] block]|] eqn:Er;
      cbn [rbind] in H; [|discriminate].
    apply reshape2_ok in Er. destruct Er as [Hr [Hc [Hl [Hf _]]]].
    destruct (assign_block _ _ _ _ _ _ _ _) as [g1|] eqn:Ea;
      cbn [rbind] in H; [|discriminate].
    inversion H. cbn [fst].
    now apply (assign_block_spec nrays maxgates _ _ _ _ _ _ _ _ Hg Hr Hc Hl Hf) in Ea.
  - destruct (for_each _ _ _) as [g1|] eqn:Ef; cbn [rbind] in H; [|discriminate].
    inversion H. cbn [fst].
    eapply (for_each_invariant (grid_shape nrays maxgates)); [|exact Ef|exact Hg].
    intros s x s' _ Hs. eapply copy_ray_shape; exact Hs.
Qed.

Lemma full_shape {A : Type} (x : A) : grid_shape nrays maxgates (full nrays maxgates x).
Proof.
  unfold full. split; [apply repeat_length|].
  apply Forall_forall. intros row Hrow. apply repeat_spec in Hrow. subst.
  apply repeat_length.
Qed.

(** The result is always a grid of [nrays] rows of [maxgates] cells. *)
Theorem stream_to_2d_shape grid :
  _stream_to_2d data sweeps sweepe ray_len maxgates nrays ray_start_index
    = Ok grid ->
  grid_shape nrays maxgates grid.
Proof.
  unfold _stream_to_2d. intros H.
  destruct (for_each _ _ _) as [st|] eqn:Ef; cbn [rbind] in H; [|discriminate].
  inversion H. subst grid.
  eapply (for_each_invariant (fun st => grid_shape nrays maxgates (fst st)));
    [|exact Ef|apply full_shape].
  intros s x s' _. apply sweep_body_shape.
Qed.

Lemma nth_full {A : Type} (x : A) (i j : nat) :
  nth j (nth i (full nrays maxgates x) []) x = x.
Proof.
  unfold full.
  destruct (Nat.ltb_spec i nrays) as [H|H].
  - rewrite nth_repeat_lt by exact H. apply nth_repeat.
  - rewrite (nth_overflow (repeat (repeat x maxgates) nrays) []).
    + now destruct j.
    + rewrite repeat_length. exact H.
Qed.

Hypothesis consistent : stream_consistent sweeps sweepe ray_len.

Lemma copy_ray_uncovered ss se g rn g' :
  0 <= ss -> 0 <= rn < se - ss ->
  (exists k, 0 <= k < Py.len sweepe /\
             Py.get sweeps k = Some ss /\ Py.get sweepe k = Some se) ->
  grid_shape nrays maxgates g ->
  copy_ray data ray_len maxgates ray_start_index ss g rn = Ok g' ->
  forall i j d, ~ covered sweeps sweepe ray_len i j ->
    nth j (nth i g' []) d = nth j (nth i g []) d.
Proof.
  intros Hss Hrn [k [Hk [Hks Hke]]] Hg H i j d Hnc.
  destruct consistent as [_ [Hlen _]].
  unfold Stream.copy_ray in H.
  destruct (of_option IndexError (Py.get ray_start_index (ss + rn)));
    cbn [rbind] in H; [|discriminate].
  destruct (Py.get ray_len (ss + rn)) as [n|] eqn:En;
    cbn [of_option rbind] in H; [|discriminate].
  apply (assign_ray_spec nrays maxgates _ _ _ _ _ Hg) in H.
  destruct H as [_ Ho]. apply Ho; [lia|].
  destruct (Nat.eq_dec i (Z.to_nat (ss + rn))) as [E|E]; [right | now left].
  assert (Hi : Z.of_nat i = ss + rn) by lia.
  assert (Hn : 0 <= n) by (eapply Hlen; exact En).
  rewrite bound_nonneg by lia.
  destruct (Z.lt_ge_cases (Z.of_nat j) n) as [Hj|Hj]; [|lia].
  exfalso. apply Hnc. exists k, ss, se, n. rewrite Hi. repeat split; try lia; auto.
Qed.

Lemma sweep_body_uncovered g cp k g' cp' :
  0 <= k < Py.len sweepe ->
  grid_shape nrays maxgates g ->
  sweep_body data sweeps sweepe ray_len maxgates ray_start_index (g, cp) k
    = Ok (g', cp') ->
  forall i j d, ~ covered sweeps sweepe ray_len i j ->
    nth j (nth i g' []) d = nth j (nth i g []) d.
Proof.
  intros Hk Hg H i j d Hnc. unfold Stream.sweep_body in H.
  destruct (Py.get sweeps k) as [ss|] eqn:Es;
    cbn [of_option rbind] in H; [|discriminate].
  destruct (Py.get sweepe k) as [se|] eqn:Ee;
    cbn [of_option rbind] in H; [|discriminate].
  destruct (Py.get ray_len ss) as [rle|] eqn:Er;
    cbn [of_option rbind] in H; [|discriminate].
  destruct consistent as [Hidx [Hlen Hunif]].
  destruct (Hidx k ss se Hk Es Ee) as [Hss Hse].
  assert (Hrle : 0 <= rle) by (eapply Hlen; exact Er).
  destruct (uniform_check ray_len ss se rle) eqn:Eu.
  - destruct (reshape2 _ _ _) as [[[r c] block]|] eqn:Ersh;
      cbn [rbind] in H; [|discriminate].
    apply reshape2_ok in Ersh. destruct Ersh as [Hr [Hc [Hl [Hf _]]]].
    destruct (assign_block _ _ _ _ _ _ _ _) as [g1|] eqn:Ea;
      cbn [rbind] in H; [|discriminate].
    inversion H. subst g1 cp'. clear H.
    apply (assign_block_spec nrays maxgates _ _ _ _ _ _ _ _ Hg Hr Hc Hl Hf) in Ea.
    destruct Ea as [_ Ho]. apply Ho.
    rewrite !bound_nonneg by lia.
    destruct (Z.lt_ge_cases (Z.of_nat i) ss) as [H1|H1]; [left; lia|].
    destruct (Z.lt_ge_cases (Z.of_nat i) se) as [H2|H2]; [|left; lia].
    right.
    destruct (Z.lt_ge_cases (Z.of_nat j) rle) as [Hj|Hj]; [|lia].
    exfalso. apply Hnc. exists k, ss, se, rle.
    repeat split; try lia; auto.
    apply (Hunif k ss se rle Hk Es Ee Er Eu). lia.
  - destruct (for_each _ _ _) as [g1|] eqn:Ef; cbn [rbind] in H; [|discriminate].
    inversion H. subst g1 cp'. clear H.
    assert (HP : grid_shape nrays maxgates g' /\
                 forall i j d, ~ covered sweeps sweepe ray_len i j ->
                   nth j (nth i g' []) d = nth j (nth i g []) d).
    { eapply (for_each_invariant
                (fun s => grid_shape nrays maxgates s /\
                          forall i j d, ~ covered sweeps sweepe ray_len i j ->
                            nth j (nth i s []) d = nth j (nth i g []) d));
        [|exact Ef|split; [exact Hg | reflexivity]].
      intros s rn s' Hrn Hs [Hsg Hsame]. apply in_range in Hrn. split.
      - eapply copy_ray_shape; [exact Hs | exact Hsg].
      - intros i0 j0 d0 Hnc0. rewrite <- (Hsame i0 j0 d0 Hnc0).
        eapply copy_ray_uncovered; [exact Hss | exact Hrn | | exact Hsg
                                   | exact Hs | exact Hnc0].
        exists k. auto. }
    now apply HP.
Qed.

(** On consistent bookkeeping every cell that holds no gate of a ray is
    left at the sentinel. *)
Theorem stream_to_2d_sentinel grid :
  _stream_to_2d data sweeps sweepe ray_len maxgates nrays ray_start_index
    = Ok grid ->
  forall i j, ~ covered sweeps sweepe ray_len i j ->
    nth j (nth i grid []) sentinel = sentinel.
Proof.
  unfold _stream_to_2d. intros H.
  destruct (for_each _ _ _) as [st|] eqn:Ef; cbn [rbind] in H; [|discriminate].
  inversion H. subst grid. clear H.
  assert (HP : grid_shape nrays maxgates (fst st) /\
               forall i j, ~ covered sweeps sweepe ray_len i j ->
                 nth j (nth i (fst st) []) sentinel = sentinel).
  { eapply (for_each_invariant
              (fun st => grid_shape nrays maxgates (fst st) /\
                         forall i j, ~ covered sweeps sweepe ray_len i j ->
                           nth j (nth i (fst st) []) sentinel = sentinel));
      [|exact Ef|split; [apply full_shape | intros; apply nth_full]].
    intros [g cp] k [g' cp'] Hk Hs [Hg Hinv]. apply in_range in Hk. split.
    - apply (sweep_body_shape _ _ _ Hs Hg).
    - intros i j Hnc. cbn [fst].
      rewrite (sweep_body_uncovered _ _ _ _ _ Hk Hg Hs i j sentinel Hnc).
      now apply Hinv. }
  apply HP.
Qed.
End StreamFacts.

(** ** Dictionaries *)

Section DictFacts.
Context {V : Type}.
Implicit Types (d : dict V) (k : string) (v : V).

Lemma dict_get_set_same d k v : dict_get (dict_set d k v) k = Some v.
Proof.
  induction d as [|[k' v'] d IH]; simpl.
  - now rewrite String.eqb_refl.
  - destruct (String.eqb_spec k k') as [->|Hne]; simpl.
    + now rewrite String.eqb_refl.
    + destruct (String.eqb_spec k k'); [contradiction | exact IH].
Qed.

Lemma dict_get_set_other d k k' v :
  k <> k' -> dict_get (dict_set d k v) k' = dict_get d k'.
Proof.
  intros Hne. induction d as [|[k0 v0] d IH]; simpl.
  - destruct (String.eqb_spec k' k); [congruence | reflexivity].
  - destruct (String.eqb_spec k k0) as [->|Hk]; simpl.
    + destruct (String.eqb_spec k' k0); [congruence | reflexivity].
    + destruct (String.eqb_spec k' k0); [reflexivity | exact IH].
Qed.

Lemma dict_set_set d k v v' : dict_set (dict_set d k v) k v' = dict_set d k v'.
Proof.
  induction d as [|[k0 v0] d IH]; simpl.
  - now rewrite String.eqb_refl.
  - destruct (String.eqb_spec k k0) as [->|Hk]; simpl.
    + now rewrite String.eqb_refl.
    + destruct (String.eqb_spec k k0); [contradiction | now rewrite IH].
Qed.

Lemma dict_get_del_other d k k' :
  k <> k' -> dict_get (dict_del d k) k' = dict_get d k'.
Proof.
  intros Hne. induction d as [|[k0 v0] d IH]; simpl; [reflexivity|].
  destruct (String.eqb_spec k k0) as [->|Hk]; simpl.
  - destruct (String.eqb_spec k' k0); [congruence | exact IH].
  - destruct (String.eqb_spec k' k0); [reflexivity | exact IH].
Qed.

Lemma dict_get_none_keys d k : dict_get d k = None <-> ~ In k (dict_keys d).
Proof.
  induction d as [|[k0 v0] d IH]; simpl.
  - tauto.
  - destruct (String.eqb_spec k k0) as [->|Hk].
    + split; [discriminate | intros H; exfalso; apply H; now left].
    + rewrite IH. split; [intros H [E|I]; [congruence | tauto] | tauto].
Qed.

Lemma dict_has_keys d k : dict_has d k = true <-> In k (dict_keys d).
Proof.
  unfold dict_has. destruct (dict_get d k) eqn:E.
  - split; [intros _|reflexivity].
    destruct (in_dec string_dec k (dict_keys d)) as [H|H]; [exact H|].
    apply dict_get_none_keys in H. congruence.
  - split; [discriminate|]. intros H. apply dict_get_none_keys in E. contradiction.
Qed.

Lemma dict_set_new d k v :
  ~ In k (dict_keys d) -> dict_set d k v = d ++ [(k, v)].
Proof.
  induction d as [|[k0 v0] d IH]; simpl; intros Hn; [reflexivity|].
  destruct (String.eqb_spec k k0) as [->|Hk].
  - exfalso. apply Hn. now left.
  - rewrite IH; [reflexivity | tauto].
Qed.
End DictFacts.

Lemma str_in_In (k : string) (l : list string) : str_in k l = true <-> In k l.
Proof.
  unfold str_in. rewrite existsb_exists. split.
  - intros [x [Hx E]]. apply String.eqb_eq in E. now subst.
  - intros H. exists k. split; [exact H | apply String.eqb_refl].
Qed.

(** ** The writer's monad *)

Lemma bind_ok {A B : Type} (m : M A) (f : A -> M B) ds b ds' :
  bind m f ds = Ok (b, ds') <->
  exists a ds1, m ds = Ok (a, ds1) /\ f a ds1 = Ok (b, ds').
Proof.
  unfold bind. destruct (m ds) as [[a ds1]|e].
  - split; [intros H; now exists a, ds1 | intros [a' [ds1' [E H]]]; congruence].
  - split; [discriminate | intros [a' [ds1' [E H]]]; discriminate].
Qed.

Lemma lift_ok {A : Type} (r : result A) ds a ds' :
  lift r ds = Ok (a, ds') <-> r = Ok a /\ ds' = ds.
Proof.
  unfold lift. destruct r; split; intros H; try discriminate.
  - inversion H. now subst.
  - destruct H as [H ->]. now inversion H.
  - destruct H as [H _]. discriminate.
Qed.

Lemma with_var_twice ds name v v' :
  with_var (with_var ds name v) name v' = with_var ds name v'.
Proof. unfold with_var. simpl. now rewrite dict_set_set. Qed.

Lemma get_var_with_var ds name v :
  get_var name (with_var ds name v) = Ok (v, with_var ds name v).
Proof. unfold get_var, with_var. simpl. now rewrite dict_get_set_same. Qed.

Lemma put_var_with_var ds name v v' :
  put_var name v' (with_var ds name v) = Ok (tt, with_var ds name v').
Proof. unfold put_var. fold (with_var (with_var ds name v) name v'). now rewrite with_var_twice. Qed.

Lemma var_setncattr_with_var ds name v k x :
  var_setncattr name k x (with_var ds name v) =
  Ok (tt, with_var ds name (with_attrs v (dict_set (var_attrs v) k x))).
Proof.
  unfold var_setncattr, bind. rewrite get_var_with_var. apply put_var_with_var.
Qed.

Lemma var_delncattr_with_var ds name v k :
  var_delncattr name k (with_var ds name v) =
  Ok (tt, with_var ds name (with_attrs v (dict_del (var_attrs v) k))).
Proof.
  unfold var_delncattr, bind. rewrite get_var_with_var. apply put_var_with_var.
Qed.

Lemma set_all_with_var name (dic : attr_array) : forall ds v,
  forM dic (fun kv =>
      when (negb (str_in (fst kv) ["data"; "_FillValue"; "long_name"; "units"]))
        (var_setncattr name (fst kv) (snd kv))) (with_var ds name v) =
  Ok (tt, with_var ds name
            (with_attrs v
               (fold_left
                  (fun a kv =>
                     if str_in (fst kv) ["data"; "_FillValue"; "long_name"; "units"]
                     then a else dict_set a (fst kv) (snd kv))
                  dic (var_attrs v)))).
Proof.
  induction dic as [|[k x] dic IH]; intros ds v.
  - simpl. destruct v; reflexivity.
  - cbn [forM fold_left fst snd]. unfold bind at 1.
    destruct (str_in k ["data"; "_FillValue"; "long_name"; "units"]) eqn:E;
      cbn [negb when].
    + unfold ret. apply IH.
    + rewrite var_setncattr_with_var. rewrite IH. reflexivity.
Qed.

Lemma bind_step {A B : Type} {m : M A} (f : A -> M B) {ds a ds1} :
  m ds = Ok (a, ds1) -> bind m f ds = f a ds1.
Proof. intros H. unfold bind. now rewrite H. Qed.

Lemma str_in_keys {V : Type} (d : dict V) (k : string) :
  str_in k (dict_keys d) = dict_has d k.
Proof.
  unfold dict_has, str_in, dict_keys.
  induction d as [|[k0 v0] d IH]; simpl; [reflexivity|].
  destruct (String.eqb k k0); simpl; [reflexivity | exact IH].
Qed.

Lemma with_attrs_attrs v a : var_attrs (with_attrs v a) = a.
Proof. reflexivity. Qed.

Lemma with_attrs_twice v a b : with_attrs (with_attrs v a) b = with_attrs v b.
Proof. reflexivity. Qed.

Lemma when_set_setncattr ds name v k (o : option value) :
  when_set o (var_setncattr name k) (with_var ds name v) =
  Ok (tt, with_var ds name
            (with_attrs v match o with
                          | Some x => dict_set (var_attrs v) k x
                          | None => var_attrs v
                          end)).
Proof.
  destruct o as [x|]; cbn [when_set].
  - apply var_setncattr_with_var.
  - destruct v; reflexivity.
Qed.

Lemma var_ncattrs_with_var ds name v :
  var_ncattrs name (with_var ds name v) =
  Ok (dict_keys (var_attrs v), with_var ds name v).
Proof.
  unfold var_ncattrs. now rewrite (bind_step _ (get_var_with_var ds name v)).
Qed.

Lemma var_getattr_with_var ds name v k x :
  dict_get (var_attrs v) k = Some x ->
  var_getattr name k (with_var ds name v) = Ok (x, with_var ds name v).
Proof.
  intros E. unfold var_getattr.
  rewrite (bind_step _ (get_var_with_var ds name v)).
  unfold lift, getitem. now rewrite E.
Qed.

Lemma refill_with_var ds name v :
  when (str_in "_FillValue" (dict_keys (var_attrs v)))
    (bind (var_getattr name "_FillValue")
       (fun fv => bind (var_delncattr name "_FillValue")
                    (fun _ => var_setncattr name "_FillValue" fv)))
    (with_var ds name v) =
  Ok (tt, with_var ds name
            (with_attrs v
               match dict_get (var_attrs v) "_FillValue" with
               | Some fv =>
                   dict_set (dict_del (var_attrs v) "_FillValue") "_FillValue" fv
               | None => var_attrs v
               end)).
Proof.
  rewrite str_in_keys. unfold dict_has.
  destruct (dict_get (var_attrs v) "_FillValue") as [fv|] eqn:E; cbn [when].
  - rewrite (bind_step _ (var_getattr_with_var ds name v _ _ E)).
    rewrite (bind_step _ (var_delncattr_with_var ds name v "_FillValue")).
    rewrite var_setncattr_with_var. reflexivity.
  - destruct v; reflexivity.
Qed.

Lemma var_assign_with_var ds name v data :
  var_assign name data (with_var ds name v) =
  Ok (tt, with_var ds name
            (mk_var (var_dtype v) (var_dimensions v) (var_attrs v) data)).
Proof.
  unfold var_assign. rewrite (bind_step _ (get_var_with_var ds name v)).
  apply put_var_with_var.
Qed.

(** What a successful [_create_ncvar] does to the dataset: one new
    variable, nothing else changed. *)
Lemma _create_ncvar_ok ext dic name dims ds u ds' :
  _create_ncvar ext dic name dims ds = Ok (u, ds') ->
  exists a,
    array_to_write ext dic = Ok a /\
    dict_get (ds_variables ds) name = None /\
    ds' = with_var ds name
            (mk_var (nd_dtype a) dims
               (ncvar_attrs
                  (created_attrs ext
                     (dict_get_or_none dic "least_significant_digit")
                     (dict_get_or_none dic "_FillValue")) dic)
               (at_least_1d a)).
Proof.
  unfold _create_ncvar. intros H.
  apply bind_ok in H. destruct H as [a [ds0 [Ha H]]].
  apply lift_ok in Ha. destruct Ha as [Ha ->].
  exists a. split; [exact Ha|].
  apply bind_ok in H. destruct H as [[] [ds1 [Hc H]]].
  unfold createVariable in Hc. unfold dict_has in Hc.
  destruct (dict_get (ds_variables ds) name) eqn:Hnew; [discriminate|].
  split; [reflexivity|].
  destruct (forallb _ dims); [|discriminate].
  inversion Hc as [Hds1]. clear Hc.
  match type of Hds1 with
  | mk_dataset _ _ (dict_set _ _ ?v0) _ = _ => fold (with_var ds name v0) in Hds1
  end.
  subst ds1. revert H.
  rewrite (bind_step _ (when_set_setncattr _ _ _ _ _)).
  rewrite (bind_step _ (when_set_setncattr _ _ _ _ _)).
  rewrite (bind_step _ (var_ncattrs_with_var _ _ _)).
  rewrite (bind_step _ (refill_with_var _ _ _)).
  rewrite (bind_step _ (set_all_with_var _ _ _ _)).
  rewrite var_assign_with_var.
  intros H. inversion H. reflexivity.
Qed.


Section Preserves.
Context {X : Type} (obs : Dataset -> X).

Lemma preserves_ret {A : Type} (a : A) : preserves obs (ret a).
Proof. intros ds a' ds' H. inversion H. reflexivity. Qed.

Lemma preserves_lift {A : Type} (r : result A) : preserves obs (lift r).
Proof. intros ds a ds' H. apply lift_ok in H. now destruct H as [_ ->]. Qed.

Lemma preserves_bind {A B : Type} (m : M A) (f : A -> M B) :
  preserves obs m -> (forall a, preserves obs (f a)) -> preserves obs (bind m f).
Proof.
  intros Hm Hf ds b ds' H. apply bind_ok in H.
  destruct H as [a [ds1 [H1 H2]]].
  rewrite (Hf _ _ _ _ H2). exact (Hm _ _ _ H1).
Qed.

Lemma preserves_when (c : bool) (m : M unit) :
  preserves obs m -> preserves obs (when c m).
Proof. intros H. destruct c; [exact H | apply preserves_ret]. Qed.

Lemma preserves_when_set {Y : Type} (o : option Y) (f : Y -> M unit) :
  (forall y, preserves obs (f y)) -> preserves obs (when_set o f).
Proof. intros H. destruct o; [apply H | apply preserves_ret]. Qed.

Lemma preserves_forM {Y : Type} (l : list Y) (f : Y -> M unit) :
  (forall y, In y l -> preserves obs (f y)) -> preserves obs (forM l f).
Proof.
  induction l as [|y l IH]; intros H; simpl.
  - apply preserves_ret.
  - apply preserves_bind.
    + apply H. now left.
    + intros _. apply IH. intros y' Hy'. apply H. now right.
Qed.

(** Observations that do not look at the dimensions or the closed flag. *)
Hypothesis obs_dims : forall d a v c d' c',
  obs (mk_dataset d a v c) = obs (mk_dataset d' a v c').

Lemma preserves_createDimension name size :
  preserves obs (createDimension name size).
Proof.
  intros ds a ds' H. unfold createDimension in H.
  destruct (dict_has _ _); [discriminate|]. inversion H.
  destruct ds. apply obs_dims.
Qed.

Lemma preserves_close : preserves obs close.
Proof. intros ds a ds' H. inversion H. destruct ds. apply obs_dims. Qed.

Lemma preserves_create_ncvar ext dic name dims :
  (forall ds v, obs (with_var ds name v) = obs ds) ->
  preserves obs (_create_ncvar ext dic name dims).
Proof.
  intros Hv ds a ds' H. apply _create_ncvar_ok in H.
  destruct H as [arr [_ [_ ->]]]. apply Hv.
Qed.
End Preserves.

Lemma raises_bind_m {A B : Type} (m : M A) (f : A -> M B) ds e :
  m ds = Raise e -> bind m f ds = Raise e.
Proof. intros H. unfold bind. now rewrite H. Qed.

Lemma raises_bind_k {A B : Type} (m : M A) (f : A -> M B) ds :
  (forall a ds1, exists e, f a ds1 = Raise e) -> exists e, bind m f ds = Raise e.
Proof.
  intros H. unfold bind. destruct (m ds) as [[a ds1]|e]; [apply H | now exists e].
Qed.

(** ** C7 *)

Lemma r_calib_size_empty (rc : dict attr_array) :
  (forall k, In k (dict_keys rc) -> k = "r_calib_index" \/ k = "r_calib_time") ->
  r_calib_size rc = Raise IndexError.
Proof.
  intros H. unfold r_calib_size.
  replace (filter _ rc) with (@nil (string * attr_array)); [reflexivity|].
  symmetry. induction rc as [|[k d] rc IH]; [reflexivity|].
  cbn [filter fst].
  destruct (H k) as [-> | ->]; [now left | |]; cbn [str_in existsb negb];
    apply IH; intros k' Hk'; apply H; now right.
Qed.

(** C7: when the record's radar_calibration is set and holds only
    r_calib_index and r_calib_time entries (or none), the size of the
    r_calib dimension cannot be inferred: the list of line 498 is empty
    and taking its first element raises IndexError.  The calibration step
    raises on every dataset, and the writer ends in an exception: no file
    is finalized and nothing is written in its place. *)
Theorem calibration_without_size_fails ext env radar rc time_reference arm :
  Radar.radar_calibration radar = Some rc ->
  (forall k, In k (dict_keys rc) -> k = "r_calib_index" \/ k = "r_calib_time") ->
  r_calib_size rc = Raise IndexError /\
  (forall ds, write_radar_calibration ext radar ds = Raise IndexError) /\
  exists e, write_cfradial ext env radar time_reference arm = Raise e.
Proof.
  intros Hrc Hkeys.
  assert (Hsize := r_calib_size_empty rc Hkeys).
  assert (Hstep : forall ds, write_radar_calibration ext radar ds = Raise IndexError).
  { intros ds. unfold write_radar_calibration. rewrite Hrc. cbn [when_set].
    apply raises_bind_m. unfold lift. now rewrite Hsize. }
  split; [exact Hsize|]. split; [exact Hstep|].
  unfold write_cfradial.
  assert (H : exists e, write_body ext env radar time_reference arm new_dataset = Raise e).
  { unfold write_body.
    do 7 (apply raises_bind_k; intros ? ?).
    exists IndexError. apply raises_bind_m. apply Hstep. }
  destruct H as [e ->]. now exists e.
Qed.


Ltac preserves_steps side :=
  repeat first
    [ apply preserves_create_ncvar; side
    | apply preserves_createDimension; reflexivity
    | apply preserves_close; reflexivity
    | apply preserves_lift
    | apply preserves_ret
    | apply preserves_when
    | apply preserves_when_set; intros ?
    | apply preserves_forM; intros ? ?
    | apply preserves_bind; [|intros ?] ].

(** ** Global attributes *)

Lemma setncatts_run (d : dict value) : forall ds,
  setncatts d ds =
  Ok (tt, mk_dataset (ds_dimensions ds)
            (fold_left (fun a kv => dict_set a (fst kv) (snd kv)) d (ds_attrs ds))
            (ds_variables ds) (ds_closed ds)).
Proof.
  unfold setncatts. induction d as [|[k v] d IH]; intros ds.
  - destruct ds; reflexivity.
  - cbn [forM fold_left fst snd]. unfold bind at 1, setncattr at 1.
    rewrite IH. reflexivity.
Qed.

Lemma write_global_attributes_run env radar ds :
  write_global_attributes env radar ds =
  Ok (tt, mk_dataset (ds_dimensions ds) (global_attrs env radar (ds_attrs ds))
            (ds_variables ds) (ds_closed ds)).
Proof.
  unfold write_global_attributes, global_attrs.
  rewrite (bind_step _ (setncatts_run _ ds)).
  unfold bind at 1, ncattrs at 1. cbn [ds_attrs].
  set (a1 := fold_left _ _ _).
  destruct (str_in "Conventions" (dict_keys a1)); cbn [negb when];
    unfold bind at 1; [unfold ret at 1 | unfold setncattr at 1];
    unfold bind at 1, ncattrs at 1; cbn [ds_attrs];
    match goal with
    | |- context [str_in "field_names" (dict_keys ?a2)] =>
        destruct (str_in "field_names" (dict_keys a2))
    end; cbn [negb when]; unfold bind at 1;
    [unfold ret at 1 | unfold setncattr at 1 | unfold ret at 1 | unfold setncattr at 1];
    reflexivity.
Qed.

Lemma dict_keys_set_in {V : Type} (d : dict V) (k k' : string) (v : V) :
  In k' (dict_keys (dict_set d k v)) -> k' = k \/ In k' (dict_keys d).
Proof.
  induction d as [|[k0 v0] d IH]; simpl.
  - intros [<-|[]]. now left.
  - destruct (String.eqb_spec k k0) as [->|Hne]; simpl.
    + tauto.
    + intros [<-|H]; [right; now left|]. destruct (IH H); tauto.
Qed.

Lemma dict_keys_del {V : Type} (d : dict V) (k : string) :
  ~ In k (dict_keys (dict_del d k)).
Proof.
  induction d as [|[k0 v0] d IH]; simpl; [tauto|].
  destruct (String.eqb_spec k k0) as [->|Hne]; simpl; [exact IH|].
  intros [E|H]; [congruence | contradiction].
Qed.

Lemma dict_keys_set_all {V : Type} (d : dict V) : forall (a : dict V) (k : string),
  In k (dict_keys (fold_left (fun a kv => dict_set a (fst kv) (snd kv)) d a)) ->
  In k (dict_keys a) \/ In k (dict_keys d).
Proof.
  induction d as [|[k0 v0] d IH]; intros a k; simpl; [tauto|].
  intros H. apply IH in H. destruct H as [H|H]; [|tauto].
  apply dict_keys_set_in in H. destruct H as [->|H]; tauto.
Qed.

(** On a new file the history attribute comes last. *)
Lemma global_attrs_history_last env radar :
  exists front,
    global_attrs env radar [] = front ++ [("history", history_of env radar)].
Proof.
  unfold global_attrs.
  set (a1 := fold_left _ _ _).
  assert (H1 : ~ In "history" (dict_keys a1)).
  { intros H. apply dict_keys_set_all in H. destruct H as [[]|H].
    now apply dict_keys_del in H. }
  set (a2 := if str_in "Conventions" (dict_keys a1) then _ else _).
  assert (H2 : ~ In "history" (dict_keys a2)).
  { unfold a2. destruct (str_in "Conventions" _); [exact H1|].
    intros H. apply dict_keys_set_in in H. destruct H; [discriminate | contradiction]. }
  set (a3 := if str_in "field_names" (dict_keys a2) then _ else _).
  assert (H3 : ~ In "history" (dict_keys a3)).
  { unfold a3. destruct (str_in "field_names" _); [exact H2|].
    intros H. apply dict_keys_set_in in H. destruct H; [discriminate | contradiction]. }
  exists a3. now apply dict_set_new.
Qed.

Lemma metadata_copy_history radar :
  dict_get (metadata_copy radar) "history" =
  dict_get (Radar.metadata radar) "history".
Proof.
  unfold metadata_copy, global_variables. cbn [fold_left].
  repeat (rewrite dict_get_del_other; [|discriminate]). reflexivity.
Qed.

Lemma preserved {X A : Type} (obs : Dataset -> X) (m : M A) ds a ds' :
  m ds = Ok (a, ds') -> preserves obs m -> obs ds' = obs ds.
Proof. intros H P. exact (P _ _ _ H). Qed.

Ltac unfold_writer :=
  unfold create_dimensions, write_arm_time_variables, write_standard_variables,
    write_fields, write_sweep_parameters, write_instrument_parameters,
    write_radar_calibration, write_location, write_time_coverage,
    write_time_reference, write_global_variables, write_georeference,
    create_ncvar.

Lemma write_body_attrs ext env radar time_reference arm ds0 u ds :
  write_body ext env radar time_reference arm ds0 = Ok (u, ds) ->
  ds_attrs ds = global_attrs env radar (ds_attrs ds0).
Proof.
  unfold write_body. intros H.
  apply bind_ok in H. destruct H as [[] [ds1 [H1 H]]].
  apply bind_ok in H. destruct H as [[] [ds2 [H2 H]]].
  rewrite write_global_attributes_run in H2. inversion H2 as [E2]. clear H2.
  assert (E1 : ds_attrs ds1 = ds_attrs ds0).
  { eapply preserved; [exact H1|]. unfold_writer.
    preserves_steps ltac:(reflexivity). }
  assert (E : ds_attrs ds = ds_attrs ds2).
  { eapply preserved; [exact H|]. unfold_writer.
    preserves_steps ltac:(reflexivity). }
  rewrite E, <- E2. cbn [ds_attrs]. now rewrite E1.
Qed.

(** C9, as amended: in the file of a successful write the history
    attribute is the last global attribute; for a record whose metadata
    has no history entry it is the string "created by <user> on <host>
    at <iso-timestamp> using Py-ART" of the caller's identity and clock,
    and where the metadata has a history entry it is that value. *)
Theorem history_attribute ext env radar time_reference arm ds :
  write_cfradial ext env radar time_reference arm = Ok ds ->
  (exists front, ds_attrs ds = front ++ [("history", history_of env radar)]) /\
  dict_get (ds_attrs ds) "history" = Some (history_of env radar) /\
  (dict_get (Radar.metadata radar) "history" = None ->
   history_of env radar =
     VStr ("created by " ++ getuser env ++ " on " ++ node env ++ " at "
             ++ now_isoformat env ++ " using Py-ART")) /\
  (forall h, dict_get (Radar.metadata radar) "history" = Some h ->
             history_of env radar = h).
Proof.
  unfold write_cfradial. intros H.
  destruct (write_body _ _ _ _ _ _) as [[u ds']|e] eqn:Hb; [|discriminate].
  inversion H. subst ds'. clear H.
  apply write_body_attrs in Hb. cbn [new_dataset ds_attrs] in Hb.
  split; [rewrite Hb; apply global_attrs_history_last|].
  split.
  { rewrite Hb. unfold global_attrs. apply dict_get_set_same. }
  unfold history_of. rewrite metadata_copy_history.
  split.
  - intros ->. reflexivity.
  - intros h ->. reflexivity.
Qed.


(** ** Suffixes of strings *)

Lemma substring_all (s : string) : substring 0 (String.length s) s = s.
Proof. induction s as [|c s IH]; simpl; [reflexivity | now rewrite IH]. Qed.

Lemma substring_suffix (k : nat) : forall s,
  (k <= String.length s)%nat ->
  exists front,
    s = (front ++ substring k (String.length s - k) s)%string /\
    String.length front = k.
Proof.
  induction k as [|k IH]; intros s Hk.
  - exists EmptyString. rewrite Nat.sub_0_r, substring_all. now split.
  - destruct s as [|c s]; simpl in Hk; [lia|].
    destruct (IH s ltac:(lia)) as [front [E L]].
    exists (String c front). cbn [String.length Nat.sub substring append].
    split; [now rewrite <- E | now rewrite L].
Qed.

Lemma string_length_app (a b : string) :
  String.length (a ++ b) = (String.length a + String.length b)%nat.
Proof. induction a as [|c a IH]; simpl; [reflexivity | now rewrite IH]. Qed.

(** [units[-20:]] is the end of [units], 20 characters when there are
    that many, and what comes before it is cut off. *)
Lemma last_20_characters (units : string) :
  exists front,
    units = (front ++ Py.str_slice_from units (-20))%string /\
    String.length (Py.str_slice_from units (-20)) =
      Nat.min 20 (String.length units).
Proof.
  unfold Py.str_slice_from, Py.bound. cbn [Z.ltb Z.compare].
  set (n := String.length units).
  set (k := Z.to_nat (Z.max (-20 + Z.of_nat n) 0)).
  assert (Hk : (k <= n)%nat) by (unfold k; lia).
  replace (Z.to_nat (Z.of_nat n - Z.max (-20 + Z.of_nat n) 0)) with (n - k)%nat
    by (unfold k; lia).
  destruct (substring_suffix k units Hk) as [front [E L]].
  exists front. split; [exact E|].
  pose proof (f_equal String.length E) as Hlen.
  rewrite string_length_app, L in Hlen. fold n in Hlen. lia.
Qed.

(** ** The time reference *)

Lemma time_reference_wanted_emitted radar time_reference :
  time_reference_wanted radar time_reference = Ok true <->
  time_reference_emitted radar time_reference.
Proof.
  unfold time_reference_wanted, time_reference_emitted, getitem.
  destruct time_reference as [[|]|].
  - split; [now left | reflexivity].
  - split; [discriminate | intros [H|[H _]]; discriminate].
  - destruct (dict_get (Radar.time radar) "data") as [data|] eqn:Ed;
      cbn [of_option rbind].
    + destruct (value_item data 0) as [t0|e] eqn:Et; cbn [rbind].
      * split.
        -- intros H. right. split; [reflexivity|]. exists data, t0.
           split; [reflexivity|]. split; [exact Et|].
           destruct (item_is_zero t0); [discriminate H | reflexivity].
        -- intros [H|[_ [d [t [Hd [Ht Hz]]]]]]; [discriminate|].
           inversion Hd. subst d. rewrite Et in Ht. inversion Ht. subst t.
           now rewrite Hz.
      * split; [discriminate|].
        intros [H|[_ [d [t [Hd [Ht Hz]]]]]]; [discriminate|].
        inversion Hd. subst d. rewrite Et in Ht. discriminate.
    + split; [discriminate|].
      intros [H|[_ [d [t [Hd _]]]]]; discriminate.
Qed.

(** The array [_create_ncvar] writes for the 0-d string array of [s]:
    the one character of a string that has no more, as it is, and what
    the bridge makes of a longer string. *)
Lemma string_scalar_to_write ext (s : string) (rest : attr_array) a :
  let n := Nat.max 1 (String.length s) in
  array_to_write ext
    (("data", VArr (mk_ndarray (DStr Bytes n) [] [IStr s])) :: rest) = Ok a ->
  ((String.length s <= 1)%nat ->
   at_least_1d a = mk_ndarray (DStr Bytes 1) [1%nat] [IStr s]) /\
  ((1 < String.length s)%nat ->
   stringarray_to_chararray ext (mk_ndarray (DStr Bytes n) [] [IStr s])
     = Ok (mk_ndarray (DStr Bytes 1) [n] (chars_of n s)) ->
   at_least_1d a = mk_ndarray (DStr Bytes 1) [n] (chars_of n s)).
Proof.
  intros n Ha. unfold array_to_write, getitem in Ha.
  cbn [dict_get String.eqb Ascii.eqb Bool.eqb of_option rbind np_array
       nd_dtype is_str_not_1] in Ha.
  split.
  - intros Hs. assert (E : n = 1%nat) by (unfold n; lia).
    rewrite E in Ha. cbn [Nat.eqb negb rbind nd_dtype is_str_not_1] in Ha.
    inversion Ha. reflexivity.
  - intros Hs Hbr. destruct (Nat.eqb_spec n 1) as [E|E];
      [unfold n in E; lia|].
    cbn [negb rbind] in Ha. rewrite Hbr in Ha.
    cbn [nd_dtype rbind is_str_not_1] in Ha. inversion Ha. reflexivity.
Qed.

(** C10: whenever the writer emits the time_reference variable (forced by
    the caller, or because the first time value is nonzero), the data it
    hands to [_create_ncvar] is the 0-d string array of [units[-20:]],
    the record's time units with their front cut off, 20 characters long
    when the units have that many, and the variable holds the array
    [_create_ncvar] makes of it: the one character of a [units[-20:]]
    that has no more than one, and for a longer one, with a bridge that
    returns the array of its characters, these characters, one per cell,
    and nothing else. *)
Theorem time_reference_is_units_suffix ext env radar time_reference arm ds :
  write_cfradial ext env radar time_reference arm = Ok ds ->
  time_reference_emitted radar time_reference ->
  exists units front suffix v,
    dict_get (Radar.time radar) "units" = Some (VStr units) /\
    suffix = Py.str_slice_from units (-20) /\
    units = (front ++ suffix)%string /\
    String.length suffix = Nat.min 20 (String.length units) /\
    dict_get (ds_variables ds) "time_reference" = Some v /\
    (exists a,
       array_to_write ext
         [ ("data", VArr (mk_ndarray
                            (DStr Bytes (Nat.max 1 (String.length suffix)))
                            [] [IStr suffix]));
           ("long_name", VStr "UTC time reference");
           ("units", VStr "unitless") ] = Ok a /\
       var_data v = at_least_1d a) /\
    ((String.length suffix <= 1)%nat ->
     var_data v = mk_ndarray (DStr Bytes 1) [1%nat] [IStr suffix]) /\
    ((1 < String.length suffix)%nat ->
     stringarray_to_chararray ext
       (mk_ndarray (DStr Bytes (Nat.max 1 (String.length suffix)))
          [] [IStr suffix])
     = Ok (mk_ndarray (DStr Bytes 1) [Nat.max 1 (String.length suffix)]
             (chars_of (Nat.max 1 (String.length suffix)) suffix)) ->
     var_data v =
     mk_ndarray (DStr Bytes 1) [Nat.max 1 (String.length suffix)]
       (chars_of (Nat.max 1 (String.length suffix)) suffix)).
Proof.
  intros H Hw. apply time_reference_wanted_emitted in Hw. revert H Hw.
  unfold write_cfradial. intros H Hw.
  destruct (write_body _ _ _ _ _ _) as [[u ds']|e] eqn:Hb; [|discriminate].
  inversion H. subst ds'. clear H. unfold write_body in Hb.
  do 10 (apply bind_ok in Hb; destruct Hb as [[] [? [_ Hb]]]).
  apply bind_ok in Hb. destruct Hb as [[] [ds1 [Ht Hb]]].
  unfold write_time_reference in Ht.
  apply bind_ok in Ht. destruct Ht as [w [ds0 [Hw' Ht]]].
  apply lift_ok in Hw'. destruct Hw' as [Hw' ->].
  rewrite Hw in Hw'. inversion Hw'. subst w. clear Hw'. cbn [when] in Ht.
  apply bind_ok in Ht. destruct Ht as [uv [ds0 [Hu Ht]]].
  apply lift_ok in Hu. destruct Hu as [Hu ->].
  apply bind_ok in Ht. destruct Ht as [units [ds0 [Hs Ht]]].
  apply lift_ok in Hs. destruct Hs as [Hs ->].
  destruct uv; try discriminate. inversion Hs. subst s. clear Hs.
  unfold getitem in Hu.
  destruct (dict_get (Radar.time radar) "units") as [uv|] eqn:Eu; [|discriminate].
  inversion Hu. subst uv. clear Hu.
  apply _create_ncvar_ok in Ht. destruct Ht as [a [Ha [_ Hds1]]].
  destruct (last_20_characters units) as [front [E L]].
  exists units, front, (Py.str_slice_from units (-20)). eexists.
  split; [reflexivity|]. split; [reflexivity|].
  split; [exact E|]. split; [exact L|].
  assert (Hkeep : dict_get (ds_variables ds) "time_reference"
                  = dict_get (ds_variables ds1) "time_reference").
  { eapply (preserved (fun d => dict_get (ds_variables d) "time_reference"));
      [exact Hb|].
    unfold_writer.
    preserves_steps ltac:(intros; unfold with_var; cbn [ds_variables];
                          apply dict_get_set_other; discriminate). }
  rewrite Hkeep, Hds1. unfold with_var. cbn [ds_variables].
  split; [apply dict_get_set_same|]. cbn [var_data].
  split; [exists a; split; [exact Ha | reflexivity]|].
  exact (string_scalar_to_write ext _ _ a Ha).
Qed.


(** ** Attribute order *)

Lemma set_remaining (dic : attr_array) : forall acc,
  NoDup (dict_keys dic) ->
  (forall k, In k (dict_keys acc) ->
             str_in k written_first = true \/ ~ In k (dict_keys dic)) ->
  fold_left
    (fun a kv => if str_in (fst kv) written_first then a
                 else dict_set a (fst kv) (snd kv))
    dic acc
  = acc ++ remaining_attrs dic.
Proof.
  induction dic as [|[k x] dic IH]; intros acc Hnd Hacc.
  - unfold remaining_attrs. simpl. now rewrite app_nil_r.
  - cbn [dict_keys map fst] in Hnd. inversion Hnd as [|? ? Hk Hnd']. subst.
    unfold remaining_attrs. cbn [fold_left filter fst snd].
    destruct (str_in k written_first) eqn:E; cbn [negb].
    + apply IH; [exact Hnd'|].
      intros k' Hk'. destruct (Hacc k' Hk') as [H|H]; [now left|].
      right. intros Hin. apply H. simpl. now right.
    + assert (Hnew : ~ In k (dict_keys acc)).
      { intros Hin. destruct (Hacc k Hin) as [H|H]; [congruence|].
        apply H. simpl. now left. }
      rewrite (dict_set_new _ _ _ Hnew).
      fold (remaining_attrs dic).
      rewrite IH; [now rewrite <- app_assoc | exact Hnd' |].
      intros k' Hk'. unfold dict_keys in Hk'. rewrite map_app in Hk'.
      apply in_app_or in Hk'. destruct Hk' as [Hk'|[<-|[]]].
      * destruct (Hacc k' Hk') as [H|H]; [now left|].
        right. intros Hin. apply H. simpl. now right.
      * now right.
Qed.

(** C8, as amended: for an attributed array with long_name, units and
    _FillValue, when the file layer assigned exactly the attribute
    _FillValue to the new variable, the variable [_create_ncvar] leaves
    has long_name, units and _FillValue (with the value the file layer
    holds) as its first three attributes, in that order, followed by the
    array's remaining attributes in the array's own order.  The result
    is a function of the array and the dataset, so every write of the
    same record gives the same order. *)
Theorem attribute_order ext dic name dims ds ds' long_name units fv fv0 :
  NoDup (dict_keys dic) ->
  dict_get dic "long_name" = Some long_name ->
  dict_get dic "units" = Some units ->
  dict_get dic "_FillValue" = Some fv ->
  created_attrs ext (dict_get_or_none dic "least_significant_digit") fv
    = [("_FillValue", fv0)] ->
  _create_ncvar ext dic name dims ds = Ok (tt, ds') ->
  exists v,
    dict_get (ds_variables ds') name = Some v /\
    var_attrs v =
      ("long_name", long_name) :: ("units", units) :: ("_FillValue", fv0)
        :: remaining_attrs dic.
Proof.
  intros Hnd Hl Hu Hf Hc H.
  apply _create_ncvar_ok in H. destruct H as [a [_ [_ ->]]].
  eexists. split; [unfold with_var; cbn [ds_variables]; apply dict_get_set_same|].
  cbn [var_attrs]. unfold dict_get_or_none at 2. rewrite Hf, Hc.
  unfold ncvar_attrs. rewrite Hl, Hu. cbn.
  change (["data"; "_FillValue"; "long_name"; "units"]) with written_first.
  rewrite set_remaining; [reflexivity | exact Hnd |].
  intros k Hk. left. simpl in Hk.
  destruct Hk as [<-|[<-|[<-|[]]]]; reflexivity.
Qed.


Ltac rbind_inv H :=
  repeat match type of H with
         | rbind ?m _ = Ok _ =>
             let E := fresh "E" in
             destruct m eqn:E; cbn [rbind] in H; [|discriminate H]
         end.

Lemma read_cfradial_parameters gfn ex ncobj r :
  read_cfradial gfn ex ncobj = Ok r ->
  Radar.instrument_parameters r = read_instrument_parameters (ds_variables ncobj) /\
  Radar.radar_calibration r = Some (read_radar_calibration (ds_variables ncobj)) /\
  (if dict_has (ds_variables ncobj) "ray_start_index"
   then read_fields_stream gfn ex (ds_variables ncobj)
   else read_fields_cfradial gfn ex (ds_variables ncobj)) = Ok (Radar.fields r).
Proof.
  unfold read_cfradial. intros H. rbind_inv H.
  inversion H. cbn. auto.
Qed.


Lemma rbind_ok {A B : Type} (m : result A) (f : A -> result B) b :
  rbind m f = Ok b <-> exists a, m = Ok a /\ f a = Ok b.
Proof.
  destruct m as [a|e]; simpl.
  - split; [intros H; now exists a | intros [a' [E H]]; congruence].
  - split; [discriminate | intros [a' [E H]]; discriminate].
Qed.

(** ** Field names *)

Lemma add_field_names gfn ex convert ncvars fields key fields' :
  add_field gfn ex convert ncvars fields key = Ok fields' ->
  forall name, In name (dict_keys fields') ->
    In name (dict_keys fields) \/ names_field gfn ex key name.
Proof.
  unfold add_field, names_field. intros H name Hin.
  destruct (gfn key) as [field_name|] eqn:G.
  - rbind_inv H. inversion H. subst fields'.
    apply dict_keys_set_in in Hin. destruct Hin as [->|Hin]; auto.
  - destruct (excluded ex key) eqn:X.
    + inversion H. subst. auto.
    + rbind_inv H. inversion H. subst fields'.
      apply dict_keys_set_in in Hin. destruct Hin as [->|Hin]; auto.
Qed.

Lemma for_each_add_field_names gfn ex convert ncvars keys : forall fields fields',
  for_each (add_field gfn ex convert ncvars) keys fields = Ok fields' ->
  forall name, In name (dict_keys fields') ->
    In name (dict_keys fields) \/
    exists key, In key keys /\ names_field gfn ex key name.
Proof.
  induction keys as [|key keys IH]; intros fields fields' H name Hin.
  - inversion H. subst. now left.
  - cbn [for_each] in H. apply rbind_ok in H. destruct H as [f1 [H1 H]].
    destruct (IH _ _ H name Hin) as [Hf1|[k [Hk Hn]]].
    + destruct (add_field_names _ _ _ _ _ _ _ H1 name Hf1) as [Hf|Hn].
      * now left.
      * right. exists key. split; [now left | exact Hn].
    + right. exists k. split; [now right | exact Hn].
Qed.

Lemma dict_keys_set_keeps {V : Type} (d : dict V) (k k' : string) (v : V) :
  In k' (dict_keys d) -> In k' (dict_keys (dict_set d k v)).
Proof.
  induction d as [|[k0 v0] d IH]; simpl; [tauto|].
  destruct (String.eqb_spec k k0) as [->|Hne]; simpl; tauto.
Qed.

Lemma dict_keys_set_has {V : Type} (d : dict V) (k : string) (v : V) :
  In k (dict_keys (dict_set d k v)).
Proof.
  apply dict_has_keys. unfold dict_has. now rewrite dict_get_set_same.
Qed.

Lemma add_field_keeps gfn ex convert ncvars fields key fields' :
  add_field gfn ex convert ncvars fields key = Ok fields' ->
  forall name, In name (dict_keys fields) -> In name (dict_keys fields').
Proof.
  unfold add_field. intros H name Hin.
  destruct (gfn key); [|destruct (excluded ex key)];
    rbind_inv H; inversion H; subst; auto using dict_keys_set_keeps.
Qed.

Lemma for_each_add_field_keeps gfn ex convert ncvars keys : forall fields fields',
  for_each (add_field gfn ex convert ncvars) keys fields = Ok fields' ->
  forall name, In name (dict_keys fields) -> In name (dict_keys fields').
Proof.
  induction keys as [|key keys IH]; intros fields fields' H name Hin.
  - inversion H. now subst.
  - cbn [for_each] in H. apply rbind_ok in H. destruct H as [f1 [H1 H]].
    eapply IH; [exact H|]. eapply add_field_keeps; eauto.
Qed.

Lemma for_each_add_field_translated gfn ex convert ncvars keys :
  forall fields fields' key name,
  for_each (add_field gfn ex convert ncvars) keys fields = Ok fields' ->
  In key keys -> gfn key = Some name -> In name (dict_keys fields').
Proof.
  induction keys as [|k keys IH]; intros fields fields' key name H Hin G.
  - destruct Hin.
  - cbn [for_each] in H. apply rbind_ok in H. destruct H as [f1 [H1 H]].
    destruct Hin as [->|Hin].
    + eapply for_each_add_field_keeps; [exact H|].
      unfold add_field in H1. rewrite G in H1. rbind_inv H1.
      inversion H1. apply dict_keys_set_has.
    + eapply IH; eauto.
Qed.

Lemma filter_keys_in {V : Type} (p : string * V -> bool) (d : dict V) (k : string) :
  In k (map fst (filter p d)) -> In k (dict_keys d).
Proof.
  unfold dict_keys. rewrite !in_map_iff.
  intros [kv [E H]]. apply filter_In in H. exists kv. tauto.
Qed.

Lemma read_fields_names gfn ex ncvars fields :
  (if dict_has ncvars "ray_start_index"
   then read_fields_stream gfn ex ncvars
   else read_fields_cfradial gfn ex ncvars) = Ok fields ->
  forall name, In name (dict_keys fields) ->
    exists key, In key (dict_keys ncvars) /\ names_field gfn ex key name.
Proof.
  intros H name Hin.
  destruct (dict_has ncvars "ray_start_index").
  - unfold read_fields_stream in H. rbind_inv H.
    destruct (for_each_add_field_names _ _ _ _ _ _ _ H name Hin)
      as [[]|[key [Hk Hn]]].
    exists key. split; [|exact Hn]. eapply filter_keys_in; exact Hk.
  - unfold read_fields_cfradial in H.
    destruct (for_each_add_field_names _ _ _ _ _ _ _ H name Hin)
      as [[]|[key [Hk Hn]]].
    exists key. split; [|exact Hn]. eapply filter_keys_in; exact Hk.
Qed.

Lemma add_field_values gfn ex convert ncvars fields key fields' :
  add_field gfn ex convert ncvars fields key = Ok fields' ->
  forall name d, dict_get fields' name = Some d ->
    dict_get fields name = Some d \/
    (names_field gfn ex key name /\
     exists v, dict_get ncvars key = Some v /\ convert v = Ok d).
Proof.
  unfold add_field, names_field, getitem. intros H name d Hd.
  destruct (gfn key) as [field_name|] eqn:G.
  - destruct (dict_get ncvars key) as [v|]; cbn in H; [|discriminate].
    destruct (convert v) as [d'|] eqn:Ec; cbn in H; [|discriminate].
    inversion H. subst fields'.
    destruct (String.eqb_spec field_name name) as [->|Hne].
    + rewrite dict_get_set_same in Hd. inversion Hd. subst d'.
      right. split; [now left|]. now exists v.
    + rewrite dict_get_set_other in Hd by exact Hne. now left.
  - destruct (excluded ex key) eqn:X.
    + inversion H. subst. now left.
    + destruct (dict_get ncvars key) as [v|]; cbn in H; [|discriminate].
      destruct (convert v) as [d'|] eqn:Ec; cbn in H; [|discriminate].
      inversion H. subst fields'.
      destruct (String.eqb_spec key name) as [->|Hne].
      * rewrite dict_get_set_same in Hd. inversion Hd. subst d'.
        right. split; [right; auto|]. now exists v.
      * rewrite dict_get_set_other in Hd by exact Hne. now left.
Qed.

Lemma for_each_add_field_values gfn ex convert ncvars keys :
  forall fields fields',
  for_each (add_field gfn ex convert ncvars) keys fields = Ok fields' ->
  forall name d, dict_get fields' name = Some d ->
    dict_get fields name = Some d \/
    exists key v,
      In key keys /\ names_field gfn ex key name /\
      dict_get ncvars key = Some v /\ convert v = Ok d.
Proof.
  induction keys as [|key keys IH]; intros fields fields' H name d Hd.
  - inversion H. subst. now left.
  - cbn [for_each] in H. apply rbind_ok in H. destruct H as [f1 [H1 H]].
    destruct (IH _ _ H name d Hd) as [Hf1|[k [v [Hk Hr]]]].
    + destruct (add_field_values _ _ _ _ _ _ _ H1 name d Hf1)
        as [Hf|[Hn [v [Hv Hc]]]].
      * now left.
      * right. exists key, v. split; [now left | auto].
    + right. exists k, v. split; [now right | exact Hr].
Qed.

Lemma in_filter_keys {V : Type} (p : string * V -> bool) (d : dict V) k v :
  In (k, v) d -> p (k, v) = true -> In k (map fst (filter p d)).
Proof.
  intros Hin Hp. apply in_map_iff. exists (k, v).
  split; [reflexivity|]. apply filter_In. now split.
Qed.

Lemma read_fields_loop gfn ex ncvars fields :
  (if dict_has ncvars "ray_start_index"
   then read_fields_stream gfn ex ncvars
   else read_fields_cfradial gfn ex ncvars) = Ok fields ->
  exists keys convert,
    for_each (add_field gfn ex convert ncvars) keys [] = Ok fields /\
    (forall k v, In (k, v) ncvars -> is_field ncvars v = Ok true ->
                 In k keys) /\
    (forall v d, convert v = Ok d -> field_of ncvars v = Ok d).
Proof.
  intros H. unfold is_field, field_of, stream_ngates.
  destruct (dict_has ncvars "ray_start_index").
  - unfold read_fields_stream in H. rbind_inv H.
    do 2 eexists. split; [exact H|]. cbn [rbind]. split.
    + intros k v Hin.
      repeat match goal with
             | E : ?m = Ok _ |- _ => rewrite E; cbn [rbind]
             end.
      intros Hf. injection Hf as Hp.
      apply (in_filter_keys _ _ k v Hin). cbn [snd]. exact Hp.
    + intros v d Hc. exact Hc.
  - unfold read_fields_cfradial in H.
    do 2 eexists. split; [exact H|]. split.
    + intros k v Hin Hf. inversion Hf as [Hp].
      unfold cfradial_field_keys.
      apply (in_filter_keys _ _ k v Hin). cbn [snd]. now rewrite Hp.
    + intros v d Hc. exact Hc.
Qed.

Lemma dict_get_in {V : Type} (d : dict V) k v :
  dict_get d k = Some v -> In (k, v) d.
Proof.
  induction d as [|[k0 v0] d IH]; cbn [dict_get]; [discriminate|].
  destruct (String.eqb_spec k k0) as [->|Hne].
  - intros H. inversion H. now left.
  - intros H. right. now apply IH.
Qed.

(** C6, as amended: for a variable named in the exclusion set, if the
    field-name policy gives it no output name, and translates no variable
    of the file to its name, the field mapping has no entry of that name.
    If the policy translates it to a name, the exclusion set does not
    keep the field out, in either layout of the file: the mapping has an
    entry under that name, which holds the dictionary the reader makes of
    a variable the policy gives that name, and of the excluded variable
    itself when no other variable of the file gets that name. *)
Theorem excluded_field_policy gfn ex ncobj r key :
  read_cfradial gfn ex ncobj = Ok r ->
  excluded ex key = true ->
  (gfn key = None ->
   (forall k, In k (dict_keys (ds_variables ncobj)) -> gfn k <> Some key) ->
   dict_get (Radar.fields r) key = None) /\
  (forall v name,
     dict_get (ds_variables ncobj) key = Some v ->
     is_field (ds_variables ncobj) v = Ok true ->
     gfn key = Some name ->
     exists k v' d,
       names_field gfn ex k name /\
       dict_get (ds_variables ncobj) k = Some v' /\
       field_of (ds_variables ncobj) v' = Ok d /\
       dict_get (Radar.fields r) name = Some d /\
       ((forall k', In k' (dict_keys (ds_variables ncobj)) -> k' <> key ->
                    ~ names_field gfn ex k' name) ->
        k = key /\ v' = v)).
Proof.
  intros H Hex.
  apply read_cfradial_parameters in H. destruct H as [_ [_ Hf]].
  split.
  - intros Hnone Hother.
    apply dict_get_none_keys. intros Hin.
    destruct (read_fields_names _ _ _ _ Hf key Hin) as [k [Hk [Hn|[_ [Hx E]]]]].
    + exact (Hother k Hk Hn).
    + subst k. congruence.
  - intros v name Hv Hfield G.
    destruct (read_fields_loop _ _ _ _ Hf) as [keys [convert [Hloop [Hkeys Hconv]]]].
    assert (Hkey : In key keys).
    { apply (Hkeys key v); [now apply dict_get_in | exact Hfield]. }
    pose proof (for_each_add_field_translated _ _ _ _ _ _ _ _ _ Hloop Hkey G)
      as Hin.
    apply dict_has_keys in Hin. unfold dict_has in Hin.
    destruct (dict_get (Radar.fields r) name) as [d|] eqn:Ed; [|discriminate].
    destruct (for_each_add_field_values _ _ _ _ _ _ _ Hloop name d Ed)
      as [Hnil|[k [v' [Hk [Hn [Hv' Hc]]]]]]; [discriminate Hnil|].
    exists k, v', d. split; [exact Hn|]. split; [exact Hv'|].
    split; [now apply Hconv|]. split; [reflexivity|].
    intros Huniq.
    destruct (string_dec k key) as [->|Hne].
    + split; [reflexivity | congruence].
    + exfalso. apply (Huniq k); [|exact Hne|exact Hn].
      apply dict_has_keys. unfold dict_has. now rewrite Hv'.
Qed.

(** ** The statements at sample inputs *)

(** A calibration table with a row-sized entry is written. *)
Example calibration_with_size_writes :
  is_ok (write_cfradial sample_externals sample_environment
           (with_radar_calibration sample_radar
              (Some (index_only_calibration ++
                     [ ("r_calib_pulse_width",
                        [("data", float_array [1%nat] [1]%float)]) ])))
           None false) = true.
Proof. vm_compute. reflexivity. Qed.

Lemma calibration_without_size_fails_witness :
  exists e,
    write_cfradial sample_externals sample_environment
      (with_radar_calibration sample_radar (Some index_only_calibration))
      None false = Raise e.
Proof.
  refine (proj2 (proj2 (calibration_without_size_fails sample_externals
            sample_environment _ index_only_calibration None false _ _))).
  - reflexivity.
  - intros k [<-|[]]. now left.
Defined.

Lemma attribute_order_witness :
  exists v,
    dict_get (ds_variables (create_sample sample_field)) "DBZ" = Some v /\
    var_attrs v =
      [ ("long_name", VStr "reflectivity"); ("units", VStr "dBZ");
        ("_FillValue", VFloat (-9999)%float);
        ("standard_name", VStr "equivalent_reflectivity_factor") ].
Proof.
  apply (attribute_order sample_externals sample_field "DBZ" ["time"; "range"]
           sample_dims (create_sample sample_field)
           (VStr "reflectivity") (VStr "dBZ")
           (VFloat (-9999)%float) (VFloat (-9999)%float)).
  - repeat constructor; simpl; intuition discriminate.
  - reflexivity.
  - reflexivity.
  - reflexivity.
  - reflexivity.
  - vm_compute. reflexivity.
Defined.

(** C8 fails as stated: a fill value of None is not assigned by the
    file layer, so [_FillValue] is never written; and a
    least_significant_digit the file layer assigns at creation stays
    ahead of [long_name]. *)
Lemma attribute_order_counterexample :
  (dict_has sample_field_unfilled "long_name" = true /\
   dict_has sample_field_unfilled "units" = true /\
   dict_has sample_field_unfilled "_FillValue" = true /\
   attr_names (create_sample sample_field_unfilled) "DBZ" =
     Some ["long_name"; "units"; "standard_name"]) /\
  (dict_has sample_field_lsd "long_name" = true /\
   dict_has sample_field_lsd "units" = true /\
   dict_has sample_field_lsd "_FillValue" = true /\
   attr_names (create_sample sample_field_lsd) "DBZ" =
     Some ["least_significant_digit"; "long_name"; "units"; "_FillValue";
           "standard_name"]).
Proof. repeat split; vm_compute; reflexivity. Qed.

Lemma history_attribute_witness :
  dict_get (ds_attrs sample_file) "history" =
    Some (VStr "created by alice on radar-host at 2014-06-01T12:00:00 using Py-ART").
Proof.
  destruct (history_attribute sample_externals sample_environment sample_radar
              None false sample_file) as [_ [H _]].
  - vm_compute. reflexivity.
  - exact H.
Defined.

(** C9 fails as stated: the synthesized history ends in " using Py-ART". *)
Lemma history_attribute_counterexample :
  dict_get (Radar.metadata sample_radar) "history" = None /\
  write_cfradial sample_externals sample_environment sample_radar None false
    = Ok sample_file /\
  dict_get (ds_attrs sample_file) "history" <>
    Some (VStr ("created by " ++ getuser sample_environment ++ " on "
                  ++ node sample_environment ++ " at "
                  ++ now_isoformat sample_environment)).
Proof.
  split; [reflexivity|]. split; [vm_compute; reflexivity|].
  vm_compute. discriminate.
Qed.

(** On the sample volume the forced time reference holds the last 20
    characters of "seconds since 1970-01-01T00:00:00Z". *)
Example time_reference_of_sample :
  option_map var_data
    (dict_get (ds_variables sample_file_with_reference) "time_reference")
  = Some (mk_ndarray (DStr Bytes 1) [20%nat]
            (chars_of 20 "1970-01-01T00:00:00Z")).
Proof. vm_compute. reflexivity. Qed.

Lemma time_reference_is_units_suffix_witness :
  exists v,
    dict_get (ds_variables sample_file_with_reference) "time_reference"
      = Some v /\
    var_data v = mk_ndarray (DStr Bytes 1) [20%nat]
                   (chars_of 20 "1970-01-01T00:00:00Z").
Proof.
  destruct (time_reference_is_units_suffix sample_externals sample_environment
              sample_radar (Some true) false sample_file_with_reference)
    as [units [front [suffix [v [Hu [Hs [_ [_ [Hv [_ [_ Hlong]]]]]]]]]]].
  - vm_compute. reflexivity.
  - left. reflexivity.
  - assert (Eu : units = "seconds since 1970-01-01T00:00:00Z").
    { assert (E : dict_get (Radar.time sample_radar) "units"
                  = Some (VStr "seconds since 1970-01-01T00:00:00Z"))
        by reflexivity.
      rewrite E in Hu. now inversion Hu. }
    assert (Es : suffix = "1970-01-01T00:00:00Z").
    { rewrite Hs, Eu. vm_compute. reflexivity. }
    exists v. split; [exact Hv|].
    rewrite Es in Hlong. apply Hlong.
    + cbn. lia.
    + reflexivity.
Defined.

(** C5: the reader never returns an empty mapping of instrument
    parameters, but it returns the radar calibration as the mapping of
    the variables of that meta group even when there are none: for the
    file of the sample volume the record holds an empty mapping, not
    None, and the writer, which takes None for an absent calibration,
    fails on the record the reader returned. *)
Theorem radar_calibration_empty_mapping :
  (forall gfn ex ncobj r,
     read_cfradial gfn ex ncobj = Ok r ->
     Radar.instrument_parameters r <> Some [] /\
     Radar.radar_calibration r
       = Some (read_radar_calibration (ds_variables ncobj))) /\
  (exists r,
     read_cfradial_file sample_file None false None = Ok r /\
     _find_all_meta_group_vars (ds_variables sample_file) "radar_calibration"
       = [] /\
     Radar.instrument_parameters r = None /\
     Radar.radar_calibration r = Some [] /\
     write_cfradial sample_externals sample_environment r None false
       = Raise IndexError).
Proof.
  split.
  - intros gfn ex ncobj r H.
    apply read_cfradial_parameters in H. destruct H as [Hi [Hc _]].
    split; [|exact Hc]. rewrite Hi. unfold read_instrument_parameters.
    destruct (dict_of _); discriminate.
  - eexists. split; [vm_compute; reflexivity|].
    repeat split; vm_compute; reflexivity.
Qed.

Lemma excluded_field_policy_witness :
  (exists r,
     read_cfradial_file sample_file None false (Some ["DBZ"]) = Ok r /\
     dict_get (Radar.fields r) "DBZ" = None) /\
  (exists r v d,
     read_cfradial_file sample_file sample_field_names false (Some ["DBZ"])
       = Ok r /\
     dict_get (ds_variables sample_file) "DBZ" = Some v /\
     field_of (ds_variables sample_file) v = Ok d /\
     dict_get (Radar.fields r) "reflectivity" = Some d).
Proof.
  split.
  - eexists. split; [vm_compute; reflexivity|].
    refine (proj1 (excluded_field_policy
              (FileMetadata.get_field_name
                 (FileMetadata.mk None false (Some ["DBZ"])))
              (Some ["DBZ"]) sample_file _ "DBZ" _ _) _ _).
    + vm_compute. reflexivity.
    + reflexivity.
    + reflexivity.
    + intros k Hk. vm_compute in Hk.
      repeat (destruct Hk as [<-|Hk]; [vm_compute; discriminate|]).
      destruct Hk.
  - pose (gfn := FileMetadata.get_field_name
                   (FileMetadata.mk sample_field_names false (Some ["DBZ"]))).
    pose (r := the (read_cfradial_file sample_file sample_field_names false
                      (Some ["DBZ"])) sample_radar).
    pose (v := match dict_get (ds_variables sample_file) "DBZ" with
               | Some v => v
               | None => mk_var DFloat [] [] (mk_ndarray DFloat [] [])
               end).
    assert (Hr : read_cfradial gfn (Some ["DBZ"]) sample_file = Ok r)
      by (vm_compute; reflexivity).
    assert (Hv : dict_get (ds_variables sample_file) "DBZ" = Some v)
      by (vm_compute; reflexivity).
    assert (Hf : is_field (ds_variables sample_file) v = Ok true)
      by (vm_compute; reflexivity).
    destruct (proj2 (excluded_field_policy gfn (Some ["DBZ"]) sample_file r
                       "DBZ" Hr eq_refl) v "reflectivity" Hv Hf eq_refl)
      as [k [v' [d [_ [Hv' [Hd [Hfd Huniq]]]]]]].
    exists r, v, d. split; [exact Hr|]. split; [exact Hv|].
    destruct Huniq as [-> ->]; [|split; [exact Hd | exact Hfd]].
    intros k' Hk' Hne [Hn|[_ [_ Hn]]].
    + vm_compute in Hk'.
      repeat (destruct Hk' as [<-|Hk'];
              [first [now apply Hne | vm_compute in Hn; discriminate]|]).
      destruct Hk'.
    + subst k'. vm_compute in Hk'.
      repeat (destruct Hk' as [Hk'|Hk']; [discriminate Hk'|]).
      destruct Hk'.
Defined.

(** Two field variables that the policy gives one name: the entry of
    that name holds the one that comes later in the file. *)
Example merged_field_names :
  exists r v,
    read_cfradial_file sample_file_two_fields sample_field_names_merged false
      (Some ["DBZ"]) = Ok r /\
    dict_get (ds_variables sample_file_two_fields) "REF" = Some v /\
    dict_keys (Radar.fields r) = ["reflectivity"] /\
    dict_get (Radar.fields r) "reflectivity" = Some (_ncvar_to_dict v).
Proof.
  do 2 eexists. split; [vm_compute; reflexivity|].
  split; [vm_compute; reflexivity|].
  split; vm_compute; reflexivity.
Qed.

(** C6 fails as stated: the variable DBZ is in the exclusion set, the
    translation mapping has an entry for it, and its data is in the field
    mapping, under the translated name. *)
Lemma excluded_field_policy_counterexample :
  exists r v,
    read_cfradial_file sample_file sample_field_names false (Some ["DBZ"])
      = Ok r /\
    dict_get (ds_variables sample_file) "DBZ" = Some v /\
    str_in "DBZ" ["DBZ"] = true /\
    dict_keys (Radar.fields r) = ["reflectivity"] /\
    dict_get (Radar.fields r) "reflectivity" = Some (_ncvar_to_dict v).
Proof.
  do 2 eexists. split; [vm_compute; reflexivity|].
  split; [vm_compute; reflexivity|].
  repeat split; vm_compute; reflexivity.
Qed.

(** ** The ray reshape at sample inputs *)

Lemma get_In {A : Type} (l : list A) (i : Z) (x : A) :
  Py.get l i = Some x -> In x l.
Proof.
  unfold Py.get. intros H.
  destruct ((0 <=? i) && (i <? Py.len l)); [now apply nth_error_In in H|].
  destruct ((- Py.len l <=? i) && (i <? 0)); [now apply nth_error_In in H|].
  discriminate.
Qed.

Lemma uniform_check_complete_witness :
  Stream.uniform_check [4; 4; 4; 4; 4; 4] 0 3 4 = true.
Proof.
  apply uniform_check_complete.
  - lia.
  - unfold Py.len. simpl. lia.
  - intros i Hi.
    assert (E : i = 0 \/ i = 1 \/ i = 2) by lia.
    destruct E as [->|[->| ->]]; reflexivity.
  - lia.
Defined.

Lemma stream_to_2d_shape_witness :
  grid_shape 2 5
    [ [0; 1; 2; -9999; -9999]; [3; 4; 5; 6; 7] ]%float.
Proof.
  apply (stream_to_2d_shape (arange 8) [0] [2] [3; 5] 5 2 [0; 3]).
  vm_compute. reflexivity.
Defined.

Lemma ragged_sample_consistent : stream_consistent [0] [2] [3; 5].
Proof.
  assert (Hk : forall k ss se, 0 <= k < Py.len [2] ->
            Py.get [0] k = Some ss -> Py.get [2] k = Some se ->
            ss = 0 /\ se = 2).
  { intros k ss se Hk Hs He. unfold Py.len in Hk. simpl in Hk.
    assert (k = 0) by lia. subst k.
    inversion Hs. inversion He. now split. }
  split; [|split].
  - intros k ss se H Hs He. destruct (Hk k ss se H Hs He). lia.
  - intros i n H. apply get_In in H. simpl in H.
    destruct H as [<-|[<-|[]]]; lia.
  - intros k ss se rle H Hs He Hr Hu.
    destruct (Hk k ss se H Hs He). subst ss se.
    inversion Hr. subst rle. vm_compute in Hu. discriminate.
Qed.

Lemma stream_to_2d_sentinel_witness :
  nth 3 (nth 0 [ [0; 1; 2; -9999; -9999]; [3; 4; 5; 6; 7] ]%float [])
    sentinel = sentinel.
Proof.
  apply (stream_to_2d_sentinel (arange 8) [0] [2] [3; 5] 5 2 [0; 3]
           ragged_sample_consistent).
  - vm_compute. reflexivity.
  - intros [k [ss [se [n [_ [_ [_ [_ [Hn Hj]]]]]]]]].
    vm_compute in Hn. inversion Hn. subst n. simpl in Hj. lia.
Defined.

(** Where the end index of a sweep is the index of its last ray, the
    helper leaves that ray out: it reads the end index as exclusive. *)
Example stream_to_2d_inclusive_ends :
  _stream_to_2d (arange 24) [0; 3] [2; 5] [4; 4; 4; 4; 4; 4] 4 6
    [0; 4; 8; 12; 16; 20] =
  Ok [ [0; 1; 2; 3]; [4; 5; 6; 7]; [-9999; -9999; -9999; -9999];
       [8; 9; 10; 11]; [12; 13; 14; 15];
       [-9999; -9999; -9999; -9999] ]%float.
Proof. vm_compute. reflexivity. Qed.

(** ** Stationary and moving platforms *)

(** A record whose latitude holds one value gets a scalar latitude
    variable, any other record a per-ray one (lines 510-525). *)
Theorem latitude_dimensions ext env radar time_reference arm ds :
  write_cfradial ext env radar time_reference arm = Ok ds ->
  exists data size v,
    dict_get (Radar.latitude radar) "data" = Some data /\
    value_size data = Ok size /\
    dict_get (ds_variables ds) "latitude" = Some v /\
    var_dimensions v = if size =? 1 then [] else ["time"].
Proof.
  unfold write_cfradial. intros H.
  destruct (write_body _ _ _ _ _ _) as [[u ds']|e] eqn:Hb; [|discriminate].
  inversion H. subst ds'. clear H. unfold write_body in Hb.
  do 8 (apply bind_ok in Hb; destruct Hb as [[] [? [_ Hb]]]).
  apply bind_ok in Hb. destruct Hb as [[] [ds2 [Hl Hb]]].
  unfold write_location in Hl.
  apply bind_ok in Hl. destruct Hl as [data [ds0 [Hd Hl]]].
  apply lift_ok in Hd. destruct Hd as [Hd ->].
  apply bind_ok in Hl. destruct Hl as [size [ds0 [Hs Hl]]].
  apply lift_ok in Hs. destruct Hs as [Hs ->].
  apply bind_ok in Hl. destruct Hl as [[] [ds1 [Hc Hl]]].
  unfold create_ncvar in Hc.
  apply _create_ncvar_ok in Hc. destruct Hc as [a [_ [_ Hds1]]].
  unfold getitem in Hd.
  destruct (dict_get (Radar.latitude radar) "data") as [dv|] eqn:Ed;
    [|discriminate].
  inversion Hd. subst dv. clear Hd.
  exists data, size. eexists.
  split; [reflexivity|]. split; [exact Hs|].
  assert (K1 : dict_get (ds_variables ds2) "latitude"
               = dict_get (ds_variables ds1) "latitude").
  { eapply (preserved (fun d => dict_get (ds_variables d) "latitude"));
      [exact Hl|].
    unfold_writer.
    preserves_steps ltac:(intros; unfold with_var; cbn [ds_variables];
                          apply dict_get_set_other; discriminate). }
  assert (K2 : dict_get (ds_variables ds) "latitude"
               = dict_get (ds_variables ds2) "latitude").
  { eapply (preserved (fun d => dict_get (ds_variables d) "latitude"));
      [exact Hb|].
    unfold_writer.
    preserves_steps ltac:(intros; unfold with_var; cbn [ds_variables];
                          apply dict_get_set_other; discriminate). }
  rewrite K2, K1, Hds1. unfold with_var. cbn [ds_variables].
  split; [apply dict_get_set_same | reflexivity].
Qed.

Lemma latitude_dimensions_witness :
  exists data size v,
    dict_get (Radar.latitude sample_radar) "data" = Some data /\
    value_size data = Ok size /\
    dict_get (ds_variables sample_file) "latitude" = Some v /\
    var_dimensions v = if size =? 1 then [] else ["time"].
Proof.
  apply (latitude_dimensions sample_externals sample_environment sample_radar
           None false sample_file).
  vm_compute. reflexivity.
Defined.

(** ** The scan type of the record *)

(** The scan type of the record the reader returns is the one inferred
    from the first row of the sweep_mode variable (lines 154-179). *)
Theorem read_cfradial_scan_type gfn ex ncobj r :
  read_cfradial gfn ex ncobj = Ok r ->
  exists v row mode,
    dict_get (ds_variables ncobj) "sweep_mode" = Some v /\
    nd_first (at_least_1d (var_data v)) = Ok row /\
    chartostring row = Ok mode /\
    Radar.scan_type r = scan_type_str (scan_type_of_mode mode).
Proof.
  unfold read_cfradial. intros H. rbind_inv H.
  inversion H. clear H. cbn [Radar.scan_type].
  match goal with
  | E : read_var _ "sweep_mode" = Ok ?d |- _ =>
      unfold read_var, getitem in E;
      destruct (dict_get (ds_variables ncobj) "sweep_mode") as [v|] eqn:Ev;
      cbn [of_option rbind] in E; [|discriminate E];
      inversion E; subst d; clear E
  end.
  match goal with
  | E : getitem (_ncvar_to_dict v) "data" = Ok ?x |- _ =>
      unfold getitem, _ncvar_to_dict in E;
      rewrite dict_get_set_same in E; cbn [of_option] in E;
      inversion E; subst x; clear E
  end.
  exists v. do 2 eexists. repeat split; eassumption.
Qed.

Lemma read_cfradial_scan_type_witness :
  exists v row mode,
    dict_get (ds_variables sample_file) "sweep_mode" = Some v /\
    nd_first (at_least_1d (var_data v)) = Ok row /\
    chartostring row = Ok mode /\
    Radar.scan_type sample_read = scan_type_str (scan_type_of_mode mode).
Proof.
  apply (read_cfradial_scan_type
           (FileMetadata.get_field_name (FileMetadata.mk None false None))
           None sample_file sample_read).
  vm_compute. reflexivity.
Defined.

Example sample_read_scan_type : Radar.scan_type sample_read = "ppi".
Proof. vm_compute. reflexivity. Qed.

Lemma read_cfradial_mode gfn ex ncobj r :
  read_cfradial gfn ex ncobj = Ok r ->
  exists mode,
    first_sweep_mode r = Ok mode /\
    Radar.scan_type r = scan_type_str (scan_type_of_mode mode).
Proof.
  unfold read_cfradial. intros H. rbind_inv H.
  inversion H. clear H. unfold first_sweep_mode.
  cbn [Radar.scan_type Radar.sweep_mode].
  match goal with
  | E : getitem _ "data" = Ok _ |- _ => rewrite E; cbn [rbind]
  end.
  match goal with
  | E : match _ with VArr _ => _ | _ => _ end = Ok _ |- _ =>
      rewrite E; cbn [rbind]
  end.
  eexists. split; [eassumption | reflexivity].
Qed.

(** C4, as amended: the record the reader returns has a first
    sweep-mode string, and its scan type is derived from that string.
    The six mode strings of the convention map exactly
    (azimuth_surveillance and manual_ppi to ppi; rhi,
    elevation_surveillance and manual_rhi to rhi; vertical_pointing to
    vpt).  Any other string falls back on substrings, tried in this
    order: 'sur' gives ppi, 'sec' gives sector, 'rhi' gives rhi, and a
    string with none of them gives other.  A string that contains
    'sector' gives sector when it does not contain 'sur', which is tried
    first. *)
Theorem scan_type_inference gfn ex ncobj r :
  read_cfradial gfn ex ncobj = Ok r ->
  exists mode,
    first_sweep_mode r = Ok mode /\
    (mode = "azimuth_surveillance" \/ mode = "manual_ppi" ->
     Radar.scan_type r = "ppi") /\
    (mode = "rhi" \/ mode = "elevation_surveillance" \/ mode = "manual_rhi" ->
     Radar.scan_type r = "rhi") /\
    (mode = "vertical_pointing" -> Radar.scan_type r = "vpt") /\
    (~ In mode convention_modes ->
       (occurs_in "sur" mode -> Radar.scan_type r = "ppi") /\
       (~ occurs_in "sur" mode -> occurs_in "sec" mode ->
        Radar.scan_type r = "sector") /\
       (~ occurs_in "sur" mode -> ~ occurs_in "sec" mode ->
        occurs_in "rhi" mode -> Radar.scan_type r = "rhi") /\
       (~ occurs_in "sur" mode -> ~ occurs_in "sec" mode ->
        ~ occurs_in "rhi" mode -> Radar.scan_type r = "other")) /\
    (occurs_in "sector" mode -> ~ occurs_in "sur" mode ->
     Radar.scan_type r = "sector").
Proof.
  intros H. destruct (read_cfradial_mode _ _ _ _ H) as [mode [Hm Hs]].
  exists mode. split; [exact Hm|]. rewrite Hs.
  destruct scan_type_of_mode_cases as [_ [Hfall [Hsector _]]].
  split; [intros [->| ->]; reflexivity|].
  split; [intros [->|[->| ->]]; reflexivity|].
  split; [intros ->; reflexivity|].
  split.
  - intros Hn. destruct (Hfall mode Hn) as [H1 [H2 [H3 H4]]].
    split; [intros A; now rewrite H1|].
    split; [intros A B; now rewrite H2|].
    split; [intros A B C; now rewrite H3|].
    intros A B C; now rewrite H4.
  - intros A B. now rewrite Hsector.
Qed.

Lemma scan_type_inference_witness :
  first_sweep_mode sample_read = Ok "azimuth_surveillance" /\
  Radar.scan_type sample_read = "ppi".
Proof.
  destruct (scan_type_inference
              (FileMetadata.get_field_name (FileMetadata.mk None false None))
              None sample_file sample_read)
    as [mode [Hm [Hppi _]]].
  - vm_compute. reflexivity.
  - assert (E : first_sweep_mode sample_read = Ok "azimuth_surveillance")
      by (vm_compute; reflexivity).
    split; [exact E|].
    apply Hppi. left. rewrite E in Hm. now inversion Hm.
Defined.

(** A first sweep mode that contains 'sector' and 'sur': the file of the
    sample volume with the mode "sector_surveillance" is read as a ppi
    volume, for 'sur' is tried before 'sec'. *)
Lemma scan_type_inference_counterexample :
  read_cfradial_file sample_sector_file None false None
    = Ok sample_sector_read /\
  first_sweep_mode sample_sector_read = Ok "sector_surveillance" /\
  occurs_in "sector" "sector_surveillance" /\
  Radar.scan_type sample_sector_read = "ppi" /\
  Radar.scan_type sample_sector_read <> "sector".
Proof.
  split; [vm_compute; reflexivity|].
  split; [vm_compute; reflexivity|].
  split; [exists EmptyString, "_surveillance"; reflexivity|].
  split; [vm_compute; reflexivity|].
  vm_compute. discriminate.
Qed.

(** ** What the writer has declared stays *)

Lemma extends_refl ds : extends ds ds.
Proof. split; auto. Qed.

Lemma extends_trans d1 d2 d3 : extends d1 d2 -> extends d2 d3 -> extends d1 d3.
Proof. intros [A1 B1] [A2 B2]. split; auto. Qed.

Lemma grows_ret {A : Type} (a : A) : grows (ret a).
Proof. intros ds a' ds' H. inversion H. apply extends_refl. Qed.

Lemma grows_lift {A : Type} (r : result A) : grows (lift r).
Proof.
  intros ds a ds' H. apply lift_ok in H. destruct H as [_ ->]. apply extends_refl.
Qed.

Lemma grows_bind {A B : Type} (m : M A) (f : A -> M B) :
  grows m -> (forall a, grows (f a)) -> grows (bind m f).
Proof.
  intros Hm Hf ds b ds' H. apply bind_ok in H.
  destruct H as [a [ds1 [H1 H2]]].
  eapply extends_trans; [exact (Hm _ _ _ H1) | exact (Hf _ _ _ _ H2)].
Qed.

Lemma grows_when (c : bool) (m : M unit) : grows m -> grows (when c m).
Proof. intros H. destruct c; [exact H | apply grows_ret]. Qed.

Lemma grows_when_set {Y : Type} (o : option Y) (f : Y -> M unit) :
  (forall y, grows (f y)) -> grows (when_set o f).
Proof. intros H. destruct o; [apply H | apply grows_ret]. Qed.

Lemma grows_forM {Y : Type} (l : list Y) (f : Y -> M unit) :
  (forall y, grows (f y)) -> grows (forM l f).
Proof.
  intros H. induction l as [|y l IH]; simpl.
  - apply grows_ret.
  - apply grows_bind; [apply H | intros _; exact IH].
Qed.

Lemma grows_createDimension name size : grows (createDimension name size).
Proof.
  intros ds a ds' H. unfold createDimension, dict_has in H.
  destruct (dict_get (ds_dimensions ds) name) eqn:E; [discriminate|].
  inversion H. split; cbn; [|auto].
  intros n x Hn. rewrite dict_get_set_other; [exact Hn | congruence].
Qed.

Lemma grows_setncattr k v : grows (setncattr k v).
Proof. intros ds a ds' H. inversion H. split; cbn; auto. Qed.

Lemma grows_ncattrs : grows ncattrs.
Proof. intros ds a ds' H. inversion H. apply extends_refl. Qed.

Lemma grows_close : grows close.
Proof. intros ds a ds' H. inversion H. split; cbn; auto. Qed.

Lemma grows_create_ncvar ext dic name dims :
  grows (_create_ncvar ext dic name dims).
Proof.
  intros ds a ds' H. apply _create_ncvar_ok in H.
  destruct H as [arr [_ [Hnew ->]]]. split; cbn; [auto|].
  intros n v Hn. rewrite dict_get_set_other; [exact Hn | congruence].
Qed.

Ltac grows_steps :=
  repeat first
    [ apply grows_create_ncvar
    | apply grows_createDimension
    | apply grows_setncattr
    | apply grows_ncattrs
    | apply grows_close
    | apply grows_lift
    | apply grows_ret
    | apply grows_when
    | apply grows_when_set; intros ?
    | apply grows_forM; intros ?
    | apply grows_bind; [|intros ?] ].

Lemma grown {A : Type} (m : M A) ds a ds' :
  m ds = Ok (a, ds') -> grows m -> extends ds ds'.
Proof. intros H G. exact (G _ _ _ H). Qed.

Section WriterSteps.
Variables (ext : externals) (env : environment) (radar : Radar.t).

Lemma grows_create_dimensions : grows (create_dimensions radar).
Proof. unfold create_dimensions. grows_steps. Qed.

Lemma grows_write_global_attributes : grows (write_global_attributes env radar).
Proof. unfold write_global_attributes, setncatts. grows_steps. Qed.

Lemma grows_write_arm_time_variables : grows (write_arm_time_variables ext radar).
Proof. unfold write_arm_time_variables, create_ncvar. grows_steps. Qed.

Lemma grows_write_standard_variables : grows (write_standard_variables ext radar).
Proof. unfold write_standard_variables, create_ncvar. grows_steps. Qed.

Lemma grows_write_fields : grows (write_fields ext radar).
Proof. unfold write_fields, create_ncvar. grows_steps. Qed.

Lemma grows_write_sweep_parameters : grows (write_sweep_parameters ext radar).
Proof. unfold write_sweep_parameters, create_ncvar. grows_steps. Qed.

Lemma grows_write_instrument_parameters :
  grows (write_instrument_parameters ext radar).
Proof. unfold write_instrument_parameters, create_ncvar. grows_steps. Qed.

Lemma grows_write_radar_calibration : grows (write_radar_calibration ext radar).
Proof. unfold write_radar_calibration, create_ncvar. grows_steps. Qed.

Lemma grows_write_location : grows (write_location ext radar).
Proof. unfold write_location, create_ncvar. grows_steps. Qed.

Lemma grows_write_time_coverage : grows (write_time_coverage ext radar).
Proof. unfold write_time_coverage, create_ncvar. grows_steps. Qed.

Lemma grows_write_time_reference tr : grows (write_time_reference ext radar tr).
Proof. unfold write_time_reference, create_ncvar. grows_steps. Qed.

Lemma grows_write_global_variables : grows (write_global_variables ext radar).
Proof. unfold write_global_variables, create_ncvar. grows_steps. Qed.

Lemma grows_write_georeference : grows (write_georeference ext radar).
Proof. unfold write_georeference, create_ncvar. grows_steps. Qed.

Lemma write_cfradial_trace tr arm ds :
  write_cfradial ext env radar tr arm = Ok ds ->
  write_trace ext env radar tr arm ds.
Proof.
  unfold write_cfradial. intros H.
  destruct (write_body _ _ _ _ _ _) as [[u ds']|e] eqn:Hb; [|discriminate].
  inversion H. subst ds'. clear H. unfold write_body in Hb.
  repeat (apply bind_ok in Hb;
          let x := fresh "d" in let Hx := fresh "T" in
          destruct Hb as [[] [x [Hx Hb]]]).
  destruct u. econstructor; eassumption.
Qed.
End WriterSteps.

Ltac trace_grows :=
  repeat match goal with
  | H : create_dimensions _ _ = Ok _ |- _ =>
      apply (fun h => grown _ _ _ _ h (grows_create_dimensions _)) in H
  | H : write_global_attributes _ _ _ = Ok _ |- _ =>
      apply (fun h => grown _ _ _ _ h (grows_write_global_attributes _ _)) in H
  | H : when _ (write_arm_time_variables _ _) _ = Ok _ |- _ =>
      apply (fun h => grown _ _ _ _ h
               (grows_when _ _ (grows_write_arm_time_variables _ _))) in H
  | H : write_standard_variables _ _ _ = Ok _ |- _ =>
      apply (fun h => grown _ _ _ _ h (grows_write_standard_variables _ _)) in H
  | H : write_fields _ _ _ = Ok _ |- _ =>
      apply (fun h => grown _ _ _ _ h (grows_write_fields _ _)) in H
  | H : write_sweep_parameters _ _ _ = Ok _ |- _ =>
      apply (fun h => grown _ _ _ _ h (grows_write_sweep_parameters _ _)) in H
  | H : write_instrument_parameters _ _ _ = Ok _ |- _ =>
      apply (fun h => grown _ _ _ _ h (grows_write_instrument_parameters _ _)) in H
  | H : write_radar_calibration _ _ _ = Ok _ |- _ =>
      apply (fun h => grown _ _ _ _ h (grows_write_radar_calibration _ _)) in H
  | H : write_location _ _ _ = Ok _ |- _ =>
      apply (fun h => grown _ _ _ _ h (grows_write_location _ _)) in H
  | H : write_time_coverage _ _ _ = Ok _ |- _ =>
      apply (fun h => grown _ _ _ _ h (grows_write_time_coverage _ _)) in H
  | H : write_time_reference _ _ _ _ = Ok _ |- _ =>
      apply (fun h => grown _ _ _ _ h (grows_write_time_reference _ _ _)) in H
  | H : write_global_variables _ _ _ = Ok _ |- _ =>
      apply (fun h => grown _ _ _ _ h (grows_write_global_variables _ _)) in H
  | H : write_georeference _ _ _ = Ok _ |- _ =>
      apply (fun h => grown _ _ _ _ h (grows_write_georeference _ _)) in H
  | H : close _ = Ok _ |- _ =>
      apply (fun h => grown _ _ _ _ h grows_close) in H
  end.

Ltac extends_chain :=
  repeat first [ eassumption | apply extends_refl
               | eapply extends_trans; [eassumption|] ].

(** ** [_create_ncvar] *)

Lemma _create_ncvar_var ext dic name dims ds u ds' :
  _create_ncvar ext dic name dims ds = Ok (u, ds') ->
  exists a,
    array_to_write ext dic = Ok a /\
    ~ In name (dict_keys (ds_variables ds)) /\
    ds' = mk_dataset (ds_dimensions ds) (ds_attrs ds)
            (ds_variables ds ++ [(name, ncvar_of ext dic dims a)])
            (ds_closed ds).
Proof.
  intros H. apply _create_ncvar_ok in H. destruct H as [a [Ha [Hn ->]]].
  exists a. split; [exact Ha|].
  apply dict_get_none_keys in Hn. split; [exact Hn|].
  unfold with_var. now rewrite (dict_set_new _ _ _ Hn).
Qed.

Lemma dict_get_app_new {V : Type} (d : dict V) k v :
  ~ In k (dict_keys d) -> dict_get (d ++ [(k, v)]) k = Some v.
Proof.
  intros H. rewrite <- (dict_set_new _ _ _ H). apply dict_get_set_same.
Qed.

(** A successful [_create_ncvar] appends exactly one variable to the
    file: the name was not in use, the new variable comes last, it has
    the dimensions asked for and the type and data of the array lines
    623-633 and 669-670 make of [dic['data']], and the dimensions, the
    global attributes and the open/closed state of the file are as
    before. *)
Theorem create_ncvar_appends_variable ext dic name dims ds ds' :
  _create_ncvar ext dic name dims ds = Ok (tt, ds') ->
  exists a v,
    array_to_write ext dic = Ok a /\
    ~ In name (dict_keys (ds_variables ds)) /\
    ds_variables ds' = ds_variables ds ++ [(name, v)] /\
    var_dimensions v = dims /\
    var_dtype v = nd_dtype a /\
    var_data v = at_least_1d a /\
    ds_dimensions ds' = ds_dimensions ds /\
    ds_attrs ds' = ds_attrs ds /\
    ds_closed ds' = ds_closed ds.
Proof.
  intros H. apply _create_ncvar_var in H. destruct H as [a [Ha [Hn ->]]].
  exists a, (ncvar_of ext dic dims a). cbn. repeat split; assumption.
Qed.

(** The data is looked up before the file is touched (line 624): for an
    attributed array without a ['data'] entry [_create_ncvar] raises
    [KeyError('data')] whatever the state of the file, also where the
    name is in use or a dimension is not declared. *)
Theorem create_ncvar_requires_data ext dic name dims ds :
  dict_get dic "data" = None ->
  _create_ncvar ext dic name dims ds = Raise (KeyError "data").
Proof.
  intros H. unfold _create_ncvar. apply raises_bind_m.
  unfold lift, array_to_write, getitem. now rewrite H.
Qed.

Lemma set_all_get (dic : attr_array) (k : string) : forall acc,
  NoDup (dict_keys dic) ->
  dict_get
    (fold_left
       (fun a kv => if str_in (fst kv) written_first then a
                    else dict_set a (fst kv) (snd kv))
       dic acc) k
  = if str_in k written_first then dict_get acc k
    else match dict_get dic k with
         | Some x => Some x
         | None => dict_get acc k
         end.
Proof.
  induction dic as [|[k0 x0] dic IH]; intros acc Hnd.
  - cbn [fold_left dict_get]. now destruct (str_in k written_first).
  - cbn [dict_keys map fst] in Hnd. inversion Hnd as [|? ? Hk Hnd']. subst.
    cbn [fold_left fst snd]. rewrite (IH _ Hnd').
    destruct (str_in k written_first) eqn:Ek.
    + destruct (str_in k0 written_first) eqn:E0; [reflexivity|].
      apply dict_get_set_other. intros ->. congruence.
    + cbn [dict_get]. destruct (String.eqb_spec k k0) as [->|Hne].
      * rewrite Ek. apply dict_get_none_keys in Hk.
        unfold attr_array in *. rewrite Hk. apply dict_get_set_same.
      * destruct (dict_get dic k); [reflexivity|].
        destruct (str_in k0 written_first); [reflexivity|].
        apply dict_get_set_other. congruence.
Qed.

(** Every attribute of the variable [_create_ncvar] leaves, by name. *)
Lemma ncvar_attrs_get (created : dict value) (dic : attr_array) (k : string) :
  NoDup (dict_keys dic) ->
  dict_get (ncvar_attrs created dic) k =
  if str_in k ["data"; "_FillValue"] then dict_get created k
  else match dict_get dic k with
       | Some x => Some x
       | None => dict_get created k
       end.
Proof.
  intros Hnd. unfold ncvar_attrs. rewrite (set_all_get _ _ _ Hnd).
  set (a1 := match dict_get dic "long_name" with
             | Some v => dict_set created "long_name" v
             | None => created
             end).
  set (a2 := match dict_get dic "units" with
             | Some v => dict_set a1 "units" v
             | None => a1
             end).
  set (a3 := match dict_get a2 "_FillValue" with
             | Some fv => dict_set (dict_del a2 "_FillValue") "_FillValue" fv
             | None => a2
             end).
  assert (H1 : dict_get a1 k =
               if String.eqb k "long_name"
               then match dict_get dic "long_name" with
                    | Some x => Some x
                    | None => dict_get created k
                    end
               else dict_get created k).
  { unfold a1. destruct (String.eqb_spec k "long_name") as [->|Hne].
    - destruct (dict_get dic "long_name"); [apply dict_get_set_same | reflexivity].
    - destruct (dict_get dic "long_name"); [|reflexivity].
      apply dict_get_set_other. congruence. }
  assert (H2 : dict_get a2 k =
               if String.eqb k "units"
               then match dict_get dic "units" with
                    | Some x => Some x
                    | None => dict_get a1 k
                    end
               else dict_get a1 k).
  { unfold a2. destruct (String.eqb_spec k "units") as [->|Hne].
    - destruct (dict_get dic "units"); [apply dict_get_set_same | reflexivity].
    - destruct (dict_get dic "units"); [|reflexivity].
      apply dict_get_set_other. congruence. }
  assert (H3 : dict_get a3 k = dict_get a2 k).
  { unfold a3. destruct (dict_get a2 "_FillValue") as [fv|] eqn:Ef; [|reflexivity].
    destruct (String.eqb_spec k "_FillValue") as [->|Hne].
    - rewrite dict_get_set_same. now rewrite Ef.
    - rewrite dict_get_set_other by congruence.
      apply dict_get_del_other. congruence. }
  rewrite H3, H2, H1. unfold written_first, str_in. cbn [existsb].
  destruct (String.eqb_spec k "data") as [->|Hd]; [reflexivity|].
  destruct (String.eqb_spec k "_FillValue") as [->|Hf]; [reflexivity|].
  destruct (String.eqb_spec k "long_name") as [->|Hl]; [reflexivity|].
  destruct (String.eqb_spec k "units") as [->|Hu]; [reflexivity|].
  reflexivity.
Qed.

(** The attributes of the variable [_create_ncvar] leaves, by name
    (lines 649-666): every entry of the attributed array other than
    ['data'] and ['_FillValue'] is an attribute with the array's value;
    ['data'] is never copied, and ['_FillValue'] is only what the file
    layer assigned at creation; a name the array does not have is an
    attribute only if the file layer assigned it. *)
Theorem create_ncvar_attributes ext dic name dims ds ds' :
  NoDup (dict_keys dic) ->
  _create_ncvar ext dic name dims ds = Ok (tt, ds') ->
  exists v,
    dict_get (ds_variables ds') name = Some v /\
    forall k,
      dict_get (var_attrs v) k =
      if str_in k ["data"; "_FillValue"]
      then dict_get (created_attrs ext
                       (dict_get_or_none dic "least_significant_digit")
                       (dict_get_or_none dic "_FillValue")) k
      else match dict_get dic k with
           | Some x => Some x
           | None =>
               dict_get (created_attrs ext
                           (dict_get_or_none dic "least_significant_digit")
                           (dict_get_or_none dic "_FillValue")) k
           end.
Proof.
  intros Hnd H. apply _create_ncvar_var in H. destruct H as [a [_ [Hn ->]]].
  exists (ncvar_of ext dic dims a). cbn [ds_variables].
  split; [now apply dict_get_app_new|].
  intros k. unfold ncvar_of. cbn [var_attrs]. now apply ncvar_attrs_get.
Qed.

(** ** The dimensions of the file *)

Lemma string_length_loop (ip : option (dict attr_array)) (l : list string) :
  forall m m',
  for_each
    (fun max_str_len k =>
       match ip with
       | Some ip =>
           match dict_get ip k with
           | Some d =>
               rbind (getitem d "data")
                 (fun data => rbind (first_len data)
                    (fun sdim_length => Ok (Z.max max_str_len sdim_length)))
           | None => Ok max_str_len
           end
       | None => Ok max_str_len
       end) l m = Ok m' ->
  m <= m' /\
  forall k p d, In k l -> ip = Some p -> dict_get p k = Some d ->
    exists w, string_width d = Ok w /\ w <= m'.
Proof.
  induction l as [|k l IH]; intros m m' H.
  - inversion H. split; [lia|]. intros k p d [].
  - cbn [for_each] in H. apply rbind_ok in H. destruct H as [m1 [H1 H]].
    apply IH in H. destruct H as [Hle Hall].
    assert (Hm : m <= m1 /\
                 forall p d, ip = Some p -> dict_get p k = Some d ->
                   exists w, string_width d = Ok w /\ w <= m1).
    { destruct ip as [p|].
      - destruct (dict_get p k) as [d|] eqn:Ed.
        + apply rbind_ok in H1. destruct H1 as [data [Hd H1]].
          apply rbind_ok in H1. destruct H1 as [w [Hw H1]].
          inversion H1. split; [lia|].
          intros p' d' Hp Hd'. inversion Hp. subst p'.
          rewrite Ed in Hd'. inversion Hd'. subst d'.
          exists w. unfold string_width. rewrite Hd. cbn [rbind].
          split; [exact Hw | lia].
        + inversion H1. split; [lia|].
          intros p' d' Hp Hd'. inversion Hp. subst p'. congruence.
      - inversion H1. split; [lia|]. intros p' d' Hp. discriminate. }
    destruct Hm as [Hm1 Hk]. split; [lia|].
    intros k' p d [<-|Hin] Hp Hd.
    + destruct (Hk p d Hp Hd) as [w [Hw Hle']]. exists w. split; [exact Hw | lia].
    + exact (Hall k' p d Hin Hp Hd).
Qed.

Lemma string_length_bounds radar n :
  string_length radar = Ok n ->
  32 <= n /\
  (exists w, string_width (Radar.sweep_mode radar) = Ok w /\ w <= n) /\
  forall k p d, In k string_parameters ->
    Radar.instrument_parameters radar = Some p -> dict_get p k = Some d ->
    exists w, string_width d = Ok w /\ w <= n.
Proof.
  unfold string_length. intros H.
  apply rbind_ok in H. destruct H as [data [Hd H]].
  apply rbind_ok in H. destruct H as [w0 [Hw H]].
  apply rbind_ok in H. destruct H as [m [Hm H]].
  inversion H. apply string_length_loop in Hm. destruct Hm as [Hle Hall].
  split; [lia|]. split.
  - exists w0. unfold string_width. rewrite Hd. cbn [rbind]. split; [exact Hw | lia].
  - intros k p d Hin Hp Hk. destruct (Hall k p d Hin Hp Hk) as [w [Hw' Hle']].
    exists w. split; [exact Hw' | lia].
Qed.

(** The dimensions of a written file (lines 383-396): time is
    unlimited, range and sweep have the record's [ngates] and [nsweeps],
    and string_length is at least 32, at least the width of the first
    sweep mode and at least the width of the first value of each string
    instrument parameter the record has. *)
Theorem written_dimensions ext env radar time_reference arm ds :
  write_cfradial ext env radar time_reference arm = Ok ds ->
  exists str_len,
    dict_get (ds_dimensions ds) "time" = Some None /\
    dict_get (ds_dimensions ds) "range" = Some (Some (Radar.ngates radar)) /\
    dict_get (ds_dimensions ds) "sweep" = Some (Some (Radar.nsweeps radar)) /\
    dict_get (ds_dimensions ds) "string_length" = Some (Some str_len) /\
    32 <= str_len /\
    (exists w, string_width (Radar.sweep_mode radar) = Ok w /\ w <= str_len) /\
    forall k p d, In k string_parameters ->
      Radar.instrument_parameters radar = Some p -> dict_get p k = Some d ->
      exists w, string_width d = Ok w /\ w <= str_len.
Proof.
  intros H. apply write_cfradial_trace in H.
  destruct H as [d1 d2 d3 d4 d5 d6 d7 d8 d9 d10 d11 d12 d13
                 T1 T2 T3 T4 T5 T6 T7 T8 T9 T10 T11 T12 T13 T14].
  unfold create_dimensions in T1.
  apply bind_ok in T1. destruct T1 as [n [d0 [Hn T1]]].
  apply lift_ok in Hn. destruct Hn as [Hn ->].
  cbv in T1. inversion T1 as [E1]. clear T1.
  trace_grows.
  assert (Hext : extends d1 ds) by extends_chain.
  destruct Hext as [Hdims _].
  exists n. rewrite <- E1 in Hdims.
  repeat (split; [apply Hdims; reflexivity|]).
  apply string_length_bounds. exact Hn.
Qed.

(** ** The variables of the file *)

Section Creates.
Variable ext : externals.

Lemma creates_create_ncvar dic name dims :
  creates ext (_create_ncvar ext dic name dims) name dims dic.
Proof.
  intros ds a ds' H. apply _create_ncvar_var in H.
  destruct H as [arr [Ha [Hn ->]]]. exists arr. split; [exact Ha|].
  cbn [ds_variables]. now apply dict_get_app_new.
Qed.

Lemma creates_bind_l {A B : Type} (m : M A) (f : A -> M B) name dims dic :
  creates ext m name dims dic -> (forall a, grows (f a)) ->
  creates ext (bind m f) name dims dic.
Proof.
  intros Hm Hf ds b ds' H. apply bind_ok in H.
  destruct H as [a [ds1 [H1 H2]]].
  destruct (Hm _ _ _ H1) as [arr [Ha Hv]]. exists arr. split; [exact Ha|].
  destruct (Hf _ _ _ _ H2) as [_ Hvars]. now apply Hvars.
Qed.

Lemma creates_bind_r {A B : Type} (m : M A) (f : A -> M B) name dims dic :
  (forall a, creates ext (f a) name dims dic) ->
  creates ext (bind m f) name dims dic.
Proof.
  intros Hf ds b ds' H. apply bind_ok in H.
  destruct H as [a [ds1 [H1 H2]]]. exact (Hf _ _ _ _ H2).
Qed.

Lemma creates_forM {Y : Type} (l : list Y) (f : Y -> M unit) y name dims dic :
  In y l -> creates ext (f y) name dims dic -> (forall z, grows (f z)) ->
  creates ext (forM l f) name dims dic.
Proof.
  intros Hin Hy Hg. induction l as [|z l IH]; [destruct Hin|].
  cbn [forM]. destruct Hin as [->|Hin].
  - apply creates_bind_l; [exact Hy|]. intros _. now apply grows_forM.
  - apply creates_bind_r. intros _. now apply IH.
Qed.
End Creates.

Ltac grows_blocks :=
  repeat first
    [ apply grows_create_dimensions
    | apply grows_write_global_attributes
    | apply grows_write_arm_time_variables
    | apply grows_write_standard_variables
    | apply grows_write_fields
    | apply grows_write_sweep_parameters
    | apply grows_write_instrument_parameters
    | apply grows_write_radar_calibration
    | apply grows_write_location
    | apply grows_write_time_coverage
    | apply grows_write_time_reference
    | apply grows_write_global_variables
    | apply grows_write_georeference
    | apply grows_create_ncvar
    | apply grows_createDimension
    | apply grows_close
    | apply grows_lift
    | apply grows_ret
    | apply grows_when
    | apply grows_when_set; intros ?
    | apply grows_forM; intros ?
    | apply grows_bind; [|intros ?] ].

(** The step [m] of a chain is the one that creates the variable. *)
Ltac creates_here :=
  apply creates_bind_l; [|intros ?; unfold create_ncvar; grows_blocks].

Ltac creates_skip := apply creates_bind_r; intros ?.

Lemma write_cfradial_body ext env radar tr arm ds :
  write_cfradial ext env radar tr arm = Ok ds ->
  write_body ext env radar tr arm new_dataset = Ok (tt, ds).
Proof.
  unfold write_cfradial. intros H.
  destruct (write_body _ _ _ _ _ _) as [[[] ds']|e]; [|discriminate].
  now inversion H.
Qed.

Ltac creates_scan :=
  first
    [ apply creates_create_ncvar
    | apply creates_bind_l;
        [apply creates_create_ncvar | intros ?; unfold create_ncvar; grows_blocks]
    | apply creates_bind_r; intros ?; creates_scan ].

Section WrittenVariables.
Variables (ext : externals) (env : environment) (radar : Radar.t).
Variables (tr : option bool) (arm : bool).

Lemma creates_standard name dims dic :
  In (name, dims, Some dic)
     [ ("time", ["time"], Some (Radar.time radar));
       ("range", ["range"], Some (Radar.range radar));
       ("azimuth", ["time"], Some (Radar.azimuth radar));
       ("elevation", ["time"], Some (Radar.elevation radar));
       ("scan_rate", ["time"], Radar.scan_rate radar);
       ("antenna_transition", ["time"], Radar.antenna_transition radar) ] ->
  creates ext (write_standard_variables ext radar) name dims dic.
Proof.
  unfold write_standard_variables, create_ncvar. cbn [In].
  intros [H|[H|[H|[H|[H|[H|[]]]]]]]; inversion H; subst; clear H.
  - creates_scan.
  - creates_scan.
  - creates_scan.
  - creates_scan.
  - do 4 creates_skip. creates_here.
    match goal with H : _ = Some dic |- _ => rewrite H end. cbn [when_set].
    apply creates_create_ncvar.
  - do 5 creates_skip.
    match goal with H : _ = Some dic |- _ => rewrite H end. cbn [when_set].
    apply creates_create_ncvar.
Qed.

Lemma creates_sweep name dims dic :
  In (name, dims, Some dic)
     [ ("sweep_number", ["sweep"], Some (Radar.sweep_number radar));
       ("fixed_angle", ["sweep"], Some (Radar.fixed_angle radar));
       ("sweep_start_ray_index", ["sweep"],
        Some (Radar.sweep_start_ray_index radar));
       ("sweep_end_ray_index", ["sweep"],
        Some (Radar.sweep_end_ray_index radar));
       ("sweep_mode", ["sweep"; "string_length"],
        Some (Radar.sweep_mode radar));
       ("target_scan_rate", ["sweep"], Radar.target_scan_rate radar) ] ->
  creates ext (write_sweep_parameters ext radar) name dims dic.
Proof.
  unfold write_sweep_parameters, create_ncvar. cbn [In].
  intros [H|[H|[H|[H|[H|[H|[]]]]]]]; inversion H; subst; clear H.
  - creates_scan.
  - creates_scan.
  - creates_scan.
  - creates_scan.
  - creates_scan.
  - do 5 creates_skip.
    match goal with H : _ = Some dic |- _ => rewrite H end. cbn [when_set].
    apply creates_create_ncvar.
Qed.

Lemma creates_georeference name dims dic :
  In (name, dims, Some dic)
     [ ("rotation", ["time"], Radar.rotation radar);
       ("tilt", ["time"], Radar.tilt radar);
       ("roll", ["time"], Radar.roll radar);
       ("drift", ["time"], Radar.drift radar);
       ("heading", ["time"], Radar.heading radar);
       ("pitch", ["time"], Radar.pitch radar);
       ("georefs_applied", ["time"], Radar.georefs_applied radar) ] ->
  creates ext (write_georeference ext radar) name dims dic.
Proof.
  unfold write_georeference, create_ncvar. cbn [In].
  intros [H|[H|[H|[H|[H|[H|[H|[]]]]]]]]; inversion H; subst; clear H;
    match goal with H : _ = Some dic |- _ => rewrite H end; cbn [when_set];
    creates_scan.
Qed.

Lemma creates_record_variable name dims dic :
  In (name, dims, Some dic) (record_variables radar) ->
  creates ext (write_body ext env radar tr arm) name dims dic.
Proof.
  intros Hin. unfold record_variables in Hin.
  change (In (name, dims, Some dic)
            ([ ("time", ["time"], Some (Radar.time radar));
               ("range", ["range"], Some (Radar.range radar));
               ("azimuth", ["time"], Some (Radar.azimuth radar));
               ("elevation", ["time"], Some (Radar.elevation radar));
               ("scan_rate", ["time"], Radar.scan_rate radar);
               ("antenna_transition", ["time"], Radar.antenna_transition radar) ]
             ++
             [ ("sweep_number", ["sweep"], Some (Radar.sweep_number radar));
               ("fixed_angle", ["sweep"], Some (Radar.fixed_angle radar));
               ("sweep_start_ray_index", ["sweep"],
                Some (Radar.sweep_start_ray_index radar));
               ("sweep_end_ray_index", ["sweep"],
                Some (Radar.sweep_end_ray_index radar));
               ("sweep_mode", ["sweep"; "string_length"],
                Some (Radar.sweep_mode radar));
               ("target_scan_rate", ["sweep"], Radar.target_scan_rate radar) ]
             ++
             [ ("rotation", ["time"], Radar.rotation radar);
               ("tilt", ["time"], Radar.tilt radar);
               ("roll", ["time"], Radar.roll radar);
               ("drift", ["time"], Radar.drift radar);
               ("heading", ["time"], Radar.heading radar);
               ("pitch", ["time"], Radar.pitch radar);
               ("georefs_applied", ["time"], Radar.georefs_applied radar) ]))
    in Hin.
  apply in_app_or in Hin. destruct Hin as [Hin|Hin];
    [|apply in_app_or in Hin; destruct Hin as [Hin|Hin]].
  - unfold write_body. do 3 creates_skip. creates_here.
    now apply creates_standard.
  - unfold write_body. do 5 creates_skip. creates_here.
    now apply creates_sweep.
  - unfold write_body. do 12 creates_skip. creates_here.
    now apply creates_georeference.
Qed.

Lemma creates_field name dic :
  In (name, dic) (Radar.fields radar) ->
  creates ext (write_body ext env radar tr arm) name ["time"; "range"] dic.
Proof.
  intros Hin. unfold write_body. do 4 creates_skip. creates_here.
  unfold write_fields.
  apply (creates_forM ext _ _ (name, dic)); [exact Hin | |].
  - apply creates_create_ncvar.
  - intros z. apply grows_create_ncvar.
Qed.

Lemma creates_instrument_parameter ip k d :
  Radar.instrument_parameters radar = Some ip -> In (k, d) ip ->
  creates ext (write_body ext env radar tr arm) k
    (instrument_parameter_dims k) d.
Proof.
  intros Hip Hin. unfold write_body. do 6 creates_skip. creates_here.
  unfold write_instrument_parameters. rewrite Hip. cbn [when_set].
  creates_skip.
  apply (creates_forM ext _ _ (k, d)); [exact Hin | |].
  - apply creates_create_ncvar.
  - intros z. apply grows_create_ncvar.
Qed.

End WrittenVariables.

(** Every attributed array the record holds in one of its own places
    (lines 452-480 and 581-602; an optional one when it is not None) is
    in the written file under its name, with the dimensions the writer
    spells out and the data [_create_ncvar] makes of the array. *)
Theorem written_record_variables ext env radar time_reference arm ds
    name dims dic :
  write_cfradial ext env radar time_reference arm = Ok ds ->
  In (name, dims, Some dic) (record_variables radar) ->
  exists arr v,
    array_to_write ext dic = Ok arr /\
    dict_get (ds_variables ds) name = Some v /\
    var_dimensions v = dims /\
    var_dtype v = nd_dtype arr /\
    var_data v = at_least_1d arr.
Proof.
  intros H Hin. apply write_cfradial_body in H.
  destruct (creates_record_variable ext env radar time_reference arm
              name dims dic Hin _ _ _ H) as [arr [Ha Hv]].
  exists arr, (ncvar_of ext dic dims arr). repeat split; assumption.
Qed.

(** Every field of the record is a variable of the written file, under
    the field's name, with the dimensions (time, range) and the data
    [_create_ncvar] makes of the field's array (lines 465-467). *)
Theorem written_fields ext env radar time_reference arm ds name dic :
  write_cfradial ext env radar time_reference arm = Ok ds ->
  In (name, dic) (Radar.fields radar) ->
  exists arr v,
    array_to_write ext dic = Ok arr /\
    dict_get (ds_variables ds) name = Some v /\
    var_dimensions v = ["time"; "range"] /\
    var_dtype v = nd_dtype arr /\
    var_data v = at_least_1d arr.
Proof.
  intros H Hin. apply write_cfradial_body in H.
  destruct (creates_field ext env radar time_reference arm
              name dic Hin _ _ _ H) as [arr [Ha Hv]].
  exists arr, (ncvar_of ext dic ["time"; "range"] arr).
  repeat split; assumption.
Qed.

(** Instrument parameters (lines 482-494): every one is a variable of
    the written file, with the dimensions the table
    [_INSTRUMENT_PARAMS_DIMS] gives its name and none for a name the
    table does not have; where there is a frequency parameter, the file
    has the dimension frequency with the length of its data. *)
Theorem written_instrument_parameters ext env radar time_reference arm ds ip :
  write_cfradial ext env radar time_reference arm = Ok ds ->
  Radar.instrument_parameters radar = Some ip ->
  (forall k d, In (k, d) ip ->
     exists arr v,
       array_to_write ext d = Ok arr /\
       dict_get (ds_variables ds) k = Some v /\
       var_dimensions v = instrument_parameter_dims k /\
       var_data v = at_least_1d arr) /\
  (forall d, dict_get ip "frequency" = Some d ->
     exists data size,
       dict_get d "data" = Some data /\ value_len data = Ok size /\
       dict_get (ds_dimensions ds) "frequency" = Some (Some size)).
Proof.
  intros H Hip. split.
  - intros k d Hin. apply write_cfradial_body in H.
    destruct (creates_instrument_parameter ext env radar time_reference arm
                ip k d Hip Hin _ _ _ H) as [arr [Ha Hv]].
    exists arr, (ncvar_of ext d (instrument_parameter_dims k) arr).
    repeat split; assumption.
  - intros d Hd. apply write_cfradial_trace in H.
    destruct H as [d1 d2 d3 d4 d5 d6 d7 d8 d9 d10 d11 d12 d13
                   T1 T2 T3 T4 T5 T6 T7 T8 T9 T10 T11 T12 T13 T14].
    unfold write_instrument_parameters in T7. rewrite Hip in T7.
    cbn [when_set] in T7. rewrite Hd in T7. cbn [when_set] in T7.
    apply bind_ok in T7. destruct T7 as [[] [d6a [Hf T7]]].
    apply bind_ok in Hf. destruct Hf as [data [d0 [Hdata Hf]]].
    apply lift_ok in Hdata. destruct Hdata as [Hdata ->].
    apply bind_ok in Hf. destruct Hf as [size [d0 [Hsize Hf]]].
    apply lift_ok in Hsize. destruct Hsize as [Hsize ->].
    unfold getitem in Hdata.
    destruct (dict_get d "data") as [data'|] eqn:Edata; [|discriminate].
    inversion Hdata. subst data'. clear Hdata.
    exists data, size. split; [reflexivity|]. split; [exact Hsize|].
    assert (Hnow : dict_get (ds_dimensions d6a) "frequency" = Some (Some size)).
    { unfold createDimension in Hf. destruct (dict_has _ _); [discriminate|].
      inversion Hf. cbn [ds_dimensions]. apply dict_get_set_same. }
    assert (G : extends d6a d7).
    { eapply grown; [exact T7|]. unfold create_ncvar. grows_blocks. }
    trace_grows.
    assert (Hext : extends d6a ds) by extends_chain.
    destruct Hext as [Hdims _]. now apply Hdims.
Qed.


(** ** The global attributes of the file *)

Lemma dict_get_del_same {V : Type} (d : dict V) (k : string) :
  dict_get (dict_del d k) k = None.
Proof. apply dict_get_none_keys. apply dict_keys_del. Qed.

Lemma dict_keys_del_in {V : Type} (d : dict V) (k k' : string) :
  In k' (dict_keys (dict_del d k)) -> In k' (dict_keys d).
Proof.
  induction d as [|[k0 v0] d IH]; simpl; [tauto|].
  destruct (String.eqb k k0); simpl; tauto.
Qed.

Lemma NoDup_dict_del {V : Type} (d : dict V) (k : string) :
  NoDup (dict_keys d) -> NoDup (dict_keys (dict_del d k)).
Proof.
  induction d as [|[k0 v0] d IH]; simpl; intros H; [constructor|].
  inversion H as [|? ? Hk Hd]. subst.
  destruct (String.eqb k k0); [now apply IH|].
  simpl. constructor; [|now apply IH].
  intros Hin. apply Hk. eapply dict_keys_del_in. exact Hin.
Qed.

Lemma dict_get_set_all {V : Type} (d : dict V) (k : string) : forall a,
  NoDup (dict_keys d) ->
  dict_get (fold_left (fun a kv => dict_set a (fst kv) (snd kv)) d a) k =
  match dict_get d k with
  | Some x => Some x
  | None => dict_get a k
  end.
Proof.
  induction d as [|[k0 x0] d IH]; intros a Hnd; [reflexivity|].
  cbn [dict_keys map fst] in Hnd. inversion Hnd as [|? ? Hk Hnd']. subst.
  cbn [fold_left fst snd]. rewrite (IH _ Hnd'). cbn [dict_get].
  destruct (String.eqb_spec k k0) as [->|Hne].
  - apply dict_get_none_keys in Hk. rewrite Hk. apply dict_get_set_same.
  - destruct (dict_get d k); [reflexivity|].
    apply dict_get_set_other. congruence.
Qed.

Lemma metadata_copy_get radar k :
  dict_get (metadata_copy radar) k =
  if str_in k global_variables then None else dict_get (Radar.metadata radar) k.
Proof.
  unfold metadata_copy, global_variables, str_in.
  cbn [fold_left existsb].
  repeat match goal with
  | |- context [String.eqb k ?s] =>
      destruct (String.eqb_spec k s) as [->|?]; cbn [orb];
      [ repeat (rewrite dict_get_del_other by discriminate);
        apply dict_get_del_same |]
  end.
  repeat (rewrite dict_get_del_other by congruence). reflexivity.
Qed.

Lemma NoDup_metadata_copy radar :
  NoDup (dict_keys (Radar.metadata radar)) ->
  NoDup (dict_keys (metadata_copy radar)).
Proof.
  intros H. unfold metadata_copy, global_variables. cbn [fold_left].
  repeat apply NoDup_dict_del. exact H.
Qed.

(** The global attributes of a written file, by name (lines 398-428):
    none of the seven names the writer stores as variables is a global
    attribute; history is the attribute the writer chose; any other
    metadata entry is copied as it is; Conventions and field_names get
    their defaults ("CF/Radial", the field names joined by ", ") only
    where the metadata has no such entry; there is no other attribute. *)
Theorem written_global_attributes ext env radar time_reference arm ds k :
  NoDup (dict_keys (Radar.metadata radar)) ->
  write_cfradial ext env radar time_reference arm = Ok ds ->
  dict_get (ds_attrs ds) k =
  if str_in k global_variables then None
  else if String.eqb k "history" then Some (history_of env radar)
  else match dict_get (Radar.metadata radar) k with
       | Some v => Some v
       | None =>
           if String.eqb k "Conventions" then Some (VStr "CF/Radial")
           else if String.eqb k "field_names"
                then Some (VStr (String.concat ", "
                                   (dict_keys (Radar.fields radar))))
                else None
       end.
Proof.
  intros Hnd H. apply write_cfradial_body in H.
  apply write_body_attrs in H. rewrite H. clear H.
  change (ds_attrs new_dataset) with (@nil (string * value)).
  unfold global_attrs.
  set (a1 := fold_left _ _ _).
  assert (H1 : forall k', dict_get a1 k' =
                 if String.eqb k' "history" then None
                 else dict_get (metadata_copy radar) k').
  { intros k'. unfold a1. rewrite dict_get_set_all
      by (apply NoDup_dict_del; now apply NoDup_metadata_copy).
    destruct (String.eqb_spec k' "history") as [->|Hne].
    - now rewrite dict_get_del_same.
    - rewrite dict_get_del_other by congruence.
      now destruct (dict_get (metadata_copy radar) k'). }
  set (a2 := if str_in "Conventions" (dict_keys a1) then a1 else _).
  assert (H2 : forall k', dict_get a2 k' =
                 match dict_get a1 k' with
                 | Some v => Some v
                 | None => if String.eqb k' "Conventions"
                           then Some (VStr "CF/Radial") else None
                 end).
  { intros k'. unfold a2. rewrite str_in_keys. unfold dict_has.
    destruct (dict_get a1 "Conventions") eqn:Ec.
    - destruct (dict_get a1 k') eqn:Ek; [reflexivity|].
      destruct (String.eqb_spec k' "Conventions") as [->|]; [congruence|reflexivity].
    - destruct (String.eqb_spec k' "Conventions") as [->|Hne].
      + rewrite dict_get_set_same. now rewrite Ec.
      + rewrite dict_get_set_other by congruence.
        now destruct (dict_get a1 k'). }
  set (fn := VStr (String.concat ", " (dict_keys (Radar.fields radar)))).
  set (a3 := if str_in "field_names" (dict_keys a2) then a2 else _).
  assert (H3 : forall k', dict_get a3 k' =
                 match dict_get a2 k' with
                 | Some v => Some v
                 | None => if String.eqb k' "field_names" then Some fn else None
                 end).
  { intros k'. unfold a3. rewrite str_in_keys. unfold dict_has.
    destruct (dict_get a2 "field_names") eqn:Ec.
    - destruct (dict_get a2 k') eqn:Ek; [reflexivity|].
      destruct (String.eqb_spec k' "field_names") as [->|]; [congruence|reflexivity].
    - destruct (String.eqb_spec k' "field_names") as [->|Hne].
      + rewrite dict_get_set_same. now rewrite Ec.
      + rewrite dict_get_set_other by congruence.
        now destruct (dict_get a2 k'). }
  destruct (String.eqb_spec k "history") as [->|Hh].
  - rewrite dict_get_set_same. reflexivity.
  - rewrite dict_get_set_other by congruence.
    rewrite H3, H2, H1.
    destruct (String.eqb_spec k "history") as [|_]; [contradiction|].
    rewrite metadata_copy_get.
    destruct (str_in k global_variables) eqn:Eg.
    + unfold global_variables, str_in in Eg. cbn [existsb] in Eg.
      destruct (String.eqb_spec k "Conventions") as [->|]; [discriminate Eg|].
      destruct (String.eqb_spec k "field_names") as [->|]; [discriminate Eg|].
      reflexivity.
    + destruct (dict_get (Radar.metadata radar) k); [reflexivity|].
      destruct (String.eqb k "Conventions"); [reflexivity|].
      reflexivity.
Qed.

(** ** The variables the writer does not create *)

Section Untouched.
Variables (ext : externals) (env : environment) (radar : Radar.t).
Variable n : string.

Lemma var_named_with_var name ds v :
  name <> n -> (var_named n) (with_var ds name v) = (var_named n) ds.
Proof.
  intros H. unfold var_named, with_var. cbn [ds_variables].
  now apply dict_get_set_other.
Qed.

Hypothesis not_core : str_in n core_names = false.
Hypothesis not_record : ~ In n (record_names radar).

Ltac literal_name :=
  intros; apply var_named_with_var; intros <-;
  vm_compute in not_core; discriminate not_core.

Lemma untouched_create_dimensions :
  preserves (var_named n) (create_dimensions radar).
Proof. unfold create_dimensions. preserves_steps ltac:(literal_name). Qed.

Lemma untouched_global_attributes :
  preserves (var_named n) (write_global_attributes env radar).
Proof.
  intros ds a ds' H. rewrite write_global_attributes_run in H.
  inversion H. reflexivity.
Qed.

Lemma untouched_standard_variables :
  preserves (var_named n) (write_standard_variables ext radar).
Proof.
  unfold write_standard_variables, create_ncvar.
  preserves_steps ltac:(literal_name).
Qed.

Lemma untouched_fields : preserves (var_named n) (write_fields ext radar).
Proof.
  unfold write_fields, create_ncvar. apply preserves_forM. intros y Hy.
  apply preserves_create_ncvar. intros. apply var_named_with_var.
  intros E. apply not_record. unfold record_names. apply in_or_app. left.
  rewrite <- E. unfold dict_keys. now apply in_map.
Qed.

Lemma untouched_sweep_parameters :
  preserves (var_named n) (write_sweep_parameters ext radar).
Proof.
  unfold write_sweep_parameters, create_ncvar.
  preserves_steps ltac:(literal_name).
Qed.

Lemma untouched_instrument_parameters :
  preserves (var_named n) (write_instrument_parameters ext radar).
Proof.
  unfold write_instrument_parameters, create_ncvar.
  destruct (Radar.instrument_parameters radar) as [ip|] eqn:Eip;
    cbn [when_set]; [|preserves_steps ltac:(literal_name)].
  apply preserves_bind.
  - preserves_steps ltac:(literal_name).
  - intros _. apply preserves_forM. intros y Hy.
    apply preserves_create_ncvar. intros. apply var_named_with_var.
    intros E. apply not_record. unfold record_names. rewrite Eip.
    apply in_or_app. right. apply in_or_app. left.
    rewrite <- E. unfold dict_keys. now apply in_map.
Qed.

Lemma untouched_radar_calibration :
  preserves (var_named n) (write_radar_calibration ext radar).
Proof.
  unfold write_radar_calibration, create_ncvar.
  destruct (Radar.radar_calibration radar) as [rc|] eqn:Erc;
    cbn [when_set]; [|preserves_steps ltac:(literal_name)].
  apply preserves_bind; [preserves_steps ltac:(literal_name)|]. intros size.
  apply preserves_bind; [preserves_steps ltac:(literal_name)|]. intros _.
  apply preserves_forM. intros y Hy.
  apply preserves_create_ncvar. intros. apply var_named_with_var.
  intros E. apply not_record. unfold record_names. rewrite Erc.
  apply in_or_app. right. apply in_or_app. right.
  rewrite <- E. unfold dict_keys. now apply in_map.
Qed.

Lemma untouched_location : preserves (var_named n) (write_location ext radar).
Proof.
  unfold write_location, create_ncvar. preserves_steps ltac:(literal_name).
Qed.

Lemma untouched_time_coverage :
  preserves (var_named n) (write_time_coverage ext radar).
Proof.
  unfold write_time_coverage, create_ncvar.
  preserves_steps ltac:(literal_name).
Qed.

Lemma untouched_global_variables :
  preserves (var_named n) (write_global_variables ext radar).
Proof.
  unfold write_global_variables, create_ncvar.
  preserves_steps ltac:(literal_name).
Qed.

Lemma untouched_georeference :
  preserves (var_named n) (write_georeference ext radar).
Proof.
  unfold write_georeference, create_ncvar.
  preserves_steps ltac:(literal_name).
Qed.

Lemma untouched_close : preserves (var_named n) close.
Proof. apply preserves_close. reflexivity. Qed.

(** Only the two optional blocks can make the variable. *)
Lemma untouched_write tr arm ds :
  write_cfradial ext env radar tr arm = Ok ds ->
  preserves (var_named n) (when arm (write_arm_time_variables ext radar)) ->
  preserves (var_named n) (write_time_reference ext radar tr) ->
  dict_get (ds_variables ds) n = None.
Proof.
  intros H Parm Pref. apply write_cfradial_trace in H.
  destruct H as [d1 d2 d3 d4 d5 d6 d7 d8 d9 d10 d11 d12 d13
                 T1 T2 T3 T4 T5 T6 T7 T8 T9 T10 T11 T12 T13 T14].
  change (var_named n ds = None).
  rewrite (untouched_close _ _ _ T14).
  rewrite (untouched_georeference _ _ _ T13).
  rewrite (untouched_global_variables _ _ _ T12).
  rewrite (Pref _ _ _ T11).
  rewrite (untouched_time_coverage _ _ _ T10).
  rewrite (untouched_location _ _ _ T9).
  rewrite (untouched_radar_calibration _ _ _ T8).
  rewrite (untouched_instrument_parameters _ _ _ T7).
  rewrite (untouched_sweep_parameters _ _ _ T6).
  rewrite (untouched_fields _ _ _ T5).
  rewrite (untouched_standard_variables _ _ _ T4).
  rewrite (Parm _ _ _ T3).
  rewrite (untouched_global_attributes _ _ _ T2).
  rewrite (untouched_create_dimensions _ _ _ T1).
  reflexivity.
Qed.

Lemma untouched_arm_time_variables :
  n <> "base_time" -> n <> "time_offset" ->
  preserves (var_named n) (write_arm_time_variables ext radar).
Proof.
  intros H1 H2. unfold write_arm_time_variables, create_ncvar.
  preserves_steps ltac:(intros; apply var_named_with_var; congruence).
Qed.

Lemma untouched_time_reference tr :
  n <> "time_reference" \/ ~ time_reference_emitted radar tr ->
  preserves (var_named n) (write_time_reference ext radar tr).
Proof.
  intros Hn. unfold write_time_reference, create_ncvar.
  destruct Hn as [Hn|Hn].
  - preserves_steps ltac:(intros; apply var_named_with_var; congruence).
  - intros ds a ds' H.
    apply bind_ok in H. destruct H as [w [d0 [Hw H]]].
    apply lift_ok in Hw. destruct Hw as [Hw ->].
    destruct w.
    + exfalso. apply Hn. now apply time_reference_wanted_emitted.
    + inversion H. reflexivity.
Qed.
End Untouched.

Lemma not_in_str_in (k : string) (l : list string) :
  ~ In k l -> str_in k l = false.
Proof.
  intros H. destruct (str_in k l) eqn:E; [|reflexivity].
  apply str_in_In in E. contradiction.
Qed.

(** The writer creates no variable beyond those it spells out: every
    variable of a written file has one of the names of lines 452-602 or
    a name the record chose for a field, an instrument parameter or a
    calibration entry; time_reference is there only when it was
    requested or needed (lines 541-551), base_time and time_offset only
    with [arm_time_variables] (lines 430-450). *)
Theorem written_variable_names ext env radar time_reference arm ds n :
  write_cfradial ext env radar time_reference arm = Ok ds ->
  has_variable ds n ->
  In n core_names \/ In n (record_names radar) \/
  (n = "time_reference" /\ time_reference_emitted radar time_reference) \/
  ((n = "base_time" \/ n = "time_offset") /\ arm = true).
Proof.
  intros H Hn. unfold has_variable in Hn.
  destruct (in_dec string_dec n core_names) as [Hc|Hc]; [now left|].
  destruct (in_dec string_dec n (record_names radar)) as [Hr|Hr];
    [right; now left|].
  right. right.
  destruct (string_dec n "time_reference") as [Et|Et].
  - left. split; [exact Et|].
    destruct (time_reference_wanted radar time_reference) as [[|]|e] eqn:Ew.
    + now apply time_reference_wanted_emitted.
    + exfalso. apply dict_get_none_keys in Hn; [exact Hn|].
      apply (untouched_write ext env radar n (not_in_str_in _ _ Hc) Hr
               time_reference arm ds H).
      * apply preserves_when. apply untouched_arm_time_variables;
          subst n; discriminate.
      * apply untouched_time_reference. right. intros Hem.
        apply time_reference_wanted_emitted in Hem. congruence.
    + exfalso. apply dict_get_none_keys in Hn; [exact Hn|].
      apply (untouched_write ext env radar n (not_in_str_in _ _ Hc) Hr
               time_reference arm ds H).
      * apply preserves_when. apply untouched_arm_time_variables;
          subst n; discriminate.
      * apply untouched_time_reference. right. intros Hem.
        apply time_reference_wanted_emitted in Hem. congruence.
  - right.
    destruct (string_dec n "base_time") as [Eb|Eb];
      [|destruct (string_dec n "time_offset") as [Eo|Eo]].
    + split; [now left|]. destruct arm; [reflexivity|].
      exfalso. apply dict_get_none_keys in Hn; [exact Hn|].
      apply (untouched_write ext env radar n (not_in_str_in _ _ Hc) Hr
               time_reference false ds H).
      * apply preserves_ret.
      * apply untouched_time_reference. now left.
    + split; [now right|]. destruct arm; [reflexivity|].
      exfalso. apply dict_get_none_keys in Hn; [exact Hn|].
      apply (untouched_write ext env radar n (not_in_str_in _ _ Hc) Hr
               time_reference false ds H).
      * apply preserves_ret.
      * apply untouched_time_reference. now left.
    + exfalso. apply dict_get_none_keys in Hn; [exact Hn|].
      apply (untouched_write ext env radar n (not_in_str_in _ _ Hc) Hr
               time_reference arm ds H).
      * apply preserves_when. now apply untouched_arm_time_variables.
      * apply untouched_time_reference. now left.
Qed.

(** ** The variables the writer computes *)

Lemma created_stays ext dic name dims d u d' ds :
  _create_ncvar ext dic name dims d = Ok (u, d') -> extends d' ds ->
  exists arr,
    array_to_write ext dic = Ok arr /\
    dict_get (ds_variables ds) name = Some (ncvar_of ext dic dims arr).
Proof.
  intros H [_ Hvars]. destruct (creates_create_ncvar ext dic name dims _ _ _ H)
    as [arr [Ha Hv]].
  exists arr. split; [exact Ha | now apply Hvars].
Qed.

Lemma np_int32_of_fits ext n a :
  fits_int32 n = true -> np_int32_of ext (VInt n) = Ok a ->
  a = mk_ndarray DInt [1%nat] [IInt n].
Proof.
  intros Hf H. cbn [np_int32_of] in H. rewrite Hf in H. congruence.
Qed.

(** The volume_number variable (lines 553-561): where the metadata's
    volume_number is a Python int that fits 32 bits, or the metadata has
    none and the writer takes 0, the written file has a scalar variable
    volume_number of type int32 whose one cell holds that number. *)
Theorem written_volume_number ext env radar time_reference arm ds n :
  write_cfradial ext env radar time_reference arm = Ok ds ->
  (dict_get (Radar.metadata radar) "volume_number" = None /\ n = 0) \/
  (dict_get (Radar.metadata radar) "volume_number" = Some (VInt n) /\
   fits_int32 n = true) ->
  exists v,
    dict_get (ds_variables ds) "volume_number" = Some v /\
    var_dimensions v = [] /\
    var_dtype v = DInt /\
    var_data v = mk_ndarray DInt [1%nat] [IInt n].
Proof.
  intros H Hn. apply write_cfradial_trace in H.
  destruct H as [d1 d2 d3 d4 d5 d6 d7 d8 d9 d10 d11 d12 d13
                 T1 T2 T3 T4 T5 T6 T7 T8 T9 T10 T11 T12 T13 T14].
  unfold write_global_variables in T12.
  apply bind_ok in T12. destruct T12 as [data [d0 [Hdata T12]]].
  apply lift_ok in Hdata. destruct Hdata as [Hdata ->].
  apply bind_ok in T12. destruct T12 as [[] [d11a [Hc T12]]].
  assert (G : extends d11a d12).
  { eapply grown; [exact T12|]. unfold create_ncvar. grows_blocks. }
  trace_grows.
  assert (Hext : extends d11a ds) by extends_chain.
  destruct (created_stays _ _ _ _ _ _ _ _ Hc Hext) as [arr [Ha Hv]].
  assert (Hd : data = mk_ndarray DInt [1%nat] [IInt n]).
  { destruct Hn as [[E ->]|[E Hf]]; rewrite E in Hdata.
    - now apply np_int32_of_fits in Hdata.
    - now apply np_int32_of_fits in Hdata. }
  subst data.
  assert (E : arr = mk_ndarray DInt [1%nat] [IInt n]).
  { cbn in Ha. congruence. }
  subst arr.
  eexists. split; [exact Hv|].
  cbn [ncvar_of var_dimensions var_dtype var_data]. auto.
Qed.

(** The time coverage variables (lines 527-539): a successful write
    found units and a first and last value in the record's time, and
    the file has time_coverage_start and time_coverage_end along
    string_length, made of the ISO format of the first and of the last
    time with "Z" appended. *)
Theorem written_time_coverage ext env radar time_reference arm ds :
  write_cfradial ext env radar time_reference arm = Ok ds ->
  exists units data t0 t1 start_dt end_dt,
    dict_get (Radar.time radar) "units" = Some units /\
    dict_get (Radar.time radar) "data" = Some data /\
    value_item data 0 = Ok t0 /\
    value_item data (-1) = Ok t1 /\
    num2date ext t0 units = Ok start_dt /\
    num2date ext t1 units = Ok end_dt /\
    exists a0 a1 v0 v1,
      array_to_write ext
        [ ("data", VArr (np_array_str (isoformat ext start_dt ++ "Z")));
          ("long_name", VStr "UTC time of first ray in the file");
          ("units", VStr "unitless") ] = Ok a0 /\
      array_to_write ext
        [ ("data", VArr (np_array_str (isoformat ext end_dt ++ "Z")));
          ("long_name", VStr "UTC time of last ray in the file");
          ("units", VStr "unitless") ] = Ok a1 /\
      dict_get (ds_variables ds) "time_coverage_start" = Some v0 /\
      dict_get (ds_variables ds) "time_coverage_end" = Some v1 /\
      var_dimensions v0 = ["string_length"] /\
      var_dimensions v1 = ["string_length"] /\
      var_data v0 = at_least_1d a0 /\
      var_data v1 = at_least_1d a1.
Proof.
  intros H. apply write_cfradial_trace in H.
  destruct H as [d1 d2 d3 d4 d5 d6 d7 d8 d9 d10 d11 d12 d13
                 T1 T2 T3 T4 T5 T6 T7 T8 T9 T10 T11 T12 T13 T14].
  unfold write_time_coverage in T10.
  apply bind_ok in T10. destruct T10 as [units [d0 [Hu T10]]].
  apply lift_ok in Hu. destruct Hu as [Hu ->].
  apply bind_ok in T10. destruct T10 as [data [d0 [Hd T10]]].
  apply lift_ok in Hd. destruct Hd as [Hd ->].
  apply bind_ok in T10. destruct T10 as [t0 [d0 [Ht0 T10]]].
  apply lift_ok in Ht0. destruct Ht0 as [Ht0 ->].
  apply bind_ok in T10. destruct T10 as [start_dt [d0 [Hs T10]]].
  apply lift_ok in Hs. destruct Hs as [Hs ->].
  apply bind_ok in T10. destruct T10 as [data' [d0 [Hd' T10]]].
  apply lift_ok in Hd'. destruct Hd' as [Hd' ->].
  rewrite Hd in Hd'. inversion Hd'. subst data'. clear Hd'.
  apply bind_ok in T10. destruct T10 as [t1 [d0 [Ht1 T10]]].
  apply lift_ok in Ht1. destruct Ht1 as [Ht1 ->].
  apply bind_ok in T10. destruct T10 as [end_dt [d0 [He T10]]].
  apply lift_ok in He. destruct He as [He ->].
  apply bind_ok in T10. destruct T10 as [[] [d9a [Hc0 Hc1]]].
  unfold getitem in Hu, Hd.
  destruct (dict_get (Radar.time radar) "units") as [units'|]; [|discriminate].
  destruct (dict_get (Radar.time radar) "data") as [data'|]; [|discriminate].
  inversion Hu. inversion Hd. subst units' data'. clear Hu Hd.
  exists units, data, t0, t1, start_dt, end_dt.
  repeat (split; [assumption || reflexivity|]).
  assert (G : extends d9a d10).
  { eapply grown; [exact Hc1|]. unfold create_ncvar. grows_blocks. }
  trace_grows.
  assert (Hext0 : extends d9a ds) by extends_chain.
  assert (Hext1 : extends d10 ds) by extends_chain.
  destruct (created_stays _ _ _ _ _ _ _ _ Hc0 Hext0) as [a0 [Ha0 Hv0]].
  destruct (created_stays _ _ _ _ _ _ _ _ Hc1 Hext1) as [a1 [Ha1 Hv1]].
  exists a0, a1. eexists. eexists.
  split; [exact Ha0|]. split; [exact Ha1|].
  split; [exact Hv0|]. split; [exact Hv1|].
  cbn [ncvar_of var_dimensions var_data]. auto.
Qed.

(** Longitude, altitude and altitude_agl follow the latitude (lines
    510-525): each is a scalar variable when the latitude holds one
    value and a variable along time otherwise, whatever its own size. *)
Theorem location_follows_latitude ext env radar time_reference arm ds
    name dic :
  write_cfradial ext env radar time_reference arm = Ok ds ->
  In (name, Some dic)
     [ ("longitude", Some (Radar.longitude radar));
       ("altitude", Some (Radar.altitude radar));
       ("altitude_agl", Radar.altitude_agl radar) ] ->
  exists data size arr v,
    dict_get (Radar.latitude radar) "data" = Some data /\
    value_size data = Ok size /\
    array_to_write ext dic = Ok arr /\
    dict_get (ds_variables ds) name = Some v /\
    var_dimensions v = (if size =? 1 then [] else ["time"]) /\
    var_data v = at_least_1d arr.
Proof.
  intros H Hin. apply write_cfradial_trace in H.
  destruct H as [d1 d2 d3 d4 d5 d6 d7 d8 d9 d10 d11 d12 d13
                 T1 T2 T3 T4 T5 T6 T7 T8 T9 T10 T11 T12 T13 T14].
  unfold write_location in T9.
  apply bind_ok in T9. destruct T9 as [data [d0 [Hd T9]]].
  apply lift_ok in Hd. destruct Hd as [Hd ->].
  apply bind_ok in T9. destruct T9 as [size [d0 [Hs T9]]].
  apply lift_ok in Hs. destruct Hs as [Hs ->].
  unfold getitem in Hd.
  destruct (dict_get (Radar.latitude radar) "data") as [data'|]; [|discriminate].
  inversion Hd. subst data'. clear Hd.
  set (dims := if size =? 1 then [] else ["time"]) in *.
  assert (C : creates ext
                (bind (create_ncvar ext (Radar.latitude radar) "latitude" dims)
                   (fun _ =>
                    bind (create_ncvar ext (Radar.longitude radar) "longitude" dims)
                      (fun _ =>
                       bind (create_ncvar ext (Radar.altitude radar) "altitude" dims)
                         (fun _ =>
                          when_set (Radar.altitude_agl radar)
                            (fun d => create_ncvar ext d "altitude_agl" dims)))))
                name dims dic).
  { unfold create_ncvar. cbn [In] in Hin.
    destruct Hin as [E|[E|[E|[]]]]; inversion E; subst; clear E.
    - creates_scan.
    - creates_scan.
    - do 3 creates_skip.
      match goal with E : _ = Some dic |- _ => rewrite E end. cbn [when_set].
      apply creates_create_ncvar. }
  destruct (C _ _ _ T9) as [arr [Ha Hv]].
  trace_grows.
  assert (Hext : extends d9 ds) by extends_chain.
  destruct Hext as [_ Hvars].
  exists data, size, arr, (ncvar_of ext dic dims arr).
  split; [reflexivity|]. split; [exact Hs|]. split; [exact Ha|].
  split; [now apply Hvars|]. cbn [ncvar_of var_dimensions var_data]. auto.
Qed.

(** ** The ARM time variables *)

Lemma arm_units_free (c : ascii) : forall s a b,
  c = "T"%char \/ c = "Z"%char ->
  arm_units s <> (a ++ String c b)%string.
Proof.
  induction s as [|x s IH]; intros a b Hc E; cbn [arm_units] in E.
  - destruct a; discriminate E.
  - destruct (Ascii.eqb_spec x "T") as [->|HT].
    + destruct a as [|y a]; cbn in E.
      * inversion E. subst c. destruct Hc; discriminate.
      * inversion E. eapply IH; eauto.
    + destruct (Ascii.eqb_spec x "Z") as [->|HZ].
      * eapply IH; eauto.
      * destruct a as [|y a]; cbn in E.
        -- inversion E. subst c. destruct Hc; contradiction.
        -- inversion E. eapply IH; eauto.
Qed.

Lemma arm_units_clean (s : string) :
  ~ occurs_in "T" (arm_units s) /\ ~ occurs_in "Z" (arm_units s).
Proof.
  split; intros [a [b E]]; cbn [String.append] in E.
  - apply (arm_units_free "T" s a b); [now left | exact E].
  - apply (arm_units_free "Z" s a b); [now right | exact E].
Qed.

Lemma array_to_write_data ext (dic dic' : attr_array) :
  dict_get dic "data" = dict_get dic' "data" ->
  array_to_write ext dic = array_to_write ext dic'.
Proof. intros H. unfold array_to_write, getitem. now rewrite H. Qed.

(** With [arm_time_variables] the written file has the two ARM
    variables (lines 430-450): base_time, a scalar that holds the
    seconds from the epoch to the first time of the record and carries
    that instant as its string attribute, and time_offset, along time,
    with the data of the record's time and the time's units with every
    "T" turned into a space and every "Z" removed.  The one cell of
    base_time is that number of seconds where it fits an int32. *)
Theorem written_arm_time_variables ext env radar time_reference ds :
  write_cfradial ext env radar time_reference true = Ok ds ->
  exists data t0 units dt vb vo arr,
    dict_get (Radar.time radar) "data" = Some data /\
    value_item data 0 = Ok t0 /\
    dict_get (Radar.time radar) "units" = Some (VStr units) /\
    num2date ext t0 (VStr units) = Ok dt /\
    dict_get (ds_variables ds) "base_time" = Some vb /\
    var_dimensions vb = [] /\
    (fits_int32 (epoch_seconds ext dt) = true ->
     var_data vb = mk_ndarray DInt [1%nat] [IInt (epoch_seconds ext dt)]) /\
    dict_get (var_attrs vb) "string" = Some (VStr (strftime_arm ext dt)) /\
    dict_get (ds_variables ds) "time_offset" = Some vo /\
    var_dimensions vo = ["time"] /\
    array_to_write ext (Radar.time radar) = Ok arr /\
    var_data vo = at_least_1d arr /\
    dict_get (var_attrs vo) "units" = Some (VStr (arm_units units)) /\
    ~ occurs_in "T" (arm_units units) /\ ~ occurs_in "Z" (arm_units units).
Proof.
  intros H. apply write_cfradial_trace in H.
  destruct H as [d1 d2 d3 d4 d5 d6 d7 d8 d9 d10 d11 d12 d13
                 T1 T2 T3 T4 T5 T6 T7 T8 T9 T10 T11 T12 T13 T14].
  cbn [when] in T3. unfold write_arm_time_variables in T3.
  apply bind_ok in T3. destruct T3 as [data [d0 [Hd T3]]].
  apply lift_ok in Hd. destruct Hd as [Hd ->].
  apply bind_ok in T3. destruct T3 as [t0 [d0 [Ht0 T3]]].
  apply lift_ok in Ht0. destruct Ht0 as [Ht0 ->].
  apply bind_ok in T3. destruct T3 as [uv [d0 [Hu T3]]].
  apply lift_ok in Hu. destruct Hu as [Hu ->].
  apply bind_ok in T3. destruct T3 as [dt [d0 [Hdt T3]]].
  apply lift_ok in Hdt. destruct Hdt as [Hdt ->].
  apply bind_ok in T3. destruct T3 as [base [d0 [Hbase T3]]].
  apply lift_ok in Hbase. destruct Hbase as [Hbase ->].
  apply bind_ok in T3. destruct T3 as [[] [d2a [Hb T3]]].
  apply bind_ok in T3. destruct T3 as [data' [d0 [Hd' T3]]].
  apply lift_ok in Hd'. destruct Hd' as [Hd' ->].
  rewrite Hd in Hd'. inversion Hd'. subst data'. clear Hd'.
  apply bind_ok in T3. destruct T3 as [uv' [d0 [Hu' T3]]].
  apply lift_ok in Hu'. destruct Hu' as [Hu' ->].
  rewrite Hu in Hu'. inversion Hu'. subst uv'. clear Hu'.
  apply bind_ok in T3. destruct T3 as [units [d0 [Hs T3]]].
  apply lift_ok in Hs. destruct Hs as [Hs ->].
  destruct uv; try discriminate Hs. inversion Hs. subst s. clear Hs.
  unfold getitem in Hd, Hu.
  destruct (dict_get (Radar.time radar) "data") as [data0|] eqn:Ed;
    [|discriminate].
  destruct (dict_get (Radar.time radar) "units") as [units0|] eqn:Eu;
    [|discriminate].
  inversion Hd. inversion Hu. subst data0 units0. clear Hd Hu.
  assert (G : extends d2a d3).
  { eapply grown; [exact T3|]. unfold create_ncvar. grows_blocks. }
  trace_grows.
  assert (Hextb : extends d2a ds) by extends_chain.
  assert (Hexto : extends d3 ds) by extends_chain.
  destruct (created_stays _ _ _ _ _ _ _ _ Hb Hextb) as [ab [Hab Hvb]].
  destruct (created_stays _ _ _ _ _ _ _ _ T3 Hexto) as [arr [Harr Hvo]].
  rewrite (array_to_write_data ext _ (Radar.time radar)) in Harr
    by (cbn [dict_get]; rewrite String.eqb_refl; now rewrite Ed).
  exists data, t0, units, dt. eexists. eexists. exists arr.
  split; [reflexivity|]. split; [exact Ht0|]. split; [reflexivity|].
  split; [exact Hdt|]. split; [exact Hvb|].
  split; [reflexivity|].
  split.
  { intros Hf. apply (np_int32_of_fits _ _ _ Hf) in Hbase. subst base.
    cbn in Hab. inversion Hab. reflexivity. }
  split.
  { cbn [ncvar_of var_attrs]. rewrite ncvar_attrs_get.
    - reflexivity.
    - cbn. repeat constructor; cbn; intuition discriminate. }
  split; [exact Hvo|]. split; [reflexivity|]. split; [exact Harr|].
  split; [reflexivity|].
  split.
  { cbn [ncvar_of var_attrs]. rewrite ncvar_attrs_get.
    - reflexivity.
    - cbn. repeat constructor; cbn; intuition discriminate. }
  apply arm_units_clean.
Qed.

(** ** The optional global variables *)

Lemma global_variable_block ext (o : option value) (k long : string) v ds0 ds1 :
  o = Some v ->
  when_set o
    (fun v => bind (lift (np_array v))
       (fun data =>
          create_ncvar ext [("long_name", VStr long); ("data", VArr data)]
            k ["string_length"])) ds0 = Ok (tt, ds1) ->
  exists data arr,
    np_array v = Ok data /\
    array_to_write ext [("long_name", VStr long); ("data", VArr data)]
      = Ok arr /\
    dict_get (ds_variables ds1) k =
    Some (ncvar_of ext [("long_name", VStr long); ("data", VArr data)]
            ["string_length"] arr).
Proof.
  intros -> H. cbn [when_set] in H.
  apply bind_ok in H. destruct H as [data [d0 [Hd H]]].
  apply lift_ok in Hd. destruct Hd as [Hd ->].
  destruct (creates_create_ncvar ext _ _ _ _ _ _ H) as [arr [Ha Hv]].
  exists data, arr. auto.
Qed.

(** The optional global variables (lines 563-579): where the metadata
    has platform_type, instrument_type or primary_axis, the written file
    has a variable of that name along string_length, made of the array
    of the metadata's value, with the long name the writer gives it. *)
Theorem written_platform_variables ext env radar time_reference arm ds
    k long v :
  write_cfradial ext env radar time_reference arm = Ok ds ->
  In (k, long) platform_variables ->
  dict_get (Radar.metadata radar) k = Some v ->
  exists data arr var,
    np_array v = Ok data /\
    array_to_write ext [("long_name", VStr long); ("data", VArr data)]
      = Ok arr /\
    dict_get (ds_variables ds) k = Some var /\
    var_dimensions var = ["string_length"] /\
    var_data var = at_least_1d arr /\
    dict_get (var_attrs var) "long_name" = Some (VStr long).
Proof.
  intros H Hin Hv. apply write_cfradial_trace in H.
  destruct H as [d1 d2 d3 d4 d5 d6 d7 d8 d9 d10 d11 d12 d13
                 T1 T2 T3 T4 T5 T6 T7 T8 T9 T10 T11 T12 T13 T14].
  unfold write_global_variables in T12.
  apply bind_ok in T12. destruct T12 as [vol [d0 [_ T12]]].
  apply bind_ok in T12. destruct T12 as [[] [da [_ T12]]].
  apply bind_ok in T12. destruct T12 as [[] [db [Hp T12]]].
  apply bind_ok in T12. destruct T12 as [[] [dc [Hi Ha]]].
  assert (Gi : extends db dc).
  { eapply grown; [exact Hi|]. unfold create_ncvar. grows_blocks. }
  assert (Ga : extends dc d12).
  { eapply grown; [exact Ha|]. unfold create_ncvar. grows_blocks. }
  trace_grows.
  assert (Hx : exists data arr dx,
            np_array v = Ok data /\
            array_to_write ext [("long_name", VStr long); ("data", VArr data)]
              = Ok arr /\
            dict_get (ds_variables dx) k =
            Some (ncvar_of ext [("long_name", VStr long); ("data", VArr data)]
                    ["string_length"] arr) /\
            extends dx ds).
  { unfold platform_variables in Hin. cbn [In] in Hin.
    destruct Hin as [E|[E|[E|[]]]]; inversion E; subst k long; clear E.
    - destruct (global_variable_block _ _ _ _ _ _ _ Hv Hp)
        as [data [arr [H1 [H2 H3]]]].
      exists data, arr, db. repeat split; try assumption; extends_chain.
    - destruct (global_variable_block _ _ _ _ _ _ _ Hv Hi)
        as [data [arr [H1 [H2 H3]]]].
      exists data, arr, dc. repeat split; try assumption; extends_chain.
    - destruct (global_variable_block _ _ _ _ _ _ _ Hv Ha)
        as [data [arr [H1 [H2 H3]]]].
      exists data, arr, d12. repeat split; try assumption; extends_chain. }
  destruct Hx as [data [arr [dx [H1 [H2 [H3 [_ Hvars]]]]]]].
  exists data, arr. eexists.
  split; [exact H1|]. split; [exact H2|].
  split; [apply Hvars; exact H3|].
  split; [reflexivity|]. split; [reflexivity|].
  cbn [ncvar_of var_attrs]. rewrite ncvar_attrs_get.
  - reflexivity.
  - cbn. repeat constructor; cbn; intuition discriminate.
Qed.

(** ** What the reader returns *)

Lemma read_var_ok ncvars n d :
  read_var ncvars n = Ok d ->
  exists v, dict_get ncvars n = Some v /\ d = _ncvar_to_dict v.
Proof.
  unfold read_var, getitem. destruct (dict_get ncvars n) as [v|]; cbn;
    [|discriminate].
  intros H. inversion H. now exists v.
Qed.


Lemma at_least_1d_same a : nd_shape a <> [] -> at_least_1d a = a.
Proof. unfold at_least_1d. now destruct (nd_shape a). Qed.

Lemma at_least_1d_items a : nd_items (at_least_1d a) = nd_items a.
Proof. unfold at_least_1d. now destruct (nd_shape a). Qed.

Lemma ncvar_to_dict_data v :
  dict_get (_ncvar_to_dict v) "data" = Some (VArr (at_least_1d (var_data v))).
Proof. unfold _ncvar_to_dict. apply dict_get_set_same. Qed.

Lemma ncvar_to_dict_attr v k :
  k <> "data" -> dict_get (_ncvar_to_dict v) k = dict_get (var_attrs v) k.
Proof.
  intros H. unfold _ncvar_to_dict. apply dict_get_set_other. congruence.
Qed.

Ltac read_vars_inv H :=
  unfold read_cfradial in H; rbind_inv H;
  repeat match goal with
         | E : read_var _ _ = Ok _ |- _ =>
             apply read_var_ok in E;
             let v := fresh "v" in let Ev := fresh "Ev" in let Ed := fresh "Ed" in
             destruct E as [v [Ev Ed]]
         end;
  inversion H; subst; clear H.

Lemma read_mandatory_case (ncvars : dict Variable_) n v (d : attr_array) :
  dict_get ncvars n = Some v -> d = _ncvar_to_dict v ->
  exists v a,
    dict_get ncvars n = Some v /\
    d = _ncvar_to_dict v /\
    dict_get d "data" = Some (VArr a) /\
    (nd_shape (var_data v) <> [] -> a = var_data v) /\
    nd_items a = nd_items (var_data v) /\
    forall k, k <> "data" -> dict_get d k = dict_get (var_attrs v) k.
Proof.
  intros Hv ->. exists v, (at_least_1d (var_data v)).
  split; [exact Hv|]. split; [reflexivity|].
  split; [apply ncvar_to_dict_data|].
  split; [apply at_least_1d_same|].
  split; [apply at_least_1d_items|].
  intros k. apply ncvar_to_dict_attr.
Qed.

(** The variables the reader always reads (lines 129-148, 182-183):
    when it returns a record the file has each of them, and the record
    holds at its place what [_ncvar_to_dict] makes of the variable: its
    attributes, with the data under ['data'].  The data has the items of
    the variable, and it is the variable's array as it stands when that
    has one dimension or more (lines 304-313); what shape the value of a
    0-dimensional variable gets is left to [_ncvar_to_dict]. *)
Theorem read_mandatory_variables gfn ex ncobj r n proj :
  read_cfradial gfn ex ncobj = Ok r ->
  In (n, proj) mandatory_variables ->
  exists v a,
    dict_get (ds_variables ncobj) n = Some v /\
    proj r = _ncvar_to_dict v /\
    dict_get (proj r) "data" = Some (VArr a) /\
    (nd_shape (var_data v) <> [] -> a = var_data v) /\
    nd_items a = nd_items (var_data v) /\
    forall k, k <> "data" -> dict_get (proj r) k = dict_get (var_attrs v) k.
Proof.
  intros H Hin. read_vars_inv H.
  unfold mandatory_variables in Hin. cbn [In] in Hin.
  repeat (destruct Hin as [Hin|Hin];
          [ inversion Hin; subst; clear Hin;
            eapply read_mandatory_case; [eassumption | reflexivity] |]).
  destruct Hin.
Qed.

(** The optional variables (lines 138-141, 149-152, 184-229): the
    record's entry is None exactly when the file has no variable of the
    name, and the variable's dictionary otherwise. *)
Theorem read_optional_variables gfn ex ncobj r n proj :
  read_cfradial gfn ex ncobj = Ok r ->
  In (n, proj) optional_variables ->
  proj r = match dict_get (ds_variables ncobj) n with
           | Some v => Some (_ncvar_to_dict v)
           | None => None
           end.
Proof.
  intros H Hin. unfold read_cfradial in H. rbind_inv H.
  inversion H. subst. clear H.
  unfold optional_variables in Hin. cbn [In] in Hin.
  repeat (destruct Hin as [Hin|Hin];
          [inversion Hin; subst; clear Hin; reflexivity|]).
  destruct Hin.
Qed.

(** ** The metadata of the record *)

Lemma read_metadata_loop (ncvars : dict Variable_)
    (defaults : list (string * string)) : forall metadata metadata',
  for_each
    (fun metadata vd =>
       match dict_get ncvars (fst vd) with
       | Some v =>
           rbind (chartostring (nd_items (var_data v)))
             (fun s => Ok (dict_set metadata (fst vd) (VStr s)))
       | None => Ok (dict_set metadata (fst vd) (VStr (snd vd)))
       end) defaults metadata = Ok metadata' ->
  NoDup (map fst defaults) ->
  (forall k, ~ In k (map fst defaults) ->
     dict_get metadata' k = dict_get metadata k) /\
  (forall k default, In (k, default) defaults ->
     match dict_get ncvars k with
     | Some v => exists s, chartostring (nd_items (var_data v)) = Ok s /\
                           dict_get metadata' k = Some (VStr s)
     | None => dict_get metadata' k = Some (VStr default)
     end).
Proof.
  induction defaults as [|[k0 def0] defaults IH]; intros metadata metadata' H Hnd.
  - inversion H. split; [reflexivity | intros k default []].
  - cbn [for_each fst snd] in H. apply rbind_ok in H.
    destruct H as [m1 [H1 H]]. cbn [map fst] in Hnd.
    inversion Hnd as [|? ? Hk0 Hnd']. subst.
    destruct (IH _ _ H Hnd') as [Hother Hdef]. split.
    + intros k Hk. cbn [map fst In] in Hk. rewrite Hother by tauto.
      assert (Hne : k0 <> k) by tauto.
      destruct (dict_get ncvars k0) as [v|].
      * apply rbind_ok in H1. destruct H1 as [s [_ H1]]. inversion H1.
        now apply dict_get_set_other.
      * inversion H1. now apply dict_get_set_other.
    + intros k default [E|Hin].
      * inversion E. subst k0 def0. rewrite (Hother k Hk0).
        destruct (dict_get ncvars k) as [v|].
        -- apply rbind_ok in H1. destruct H1 as [s [Hs H1]]. inversion H1.
           exists s. split; [exact Hs | apply dict_get_set_same].
        -- inversion H1. apply dict_get_set_same.
      * now apply Hdef.
Qed.

(** The metadata of the record (lines 107-126): every global attribute
    is copied, except under the four names of the global variables;
    volume_number is the integer of the variable, 0 when the file has
    none; platform_type, instrument_type and primary_axis are the
    variable's string, and "fixed", "radar" and "axis_z" when the file
    has none. *)
Theorem read_metadata_defaults gfn ex ncobj r :
  read_cfradial gfn ex ncobj = Ok r ->
  (forall k,
     ~ In k ["volume_number"; "platform_type"; "instrument_type";
             "primary_axis"] ->
     dict_get (Radar.metadata r) k = dict_get (ds_attrs ncobj) k) /\
  match dict_get (ds_variables ncobj) "volume_number" with
  | Some v => exists n, int_of_array (var_data v) = Ok n /\
                        dict_get (Radar.metadata r) "volume_number"
                        = Some (VInt n)
  | None => dict_get (Radar.metadata r) "volume_number" = Some (VInt 0)
  end /\
  (forall k default, In (k, default) global_defaults ->
     match dict_get (ds_variables ncobj) k with
     | Some v => exists s, chartostring (nd_items (var_data v)) = Ok s /\
                           dict_get (Radar.metadata r) k = Some (VStr s)
     | None => dict_get (Radar.metadata r) k = Some (VStr default)
     end).
Proof.
  intros H. unfold read_cfradial in H.
  apply rbind_ok in H. destruct H as [metadata [Hm H]].
  rbind_inv H. inversion H. subst r. clear H. cbn [Radar.metadata].
  unfold read_metadata in Hm.
  apply rbind_ok in Hm. destruct Hm as [m0 [H0 Hm]].
  apply read_metadata_loop in Hm;
    [|cbn; repeat constructor; cbn; intuition discriminate].
  destruct Hm as [Hother Hdef].
  assert (Hvol : dict_get metadata "volume_number" = dict_get m0 "volume_number").
  { apply Hother. cbn. intuition discriminate. }
  split; [|split].
  - intros k Hk. cbn [In] in Hk. rewrite Hother by (cbn; tauto).
    assert (Hne : "volume_number" <> k) by tauto.
    destruct (dict_get (ds_variables ncobj) "volume_number") as [v|].
    + apply rbind_ok in H0. destruct H0 as [n [_ H0]]. inversion H0.
      now apply dict_get_set_other.
    + inversion H0. now apply dict_get_set_other.
  - rewrite Hvol.
    destruct (dict_get (ds_variables ncobj) "volume_number") as [v|].
    + apply rbind_ok in H0. destruct H0 as [n [Hn H0]]. inversion H0.
      exists n. split; [exact Hn | apply dict_get_set_same].
    + inversion H0. apply dict_get_set_same.
  - exact Hdef.
Qed.

(** ** Instrument parameters and calibration *)

Section Lookup.
Context {V W : Type}.
Variables (d : dict V) (g : V -> W).

Lemma dict_get_flat_map (keys : list string) (k : string) :
  dict_get
    (flat_map (fun k => match dict_get d k with
                        | Some v => [(k, g v)]
                        | None => []
                        end) keys) k =
  if str_in k keys then option_map g (dict_get d k) else None.
Proof.
  induction keys as [|k0 keys IH]; [reflexivity|].
  cbn [flat_map str_in existsb]. fold (str_in k keys).
  destruct (String.eqb_spec k k0) as [->|Hne]; cbn [orb].
  - destruct (dict_get d k0) as [v|] eqn:E0; cbn [app dict_get option_map].
    + now rewrite String.eqb_refl.
    + rewrite IH. now destruct (str_in k0 keys).
  - destruct (dict_get d k0) as [v|]; cbn [app dict_get]; [|exact IH].
    destruct (String.eqb_spec k k0); [contradiction | exact IH].
Qed.

Lemma dict_keys_flat_map (keys : list string) (k : string) :
  In k (dict_keys
          (flat_map (fun k => match dict_get d k with
                              | Some v => [(k, g v)]
                              | None => []
                              end) keys)) -> In k keys.
Proof.
  induction keys as [|k0 keys IH]; [intros []|].
  cbn [flat_map]. unfold dict_keys. rewrite map_app, in_app_iff.
  intros [H|H]; [|right; now apply IH].
  destruct (dict_get d k0); cbn in H; [|destruct H].
  destruct H as [<-|[]]. now left.
Qed.

Lemma NoDup_flat_map (keys : list string) :
  NoDup keys ->
  NoDup (dict_keys
           (flat_map (fun k => match dict_get d k with
                               | Some v => [(k, g v)]
                               | None => []
                               end) keys)).
Proof.
  induction keys as [|k0 keys IH]; intros H; [constructor|].
  inversion H as [|? ? Hk Hnd]. subst. cbn [flat_map].
  destruct (dict_get d k0); cbn [app]; [|now apply IH].
  cbn [dict_keys map fst]. constructor; [|now apply IH].
  intros Hin. apply Hk. now apply dict_keys_flat_map in Hin.
Qed.

Lemma dict_of_flat_map (keys : list string) (k : string) :
  NoDup keys ->
  dict_get
    (dict_of (flat_map (fun k => match dict_get d k with
                                 | Some v => [(k, g v)]
                                 | None => []
                                 end) keys)) k =
  if str_in k keys then option_map g (dict_get d k) else None.
Proof.
  intros H. unfold dict_of.
  rewrite dict_get_set_all by now apply NoDup_flat_map.
  rewrite dict_get_flat_map.
  destruct (str_in k keys); [|reflexivity].
  now destruct (dict_get d k).
Qed.
End Lookup.

Lemma dict_of_nil_keys {V : Type} (pairs : list (string * V)) :
  dict_of pairs = [] -> pairs = [].
Proof.
  destruct pairs as [|[k v] pairs]; [reflexivity|].
  intros H. exfalso.
  assert (Hin : In k (dict_keys (dict_of ((k, v) :: pairs)))).
  { unfold dict_of. cbn [fold_left fst snd].
    assert (G : forall (l : list (string * V)) a, In k (dict_keys a) ->
              In k (dict_keys
                      (fold_left (fun d kv => dict_set d (fst kv) (snd kv)) l a))).
    { induction l as [|[k1 v1] l IH]; intros a Ha; [exact Ha|].
      cbn [fold_left fst snd]. apply IH. now apply dict_keys_set_keeps. }
    apply G. cbn. now left. }
  rewrite H in Hin. destruct Hin.
Qed.

(** The instrument parameters of the record (lines 267-272): None when
    the file has no variable named in [_INSTRUMENT_PARAMS_DIMS];
    otherwise a non-empty mapping that holds exactly the variables of
    the file with a name of that table. *)
Theorem read_instrument_parameters_members gfn ex ncobj r :
  read_cfradial gfn ex ncobj = Ok r ->
  match Radar.instrument_parameters r with
  | Some ip =>
      ip <> [] /\
      forall k, dict_get ip k =
                if str_in k (dict_keys _INSTRUMENT_PARAMS_DIMS)
                then option_map _ncvar_to_dict (dict_get (ds_variables ncobj) k)
                else None
  | None =>
      forall k, In k (dict_keys _INSTRUMENT_PARAMS_DIMS) ->
                dict_get (ds_variables ncobj) k = None
  end.
Proof.
  intros H. apply read_cfradial_parameters in H. destruct H as [-> _].
  unfold read_instrument_parameters.
  set (ncvars := ds_variables ncobj).
  set (keys := filter (dict_has ncvars) (dict_keys _INSTRUMENT_PARAMS_DIMS)).
  assert (Hnd : NoDup keys).
  { unfold keys. apply NoDup_filter. vm_compute.
    repeat (constructor; [cbn; intuition discriminate|]). constructor. }
  assert (Hget : forall k,
            dict_get
              (dict_of (flat_map (fun k => match dict_get ncvars k with
                                           | Some v => [(k, _ncvar_to_dict v)]
                                           | None => []
                                           end) keys)) k =
            if str_in k (dict_keys _INSTRUMENT_PARAMS_DIMS)
            then option_map _ncvar_to_dict (dict_get ncvars k) else None).
  { intros k. rewrite (dict_of_flat_map ncvars _ncvar_to_dict keys k Hnd).
    destruct (str_in k keys) eqn:E.
    - apply str_in_In in E. unfold keys in E. apply filter_In in E.
      destruct E as [E _]. apply str_in_In in E. now rewrite E.
    - destruct (str_in k (dict_keys _INSTRUMENT_PARAMS_DIMS)) eqn:E';
        [|reflexivity].
      destruct (dict_get ncvars k) as [v|] eqn:Ev; [|reflexivity].
      exfalso. assert (Hin : In k keys).
      { unfold keys. apply filter_In. split; [now apply str_in_In|].
        unfold dict_has. now rewrite Ev. }
      apply str_in_In in Hin. congruence. }
  destruct (dict_of _) as [|p ip] eqn:Eip.
  - intros k Hk. specialize (Hget k). cbn [dict_get] in Hget.
    apply str_in_In in Hk. rewrite Hk in Hget.
    destruct (dict_get ncvars k); [discriminate Hget | reflexivity].
  - split; [discriminate | exact Hget].
Qed.

Lemma NoDup_filter_keys {V : Type} (p : string * V -> bool) (d : dict V) :
  NoDup (dict_keys d) -> NoDup (map fst (filter p d)).
Proof.
  induction d as [|[k v] d IH]; intros H; [constructor|].
  cbn [dict_keys map fst] in H. inversion H as [|? ? Hk Hnd]. subst.
  cbn [filter]. destruct (p (k, v)); [|now apply IH].
  cbn [map fst]. constructor; [|now apply IH].
  intros Hin. apply Hk. eapply filter_keys_in. exact Hin.
Qed.

Lemma filter_keys_get {V : Type} (p : string * V -> bool) (d : dict V) k :
  NoDup (dict_keys d) ->
  str_in k (map fst (filter p d)) =
  match dict_get d k with
  | Some v => p (k, v)
  | None => false
  end.
Proof.
  induction d as [|[k0 v0] d IH]; intros H; [reflexivity|].
  cbn [dict_keys map fst] in H. inversion H as [|? ? Hk Hnd]. subst.
  cbn [filter dict_get].
  destruct (String.eqb_spec k k0) as [->|Hne].
  - destruct (p (k0, v0)) eqn:Ep.
    + cbn [map fst str_in existsb]. now rewrite String.eqb_refl.
    + destruct (str_in k0 (map fst (filter p d))) eqn:E; [|reflexivity].
      apply str_in_In in E. apply filter_keys_in in E. contradiction.
  - destruct (p (k0, v0)).
    + cbn [map fst str_in existsb]. fold (str_in k (map fst (filter p d))).
      destruct (String.eqb_spec k k0); [contradiction|]. now apply IH.
    + now apply IH.
Qed.

(** The calibration of the record (lines 276-278, 296-301): a mapping
    (never None) that holds exactly the variables of the file whose
    meta_group attribute is "radar_calibration". *)
Theorem read_radar_calibration_members gfn ex ncobj r :
  NoDup (dict_keys (ds_variables ncobj)) ->
  read_cfradial gfn ex ncobj = Ok r ->
  exists rc,
    Radar.radar_calibration r = Some rc /\
    forall k, dict_get rc k =
              match dict_get (ds_variables ncobj) k with
              | Some v => if in_meta_group v "radar_calibration"
                          then Some (_ncvar_to_dict v) else None
              | None => None
              end.
Proof.
  intros Hnd H. apply read_cfradial_parameters in H. destruct H as [_ [-> _]].
  eexists. split; [reflexivity|]. intros k.
  unfold read_radar_calibration, _find_all_meta_group_vars.
  rewrite dict_of_flat_map by now apply NoDup_filter_keys.
  rewrite (filter_keys_get _ _ _ Hnd).
  destruct (dict_get (ds_variables ncobj) k) as [v|]; [|reflexivity].
  cbn [snd option_map]. reflexivity.
Qed.

(** ** The fields of the record *)

Lemma strs_eqb_eq (a b : list string) : strs_eqb a b = true -> a = b.
Proof.
  revert b. induction a as [|x a IH]; intros [|y b]; cbn; try discriminate.
  - reflexivity.
  - intros H. apply andb_prop in H. destruct H as [E H].
    apply String.eqb_eq in E. subst. f_equal. now apply IH.
Qed.

(** In a file without ray_start_index (lines 232-244) every field of
    the record is the dictionary of a variable of the file with the
    dimensions (time, range), named by the field-name policy. *)
Theorem read_fields_uniform gfn ex ncobj r name d :
  NoDup (dict_keys (ds_variables ncobj)) ->
  read_cfradial gfn ex ncobj = Ok r ->
  dict_has (ds_variables ncobj) "ray_start_index" = false ->
  dict_get (Radar.fields r) name = Some d ->
  exists key v,
    names_field gfn ex key name /\
    dict_get (ds_variables ncobj) key = Some v /\
    var_dimensions v = ["time"; "range"] /\
    d = _ncvar_to_dict v.
Proof.
  intros Hnd H Hlayout Hd.
  apply read_cfradial_parameters in H. destruct H as [_ [_ Hf]].
  rewrite Hlayout in Hf. unfold read_fields_cfradial in Hf.
  destruct (for_each_add_field_values _ _ _ _ _ _ _ Hf name d Hd)
    as [Hnil|[key [v [Hk [Hn [Hv Hc]]]]]]; [discriminate Hnil|].
  exists key, v. split; [exact Hn|]. split; [exact Hv|].
  split; [|now inversion Hc].
  unfold cfradial_field_keys in Hk. apply str_in_In in Hk.
  rewrite (filter_keys_get _ _ _ Hnd) in Hk. rewrite Hv in Hk.
  cbn [snd] in Hk. now apply strs_eqb_eq.
Qed.

Lemma length_concat_grid {A : Type} (nrays maxgates : nat) (g : list (list A)) :
  grid_shape nrays maxgates g ->
  List.length (List.concat g) = (nrays * maxgates)%nat.
Proof.
  intros [Hl Hf]. subst nrays. induction g as [|row g IH]; [reflexivity|].
  apply Forall_cons_iff in Hf. destruct Hf as [Hrow Hg].
  cbn [List.concat List.length]. rewrite List.length_app, (IH Hg), Hrow.
  reflexivity.
Qed.

(** In a file with ray_start_index (lines 246-265, 316-323) the data
    of every field of the record is a float64 array of shape
    (nrays, maxgates), the lengths of the time and range variables, and
    its other entries are the attributes of the variable it was read
    from, one the field-name policy names. *)
Theorem read_fields_stream_shape gfn ex ncobj r name d :
  read_cfradial gfn ex ncobj = Ok r ->
  dict_has (ds_variables ncobj) "ray_start_index" = true ->
  dict_get (Radar.fields r) name = Some d ->
  exists nrays maxgates a key v,
    shape0 (ds_variables ncobj) "time" = Ok nrays /\
    shape0 (ds_variables ncobj) "range" = Ok maxgates /\
    dict_get d "data" = Some (VArr a) /\
    nd_dtype a = DFloat /\
    nd_shape a = [nrays; maxgates] /\
    List.length (nd_items a) = (nrays * maxgates)%nat /\
    names_field gfn ex key name /\
    dict_get (ds_variables ncobj) key = Some v /\
    forall k, k <> "data" -> dict_get d k = dict_get (var_attrs v) k.
Proof.
  intros H Hlayout Hd.
  apply read_cfradial_parameters in H. destruct H as [_ [_ Hf]].
  rewrite Hlayout in Hf. unfold read_fields_stream in Hf.
  rbind_inv Hf.
  match goal with
  | E1 : shape0 _ "range" = Ok ?m, E2 : shape0 _ "time" = Ok ?n |- _ =>
      exists n, m
  end.
  destruct (for_each_add_field_values _ _ _ _ _ _ _ Hf name d Hd)
    as [Hnil|[key [v [Hk [Hn [Hv Hc]]]]]]; [discriminate Hnil|].
  unfold _stream_ncvar_to_dict in Hc.
  apply rbind_ok in Hc. destruct Hc as [cells [_ Hc]].
  apply rbind_ok in Hc. destruct Hc as [grid [Hg Hc]].
  inversion Hc. subst d. clear Hc.
  eexists. exists key, v. split; [reflexivity|]. split; [reflexivity|].
  split; [apply dict_get_set_same|].
  cbn [nd_dtype nd_shape nd_items].
  split; [reflexivity|]. split; [reflexivity|].
  split; [|split; [exact Hn|split; [exact Hv|]]];
    [|intros k0 Hk0; apply dict_get_set_other; congruence].
  rewrite List.length_map. apply length_concat_grid.
  unfold _stream_to_2d in Hg.
  apply rbind_ok in Hg. destruct Hg as [st [Ef Hg]].
  inversion Hg. try subst grid.
  match goal with
  | |- grid_shape ?n ?m _ =>
      eapply (for_each_invariant (fun st => grid_shape n m (fst st)));
        [|exact Ef|apply full_shape]
  end.
  intros s x s' _. apply sweep_body_shape.
Qed.

(** ** The ray reshape on a packed stream *)


Lemma sum_app (a b : list Z) : Py.sum (a ++ b) = Py.sum a + Py.sum b.
Proof.
  unfold Py.sum. induction a as [|x a IH]; cbn [app fold_right]; lia.
Qed.

Lemma sum_nonneg (l : list Z) : (forall n, In n l -> 0 <= n) -> 0 <= Py.sum l.
Proof.
  unfold Py.sum. induction l as [|x l IH]; intros H; cbn [fold_right]; [lia|].
  assert (0 <= x) by (apply H; now left).
  assert (0 <= fold_right Z.add 0 l) by (apply IH; intros n Hn; apply H; now right).
  lia.
Qed.

Lemma firstn_plus {A : Type} (a q : nat) : forall (l : list A),
  firstn (a + q) l = firstn a l ++ firstn q (skipn a l).
Proof.
  induction a as [|a IH]; intros [|x l]; cbn; try reflexivity.
  - now rewrite firstn_nil.
  - now rewrite IH.
Qed.

Lemma in_firstn {A : Type} (n : nat) (l : list A) (x : A) :
  In x (firstn n l) -> In x l.
Proof.
  intros H. rewrite <- (firstn_skipn n l). apply in_or_app. now left.
Qed.

Lemma in_skipn {A : Type} (n : nat) (l : list A) (x : A) :
  In x (skipn n l) -> In x l.
Proof.
  intros H. rewrite <- (firstn_skipn n l). apply in_or_app. now right.
Qed.

Lemma packed_start_add (l : list Z) (a q : nat) :
  packed_start l (a + q) = packed_start l a + Py.sum (firstn q (skipn a l)).
Proof. unfold packed_start. now rewrite firstn_plus, sum_app. Qed.

Lemma packed_start_S (l : list Z) (i : nat) :
  (i < List.length l)%nat ->
  packed_start l (S i) = packed_start l i + nth i l 0.
Proof.
  intros H. replace (S i) with (i + 1)%nat by lia. rewrite packed_start_add.
  f_equal. revert i H.
  induction l as [|x l IH]; intros [|i] H; cbn [List.length] in H; try lia.
  - unfold Py.sum. cbn [skipn firstn fold_right nth]. lia.
  - cbn [skipn nth]. apply IH. lia.
Qed.

Lemma packed_start_le (l : list Z) (i : nat) :
  (forall n, In n l -> 0 <= n) ->
  0 <= packed_start l i <= Py.sum l.
Proof.
  intros H. unfold packed_start.
  rewrite <- (firstn_skipn i l) at 3. rewrite sum_app.
  assert (0 <= Py.sum (firstn i l)).
  { apply sum_nonneg. intros n Hn. apply H. eapply in_firstn; eauto. }
  assert (0 <= Py.sum (skipn i l)).
  { apply sum_nonneg. intros n Hn. apply H. eapply in_skipn; eauto. }
  lia.
Qed.

Lemma packed_start_mono (l : list Z) (i k : nat) :
  (forall n, In n l -> 0 <= n) -> (i <= k)%nat ->
  packed_start l i <= packed_start l k.
Proof.
  intros H Hik. replace k with (i + (k - i))%nat by lia.
  rewrite packed_start_add.
  assert (0 <= Py.sum (firstn (k - i) (skipn i l))); [|lia].
  apply sum_nonneg. intros n Hn. apply H.
  apply in_firstn in Hn. eapply in_skipn; eauto.
Qed.

Lemma nth_firstn_skipn {A : Type} (l : list A) (s n x : nat) (d : A) :
  (x < n)%nat -> nth x (firstn n (skipn s l)) d = nth (s + x) l d.
Proof.
  intros H. rewrite nth_firstn.
  destruct (Nat.ltb_spec x n); [|lia]. apply nth_skipn.
Qed.

Lemma nth_chunks {A : Type} (c : nat) (d : A) : forall n (l : list A) q j,
  (q < n)%nat -> (j < c)%nat ->
  nth j (nth q (chunks c n l) []) d = nth (q * c + j) l d.
Proof.
  induction n as [|n IH]; intros l q j Hq Hj; [lia|].
  cbn [chunks]. destruct q as [|q]; cbn [nth].
  - rewrite nth_firstn. destruct (Nat.ltb_spec j c); [|lia]. reflexivity.
  - rewrite IH by lia. rewrite nth_skipn. f_equal. lia.
Qed.

Lemma nth_update_at_same {B : Type} (l : list B) : forall i f d,
  (i < List.length l)%nat -> nth i (update_at l i f) d = f (nth i l d).
Proof.
  induction l as [|x l IH]; intros [|i] f d H; cbn in *; try lia.
  - reflexivity.
  - apply IH. lia.
Qed.

Lemma get_nth {A : Type} (l : list A) (k : nat) (x d : A) :
  Py.get l (Z.of_nat k) = Some x -> (k < List.length l)%nat /\ x = nth k l d.
Proof.
  intros H. unfold Py.get, Py.len in H.
  destruct (Z.leb_spec 0 (Z.of_nat k)); [|lia].
  destruct (Z.ltb_spec (Z.of_nat k) (Z.of_nat (List.length l))); cbn [andb] in H.
  - rewrite Nat2Z.id in H. split; [lia|].
    symmetry. now apply nth_error_nth.
  - destruct (Z.ltb_spec (Z.of_nat k) 0); [lia|].
    rewrite andb_false_r in H. discriminate.
Qed.

Lemma get_nth_Z {A : Type} (l : list A) (i : Z) (x d : A) :
  0 <= i -> Py.get l i = Some x ->
  (Z.to_nat i < List.length l)%nat /\ x = nth (Z.to_nat i) l d.
Proof.
  intros Hi H. rewrite <- (Z2Nat.id i) in H by exact Hi.
  now apply get_nth.
Qed.

Lemma write_prefix_nth {A : Type} (tc : nat) (src row : list A) j d :
  List.length src = tc -> (j < tc)%nat ->
  nth j (write_prefix tc src row) d = nth j src d.
Proof.
  intros Hl Hj. unfold write_prefix, broadcast_to.
  rewrite <- Hl, Nat.eqb_refl. apply app_nth1. lia.
Qed.

Lemma fold_update_frame {B : Type} (F : nat -> B -> B) (a : nat) (d : B) :
  forall (l : list nat) (g : list B) r,
  (forall i, In i l -> r <> (a + i)%nat) ->
  nth r (fold_left (fun g i => update_at g (a + i) (F i)) l g) d = nth r g d.
Proof.
  induction l as [|i l IH]; intros g r H; cbn [fold_left]; [reflexivity|].
  rewrite IH by (intros k Hk; apply H; now right).
  apply nth_update_at_other. apply H. now left.
Qed.

Lemma fold_update_length {B : Type} (F : nat -> B -> B) (a : nat) :
  forall (l : list nat) (g : list B),
  List.length (fold_left (fun g i => update_at g (a + i) (F i)) l g)
  = List.length g.
Proof.
  induction l as [|i l IH]; intros g; cbn [fold_left]; [reflexivity|].
  rewrite IH. apply length_update_at.
Qed.

Lemma fold_update_written {B : Type} (F : nat -> B -> B) (a : nat) (d : B) :
  forall (l : list nat) (g : list B) q,
  NoDup l -> (forall i, In i l -> (a + i < List.length g)%nat) -> In q l ->
  nth (a + q) (fold_left (fun g i => update_at g (a + i) (F i)) l g) d
  = F q (nth (a + q) g d).
Proof.
  induction l as [|i l IH]; intros g q Hnd Hlen Hq; [destruct Hq|].
  inversion Hnd as [|? ? Hi Hnd']. subst. cbn [fold_left].
  destruct Hq as [->|Hq].
  - rewrite fold_update_frame.
    + apply nth_update_at_same. apply Hlen. now left.
    + intros k Hk E. assert (k = q) by lia. subst k. contradiction.
  - rewrite IH; [| exact Hnd' | | exact Hq].
    + f_equal. apply nth_update_at_other. intros E.
      assert (q = i) by lia. subst q. contradiction.
    + intros k Hk. rewrite length_update_at. apply Hlen. now right.
Qed.

Lemma assign_block_written {A : Type} (nrays maxgates : nat)
    (g g' : list (list A)) (lo hi hc : Z) (block : list (list A)) :
  grid_shape nrays maxgates g ->
  0 <= lo <= hi -> hi <= Z.of_nat nrays -> 0 <= hc <= Z.of_nat maxgates ->
  List.length block = Z.to_nat (hi - lo) ->
  Forall (fun row => List.length row = Z.to_nat hc) block ->
  assign_block maxgates g lo hi hc (hi - lo) hc block = Ok g' ->
  forall q j d, (q < Z.to_nat (hi - lo))%nat -> (j < Z.to_nat hc)%nat ->
    nth j (nth (Z.to_nat lo + q) g' []) d = nth j (nth q block []) d.
Proof.
  intros Hg Hlo Hhi Hhc Hlen Hrows H q j d Hq Hj.
  unfold assign_block in H.
  assert (Hnr : Py.len g = Z.of_nat nrays) by (unfold Py.len; destruct Hg; lia).
  rewrite Hnr in H.
  rewrite !bound_nonneg in H by lia.
  rewrite !Z.min_l in H by lia.
  rewrite Z.max_l in H by lia.
  destruct (broadcasts _ _ && broadcasts _ _); [|discriminate].
  inversion H. clear H.
  assert (Hb : broadcast_to (Z.to_nat (hi - lo)) block = block).
  { unfold broadcast_to. now rewrite Hlen, Nat.eqb_refl. }
  rewrite Hb.
  rewrite (fold_update_written
             (fun i => write_prefix (Z.to_nat hc) (nth i block []))
             (Z.to_nat lo) []).
  - apply write_prefix_nth; [|exact Hj].
    rewrite Forall_forall in Hrows. apply Hrows. apply nth_In. lia.
  - apply seq_NoDup.
  - intros i Hi. apply in_seq in Hi. destruct Hg as [Hl _]. lia.
  - apply in_seq. lia.
Qed.

Lemma reshape2_block {A : Type} (d : list A) (r c r' c' : Z) block :
  0 <= r -> 0 <= c ->
  reshape2 d r c = Ok (r', c', block) ->
  r' = r /\ c' = c /\ r * c = Py.len d /\
  block = chunks (Z.to_nat c) (Z.to_nat r) d.
Proof.
  intros Hr Hc H. unfold reshape2 in H.
  destruct (Z.eqb_spec r (-1)); [lia|].
  destruct (Z.eqb_spec c (-1)); [lia|].
  cbn [andb] in H.
  destruct (Z.ltb_spec r 0); [lia|].
  destruct (Z.ltb_spec c 0); [lia|].
  cbn [orb] in H.
  destruct (Z.eqb_spec (r * c) (Py.len d)) as [E|]; [|discriminate].
  inversion H. subst. repeat split; auto.
Qed.

Section StreamCorrect.
Variables (data : list float) (sweeps sweepe ray_len : list Z).
Variables (maxgates nrays : nat) (ray_start_index : list Z).

Hypothesis packed :
  packed_stream data sweeps sweepe ray_len maxgates nrays ray_start_index.

Lemma ray_len_nonneg : forall n, In n ray_len -> 0 <= n.
Proof.
  destruct packed as [_ [_ [H _]]]. intros n Hn. apply H in Hn. lia.
Qed.

Lemma ray_len_bounds i :
  (i < nrays)%nat -> 0 <= nth i ray_len 0 <= Z.of_nat maxgates.
Proof.
  destruct packed as [Hl [_ [H _]]]. intros Hi. apply H. apply nth_In. lia.
Qed.

Lemma ray_in_data i :
  (i < nrays)%nat ->
  0 <= packed_start ray_len i /\
  packed_start ray_len i + nth i ray_len 0 <= Py.len data.
Proof.
  intros Hi. destruct packed as [Hl [_ [_ [Hd _]]]].
  pose proof (packed_start_le ray_len i ray_len_nonneg) as H1.
  pose proof (packed_start_le ray_len (S i) ray_len_nonneg) as H2.
  rewrite packed_start_S in H2 by lia. lia.
Qed.

Lemma copy_ray_packed ss g rn g' :
  0 <= ss + rn < Z.of_nat nrays ->
  grid_shape nrays maxgates g ->
  copy_ray data ray_len maxgates ray_start_index ss g rn = Ok g' ->
  grid_shape nrays maxgates g' /\
  (forall r j d, r <> Z.to_nat (ss + rn) ->
     nth j (nth r g' []) d = nth j (nth r g []) d) /\
  (forall j d, Z.of_nat j < nth (Z.to_nat (ss + rn)) ray_len 0 ->
     nth j (nth (Z.to_nat (ss + rn)) g' []) d =
     nth (Z.to_nat (packed_start ray_len (Z.to_nat (ss + rn))) + j) data d).
Proof.
  intros Hi Hg H.
  pose proof (copy_ray_shape _ _ _ _ _ _ _ _ _ H Hg) as Hg'.
  split; [exact Hg'|].
  unfold copy_ray in H.
  destruct (Py.get ray_start_index (ss + rn)) as [start|] eqn:Es;
    cbn [of_option rbind] in H; [|discriminate].
  destruct (Py.get ray_len (ss + rn)) as [n|] eqn:En;
    cbn [of_option rbind] in H; [|discriminate].
  set (i := Z.to_nat (ss + rn)) in *.
  assert (Hin : (i < nrays)%nat) by (unfold i; lia).
  apply (get_nth_Z _ _ _ 0) in Es; [|lia]. destruct Es as [_ Es].
  apply (get_nth_Z _ _ _ 0) in En; [|lia]. destruct En as [_ En].
  fold i in Es, En.
  assert (Hstart : start = packed_start ray_len i).
  { destruct packed as [_ [Hrsi _]]. specialize (Hrsi i Hin).
    apply (nth_error_nth _ _ 0) in Hrsi. congruence. }
  destruct (ray_len_bounds i Hin) as [Hn0 Hn1].
  destruct (ray_in_data i Hin) as [Hs0 Hs1].
  rewrite <- En in Hn0, Hn1, Hs1. rewrite <- Hstart in Hs0, Hs1.
  split.
  - apply (assign_ray_spec nrays maxgates _ _ _ _ _ Hg) in H.
    destruct H as [_ Ho]. intros r j d Hr. apply Ho; [lia|]. now left.
  - intros j d Hj. rewrite <- En in Hj. rewrite <- Hstart.
    unfold assign_ray in H.
    assert (Hnr : Py.len g = Z.of_nat nrays)
      by (unfold Py.len; destruct Hg; lia).
    rewrite Hnr in H.
    destruct ((- Z.of_nat nrays <=? ss + rn) && (ss + rn <? Z.of_nat nrays));
      [|discriminate].
    destruct (broadcasts _ _); [|discriminate].
    inversion H. clear H.
    destruct (Z.ltb_spec (ss + rn) 0); [lia|]. fold i.
    rewrite nth_update_at_same by (destruct Hg; lia).
    rewrite bound_nonneg by lia. rewrite Z.min_l by lia.
    rewrite slice_nonneg by lia.
    replace (start + n - start) with n by lia.
    rewrite write_prefix_nth.
    + apply nth_firstn_skipn. lia.
    + rewrite length_firstn, length_skipn. unfold Py.len in Hs1. lia.
    + lia.
Qed.

Lemma copy_rays_packed ss : forall l g g',
  for_each (copy_ray data ray_len maxgates ray_start_index ss) l g = Ok g' ->
  (forall rn, In rn l -> 0 <= ss + rn < Z.of_nat nrays) ->
  NoDup l ->
  grid_shape nrays maxgates g ->
  grid_shape nrays maxgates g' /\
  (forall r j d, (forall rn, In rn l -> r <> Z.to_nat (ss + rn)) ->
     nth j (nth r g' []) d = nth j (nth r g []) d) /\
  (forall rn j d, In rn l ->
     Z.of_nat j < nth (Z.to_nat (ss + rn)) ray_len 0 ->
     nth j (nth (Z.to_nat (ss + rn)) g' []) d =
     nth (Z.to_nat (packed_start ray_len (Z.to_nat (ss + rn))) + j) data d).
Proof.
  induction l as [|rn0 l IH]; intros g g' H Hin Hnd Hg.
  - inversion H. subst g'. split; [exact Hg|]. split; [reflexivity|].
    intros rn j d [].
  - cbn [for_each] in H. apply rbind_ok in H. destruct H as [g1 [H1 H]].
    inversion Hnd as [|? ? Hrn0 Hnd']. subst.
    destruct (copy_ray_packed ss g rn0 g1 (Hin rn0 (or_introl eq_refl)) Hg H1)
      as [Hg1 [Hframe1 Hw1]].
    destruct (IH g1 g' H (fun rn Hrn => Hin rn (or_intror Hrn)) Hnd' Hg1)
      as [Hg' [Hframe Hw]].
    split; [exact Hg'|]. split.
    + intros r j d Hr. rewrite Hframe by (intros rn Hrn; apply Hr; now right).
      apply Hframe1. apply Hr. now left.
    + intros rn j d [<-|Hrn] Hj.
      * rewrite Hframe; [now apply Hw1|].
        intros rn Hrn E.
        pose proof (Hin rn (or_intror Hrn)). pose proof (Hin rn0 (or_introl eq_refl)).
        assert (rn = rn0) by lia. subst rn. contradiction.
      * now apply Hw.
Qed.

Hypothesis consistent : stream_consistent sweeps sweepe ray_len.

Lemma NoDup_range (n : Z) : NoDup (Py.range n).
Proof.
  unfold Py.range. generalize 0%nat. induction (Z.to_nat n) as [|m IH];
    intros a; cbn [seq map]; constructor.
  - intros H. apply in_map_iff in H. destruct H as [x [E Hx]].
    apply in_seq in Hx. lia.
  - apply IH.
Qed.

Lemma sum_slice_ray_len ss se :
  0 <= ss <= se -> se <= Z.of_nat nrays ->
  Py.sum (Py.slice ray_len ss se) =
  packed_start ray_len (Z.to_nat se) - packed_start ray_len (Z.to_nat ss).
Proof.
  intros H1 H2. destruct packed as [Hl _].
  rewrite slice_nonneg by (unfold Py.len; lia).
  replace (Z.to_nat se) with (Z.to_nat ss + Z.to_nat (se - ss))%nat by lia.
  rewrite packed_start_add. lia.
Qed.

Lemma packed_start_uniform a q rle :
  (a + q <= nrays)%nat ->
  (forall x, (x < q)%nat -> nth (a + x) ray_len 0 = rle) ->
  packed_start ray_len (a + q) = packed_start ray_len a + rle * Z.of_nat q.
Proof.
  intros Hle Hu. destruct packed as [Hl _].
  rewrite packed_start_add. f_equal.
  assert (Hlen : List.length (firstn q (skipn a ray_len)) = q)
    by (rewrite length_firstn, length_skipn; lia).
  rewrite (all_eq_repeat (firstn q (skipn a ray_len)) rle).
  - now rewrite sum_repeat, Hlen.
  - intros x Hx. rewrite Hlen in Hx.
    rewrite nth_error_firstn. destruct (Nat.ltb_spec x q); [|lia].
    rewrite nth_error_skipn. rewrite <- (Hu x Hx).
    apply nth_error_nth'. lia.
Qed.

Lemma sweep_body_packed k g cp g' cp' :
  (k < List.length sweepe)%nat ->
  grid_shape nrays maxgates g ->
  cp = packed_start ray_len (Z.to_nat (rays_before sweepe k)) ->
  rows_packed data ray_len (Z.to_nat (rays_before sweepe k)) g ->
  sweep_body data sweeps sweepe ray_len maxgates ray_start_index (g, cp)
    (Z.of_nat k) = Ok (g', cp') ->
  grid_shape nrays maxgates g' /\
  cp' = packed_start ray_len (Z.to_nat (rays_before sweepe (S k))) /\
  rows_packed data ray_len (Z.to_nat (rays_before sweepe (S k))) g'.
Proof.
  intros Hk Hg Hcp Hrows H.
  pose proof (sweep_body_shape _ _ _ _ _ _ _ _ _ _ H Hg) as Hg'.
  cbn [fst] in Hg'. split; [exact Hg'|].
  destruct packed as [Hl [_ [_ [Hdata [Hsl Htile]]]]].
  destruct consistent as [Hidx [_ Hunif]].
  assert (HkZ : 0 <= Z.of_nat k < Py.len sweepe) by (unfold Py.len; lia).
  unfold sweep_body in H.
  destruct (Py.get sweeps (Z.of_nat k)) as [ss|] eqn:Es;
    cbn [of_option rbind] in H; [|discriminate].
  destruct (Py.get sweepe (Z.of_nat k)) as [se|] eqn:Ee;
    cbn [of_option rbind] in H; [|discriminate].
  destruct (Py.get ray_len ss) as [rle|] eqn:Er;
    cbn [of_option rbind] in H; [|discriminate].
  destruct (Hidx _ _ _ HkZ Es Ee) as [Hss0 Hse0].
  specialize (Hunif _ _ _ _ HkZ Es Ee Er).
  destruct (Htile k Hk) as [Hs [Hle Hse]].
  apply (get_nth _ _ _ 0) in Es. destruct Es as [_ Es].
  apply (get_nth _ _ _ 0) in Ee. destruct Ee as [_ Ee].
  rewrite Hs in Es. cbn [rays_before]. rewrite <- Ee in *. rewrite <- Es in *.
  clear Es Ee Hs Hidx Htile.
  apply (get_nth_Z _ _ _ 0) in Er; [|lia]. destruct Er as [Ha Er].
  set (a := Z.to_nat ss) in *. set (b := Z.to_nat se) in *.
  assert (Hab : (a <= b <= nrays)%nat) by (unfold a, b; lia).
  pose proof (sum_slice_ray_len ss se ltac:(lia) Hse) as Hsum.
  fold a b in Hsum.
  pose proof (packed_start_le ray_len a ray_len_nonneg) as Hpa.
  pose proof (packed_start_le ray_len b ray_len_nonneg) as Hpb.
  pose proof (packed_start_mono ray_len a b ray_len_nonneg (proj1 Hab)) as Hmono.
  destruct (uniform_check ray_len ss se rle) eqn:Eu.
  - (* the bulk path *)
    specialize (Hunif eq_refl).
    unfold uniform_check in Eu. apply Z.eqb_eq in Eu.
    assert (Hrow : forall x, (x < b - a)%nat -> nth (a + x) ray_len 0 = rle).
    { intros x Hx.
      assert (Hr : ss <= Z.of_nat (a + x) < se) by (unfold a, b in *; lia).
      specialize (Hunif _ Hr). apply (get_nth _ _ _ 0) in Hunif.
      now destruct Hunif as [_ ->]. }
    assert (Hrle : 0 <= rle <= Z.of_nat maxgates).
    { rewrite Er. apply ray_len_bounds. lia. }
    assert (Hexact : Py.sum (Py.slice ray_len ss se) = (se - ss) * rle).
    { rewrite Hsum.
      assert (Hle' : (a + (b - a) <= nrays)%nat) by lia.
      pose proof (packed_start_uniform a (b - a) rle Hle' Hrow) as Hp.
      replace (a + (b - a))%nat with b in Hp by lia.
      rewrite Hp. unfold a, b. nia. }
    assert (Hwrap : int32 ((se - ss) * rle) = (se - ss) * rle).
    { replace (rle * (se - ss)) with ((se - ss) * rle) in Eu by lia.
      congruence. }
    rewrite Hwrap in H. clear Eu Hwrap.
    destruct (reshape2 _ _ _) as [[[r c] block]|] eqn:Ersh;
      cbn [rbind] in H; [|discriminate].
    pose proof (reshape2_ok _ _ _ _ _ _ Ersh) as [_ [_ [Hbl [Hbr _]]]].
    apply reshape2_block in Ersh; [|lia|lia].
    destruct Ersh as [-> [-> [Hsize Hblock]]].
    destruct (assign_block _ _ _ _ _ _ _ _) as [g1|] eqn:Ea;
      cbn [rbind] in H; [|discriminate].
    inversion H. subst g1 cp'. clear H.
    split; [lia|].
    assert (Hslice : Py.slice data cp (cp + (se - ss) * rle) =
                     firstn (Z.to_nat ((se - ss) * rle))
                       (skipn (Z.to_nat cp) data)).
    { rewrite slice_nonneg by nia. f_equal. f_equal. lia. }
    intros i j Hi Hj. fold b in Hi.
    destruct (Nat.lt_ge_cases i a) as [Hia|Hia].
    + (* a row of an earlier sweep *)
      rewrite <- (Hrows i j Hia Hj).
      apply (assign_block_spec nrays maxgates _ _ _ _ _ _ _ _ Hg) in Ea;
        try lia; try assumption.
      destruct Ea as [_ Ho]. apply Ho. left.
      rewrite !bound_nonneg by lia. unfold a in Hia. lia.
    + (* a row of this sweep *)
      set (q := (i - a)%nat).
      assert (Hq : (q < b - a)%nat) by (unfold q; lia).
      assert (Ei : i = (a + q)%nat) by (unfold q; lia).
      rewrite Ei in Hj |- *. rewrite (Hrow q Hq) in Hj.
      rewrite (assign_block_written nrays maxgates g g' ss se rle block Hg)
        by (try assumption; lia).
      rewrite Hblock, nth_chunks by lia.
      rewrite Hslice, nth_firstn_skipn by nia.
      rewrite (packed_start_uniform a q rle) by (try lia; intros x Hx; apply Hrow; lia).
      f_equal. rewrite <- Hcp. nia.
  - (* ray by ray *)
    destruct (for_each _ _ _) as [g1|] eqn:Ef; cbn [rbind] in H; [|discriminate].
    inversion H. subst g1 cp'. clear H.
    split; [lia|].
    destruct (copy_rays_packed ss (Py.range (se - ss)) g g' Ef)
      as [_ [Hframe Hw]].
    { intros rn Hrn. apply in_range in Hrn. lia. }
    { apply NoDup_range. }
    { exact Hg. }
    intros i j Hi Hj. fold b in Hi.
    destruct (Nat.lt_ge_cases i a) as [Hia|Hia].
    + rewrite <- (Hrows i j Hia Hj). apply Hframe.
      intros rn Hrn. apply in_range in Hrn. unfold a in Hia. lia.
    + assert (Hrn : In (Z.of_nat i - ss) (Py.range (se - ss))).
      { apply in_range. unfold a, b in *. lia. }
      assert (Ei : Z.to_nat (ss + (Z.of_nat i - ss)) = i) by lia.
      specialize (Hw (Z.of_nat i - ss) j sentinel Hrn).
      rewrite Ei in Hw. now apply Hw.
Qed.

Lemma sweeps_packed : forall m a g cp g' cp',
  (a + m <= List.length sweepe)%nat ->
  for_each (sweep_body data sweeps sweepe ray_len maxgates ray_start_index)
    (map Z.of_nat (seq a m)) (g, cp) = Ok (g', cp') ->
  grid_shape nrays maxgates g ->
  cp = packed_start ray_len (Z.to_nat (rays_before sweepe a)) ->
  rows_packed data ray_len (Z.to_nat (rays_before sweepe a)) g ->
  rows_packed data ray_len (Z.to_nat (rays_before sweepe (a + m))) g'.
Proof.
  induction m as [|m IH]; intros a g cp g' cp' Hle H Hg Hcp Hrows.
  - inversion H. subst. now rewrite Nat.add_0_r.
  - cbn [seq map for_each] in H. apply rbind_ok in H.
    destruct H as [[g1 cp1] [H1 H]].
    destruct (sweep_body_packed a g cp g1 cp1 ltac:(lia) Hg Hcp Hrows H1)
      as [Hg1 [Hcp1 Hrows1]].
    rewrite Nat.add_succ_r. change (S (a + m)) with (S a + m)%nat.
    eapply IH; [lia | exact H | exact Hg1 | exact Hcp1 | exact Hrows1].
Qed.

Lemma rays_before_mono : forall k k',
  (k <= k' <= List.length sweepe)%nat ->
  rays_before sweepe k <= rays_before sweepe k'.
Proof.
  destruct packed as [_ [_ [_ [_ [_ Htile]]]]].
  intros k k' [H1 H2]. induction H1 as [|k' H1 IH]; [lia|].
  destruct (Htile k' ltac:(lia)) as [_ [Hle _]].
  specialize (IH ltac:(lia)). cbn [rays_before] in *. lia.
Qed.

Lemma covered_packed i j :
  covered sweeps sweepe ray_len i j ->
  (i < Z.to_nat (rays_before sweepe (List.length sweepe)))%nat /\
  (i < nrays)%nat /\
  Z.of_nat j < nth i ray_len 0.
Proof.
  intros [k [ss [se [n [Hk [Hs [He [Hi [Hn Hj]]]]]]]]].
  destruct packed as [Hl _]. unfold Py.len in Hk.
  rewrite <- (Z2Nat.id k) in He by lia.
  apply (get_nth _ _ _ 0) in He. destruct He as [Hlt He].
  apply (get_nth _ _ _ 0) in Hn. destruct Hn as [Hin Hn].
  pose proof (rays_before_mono (S (Z.to_nat k)) (List.length sweepe)
                ltac:(lia)) as Hm.
  change (rays_before sweepe (S (Z.to_nat k)))
    with (nth (Z.to_nat k) sweepe 0) in Hm.
  rewrite <- He in Hm.
  split; [lia|]. split; [lia|]. now rewrite <- Hn.
Qed.
End StreamCorrect.

(** On a packed stream whose sweeps pass the test of line 337 only
    when their rays have one gate count, the helper puts every gate at
    its place: the cell (i, j) of a ray i that lies in a sweep and has
    more than j gates holds [data[ray_start_index[i] + j]], on the bulk
    path (lines 338-340) as on the ray-by-ray path (lines 342-345). *)
Theorem stream_to_2d_packed data sweeps sweepe ray_len maxgates nrays
    ray_start_index grid i j :
  packed_stream data sweeps sweepe ray_len maxgates nrays ray_start_index ->
  stream_consistent sweeps sweepe ray_len ->
  _stream_to_2d data sweeps sweepe ray_len maxgates nrays ray_start_index
    = Ok grid ->
  covered sweeps sweepe ray_len i j ->
  exists start,
    Py.get ray_start_index (Z.of_nat i) = Some start /\
    Py.get data (start + Z.of_nat j) = Some (nth j (nth i grid []) sentinel).
Proof.
  intros Hp Hc H Hcov.
  destruct (covered_packed _ _ _ _ _ _ _ Hp i j Hcov) as [Hi [Hin Hj]].
  unfold _stream_to_2d in H. apply rbind_ok in H.
  destruct H as [[g cp] [Hf H]]. inversion H. subst grid. clear H.
  cbn [fst]. unfold Py.range, Py.len in Hf. rewrite Nat2Z.id in Hf.
  pose proof (sweeps_packed _ _ _ _ _ _ _ Hp Hc (List.length sweepe) O
                _ _ _ _ (Nat.le_refl _) Hf) as Hrows.
  cbn [Nat.add] in Hrows.
  specialize (Hrows (full_shape maxgates nrays sentinel) eq_refl).
  assert (H0 : rows_packed data ray_len (Z.to_nat (rays_before sweepe 0))
                 (full nrays maxgates sentinel)).
  { intros i0 j0 Hi0. cbn in Hi0. lia. }
  specialize (Hrows H0 i j Hi Hj).
  exists (packed_start ray_len i).
  destruct Hp as [Hl [Hrsi [Hb [Hd _]]]].
  pose proof (Hrsi i Hin) as Hs.
  assert (Hlen : (i < List.length ray_start_index)%nat).
  { apply nth_error_Some. congruence. }
  split.
  - rewrite get_nonneg by (unfold Py.len; lia). now rewrite Nat2Z.id.
  - assert (Hn : forall n, In n ray_len -> 0 <= n)
      by (intros n Hn; apply Hb in Hn; lia).
    pose proof (packed_start_le ray_len i Hn) as H1.
    pose proof (packed_start_le ray_len (S i) Hn) as H2.
    rewrite packed_start_S in H2 by lia.
    rewrite get_nonneg by (unfold Py.len in *; lia).
    rewrite Hrows.
    replace (Z.to_nat (packed_start ray_len i + Z.of_nat j))
      with (Z.to_nat (packed_start ray_len i) + j)%nat by lia.
    apply nth_error_nth'. unfold Py.len in Hd. lia.
Qed.

(** ** When the sum test is exact *)

Lemma sum_le_bound (r : Z) (l : list Z) :
  (forall x, In x l -> x <= r) -> Py.sum l <= r * Z.of_nat (List.length l).
Proof.
  unfold Py.sum. induction l as [|x l IH]; intros H;
    cbn [fold_right List.length]; [lia|].
  assert (x <= r) by (apply H; now left).
  assert (fold_right Z.add 0 l <= r * Z.of_nat (List.length l))
    by (apply IH; intros y Hy; apply H; now right).
  lia.
Qed.

Lemma sum_bound_all (r : Z) (l : list Z) :
  (forall x, In x l -> x <= r) ->
  Py.sum l = r * Z.of_nat (List.length l) ->
  forall x, In x l -> x = r.
Proof.
  induction l as [|y l IH]; intros H E x Hx; [destruct Hx|].
  assert (Hy : y <= r) by (apply H; now left).
  assert (Hl : Py.sum l <= r * Z.of_nat (List.length l))
    by (apply sum_le_bound; intros z Hz; apply H; now right).
  unfold Py.sum in *. cbn [fold_right List.length] in E.
  destruct Hx as [<-|Hx]; [lia|].
  apply IH; [intros z Hz; apply H; now right | lia | exact Hx].
Qed.

(** The test of line 337 is exact on a sweep none of whose rays has
    more gates than the count [rle] it is compared with (in the code,
    the count of the sweep's first ray), when the product of line 337
    fits an int32 and does not wrap: there, a sweep that passes the test
    has rays of that one gate count. *)
Theorem uniform_check_sound_bounded (ray_len : list Z) (ss se rle : Z) :
  0 <= ss <= se -> se <= Py.len ray_len ->
  (forall i n, ss <= i < se -> Py.get ray_len i = Some n -> n <= rle) ->
  - 2 ^ 31 <= rle * (se - ss) < 2 ^ 31 ->
  Stream.uniform_check ray_len ss se rle = true ->
  sweep_uniform ray_len ss se rle.
Proof.
  intros H1 H2 Hb Hfit Hu i Hi. unfold Stream.uniform_check in Hu.
  rewrite (int32_fits _ Hfit) in Hu.
  apply Z.eqb_eq in Hu. rewrite slice_nonneg in Hu by lia.
  set (s := firstn _ _) in Hu.
  assert (Hlen : List.length s = Z.to_nat (se - ss)).
  { unfold s. rewrite length_firstn, length_skipn. unfold Py.len in H2. lia. }
  assert (Hnth : forall k, (k < Z.to_nat (se - ss))%nat ->
            nth_error s k = Py.get ray_len (ss + Z.of_nat k)).
  { intros k Hk. unfold s. rewrite nth_error_firstn.
    destruct (Nat.ltb_spec k (Z.to_nat (se - ss))); [|lia].
    rewrite nth_error_skipn, get_nonneg by lia. f_equal. lia. }
  assert (Hall : forall x, In x s -> x = rle).
  { apply sum_bound_all.
    - intros x Hx. apply In_nth_error in Hx. destruct Hx as [k Hk].
      assert (Hk' : (k < Z.to_nat (se - ss))%nat).
      { rewrite <- Hlen. apply nth_error_Some. congruence. }
      rewrite (Hnth k Hk') in Hk. eapply Hb; [|exact Hk]. lia.
    - rewrite Hu, Hlen. rewrite Z2Nat.id by lia. lia. }
  assert (Hk : (Z.to_nat (i - ss) < Z.to_nat (se - ss))%nat) by lia.
  pose proof (Hnth _ Hk) as E.
  replace (ss + Z.of_nat (Z.to_nat (i - ss))) with i in E by lia.
  destruct (nth_error s (Z.to_nat (i - ss))) as [x|] eqn:Ex.
  - rewrite <- E. f_equal. apply Hall. eapply nth_error_In. exact Ex.
  - apply nth_error_None in Ex. lia.
Qed.

(** ** The round trip *)










(** The reflectivity of the sample volume is read back as it was
    written. *)
Example sample_field_round_trip :
  option_map (fun d => dict_get d "data")
    (dict_get (Radar.fields sample_read) "DBZ")
  = Some (dict_get sample_field "data").
Proof. vm_compute. reflexivity. Qed.


(** The product of line 337 wraps: 46341 rays of 46341 gates fail the
    test though the sweep is uniform, and 65537 rays of which the first
    has 65536 gates and the others none pass it though the rays differ
    and none has more gates than the first. *)
Example uniform_check_wraps :
  Stream.uniform_check (repeat 46341 (Z.to_nat 46341)) 0 46341 46341
    = false /\
  Stream.uniform_check (65536 :: repeat 0 (Z.to_nat 65536)) 0 65537 65536
    = true.
Proof. split; vm_compute; reflexivity. Qed.

(** ** The statements at sample inputs, continued *)

Lemma distinct_NoDup (l : list string) : distinct l = true -> NoDup l.
Proof.
  induction l as [|x l IH]; intros H; constructor;
    cbn [distinct] in H; apply andb_prop in H; destruct H as [H1 H2].
  - intros Hin. apply str_in_In in Hin. rewrite Hin in H1. discriminate.
  - now apply IH.
Qed.

Lemma create_ncvar_appends_variable_witness :
  exists a v,
    array_to_write sample_externals sample_field = Ok a /\
    ~ In "DBZ" (dict_keys (ds_variables sample_dims)) /\
    ds_variables (create_sample sample_field)
      = ds_variables sample_dims ++ [("DBZ", v)] /\
    var_dimensions v = ["time"; "range"] /\
    var_dtype v = nd_dtype a /\
    var_data v = at_least_1d a /\
    ds_dimensions (create_sample sample_field) = ds_dimensions sample_dims /\
    ds_attrs (create_sample sample_field) = ds_attrs sample_dims /\
    ds_closed (create_sample sample_field) = ds_closed sample_dims.
Proof.
  apply (create_ncvar_appends_variable sample_externals sample_field "DBZ"
           ["time"; "range"] sample_dims (create_sample sample_field)).
  vm_compute. reflexivity.
Defined.

Lemma create_ncvar_requires_data_witness :
  _create_ncvar sample_externals [("units", VStr "dBZ")] "DBZ"
    ["time"; "range"] sample_dims = Raise (KeyError "data").
Proof.
  apply (create_ncvar_requires_data sample_externals [("units", VStr "dBZ")]).
  reflexivity.
Defined.

Lemma create_ncvar_attributes_witness :
  exists v,
    dict_get (ds_variables (create_sample sample_field_lsd)) "DBZ" = Some v /\
    forall k,
      dict_get (var_attrs v) k =
      if str_in k ["data"; "_FillValue"]
      then dict_get (created_attrs sample_externals
                       (dict_get_or_none sample_field_lsd
                          "least_significant_digit")
                       (dict_get_or_none sample_field_lsd "_FillValue")) k
      else match dict_get sample_field_lsd k with
           | Some x => Some x
           | None =>
               dict_get (created_attrs sample_externals
                           (dict_get_or_none sample_field_lsd
                              "least_significant_digit")
                           (dict_get_or_none sample_field_lsd "_FillValue")) k
           end.
Proof.
  apply (create_ncvar_attributes sample_externals sample_field_lsd "DBZ"
           ["time"; "range"] sample_dims (create_sample sample_field_lsd)).
  - apply distinct_NoDup. vm_compute. reflexivity.
  - vm_compute. reflexivity.
Defined.

Lemma sample_file_written :
  write_cfradial sample_externals sample_environment sample_radar None false
  = Ok sample_file.
Proof. vm_compute. reflexivity. Qed.

Lemma sample_file_full_written :
  write_cfradial sample_externals sample_environment sample_radar_full
    None false
  = Ok sample_file_full.
Proof. vm_compute. reflexivity. Qed.

Lemma written_dimensions_witness :
  exists str_len,
    dict_get (ds_dimensions sample_file) "time" = Some None /\
    dict_get (ds_dimensions sample_file) "range"
      = Some (Some (Radar.ngates sample_radar)) /\
    dict_get (ds_dimensions sample_file) "sweep"
      = Some (Some (Radar.nsweeps sample_radar)) /\
    dict_get (ds_dimensions sample_file) "string_length"
      = Some (Some str_len) /\
    32 <= str_len /\
    (exists w, string_width (Radar.sweep_mode sample_radar) = Ok w /\
               w <= str_len) /\
    forall k p d, In k string_parameters ->
      Radar.instrument_parameters sample_radar = Some p ->
      dict_get p k = Some d ->
      exists w, string_width d = Ok w /\ w <= str_len.
Proof.
  apply (written_dimensions sample_externals sample_environment sample_radar
           None false sample_file).
  exact sample_file_written.
Defined.

Lemma written_record_variables_witness :
  exists arr v,
    array_to_write sample_externals (Radar.sweep_mode sample_radar) = Ok arr /\
    dict_get (ds_variables sample_file) "sweep_mode" = Some v /\
    var_dimensions v = ["sweep"; "string_length"] /\
    var_dtype v = nd_dtype arr /\
    var_data v = at_least_1d arr.
Proof.
  apply (written_record_variables sample_externals sample_environment
           sample_radar None false sample_file "sweep_mode"
           ["sweep"; "string_length"] (Radar.sweep_mode sample_radar)).
  - exact sample_file_written.
  - unfold record_variables. do 10 right. left. reflexivity.
Defined.

Lemma written_fields_witness :
  exists arr v,
    array_to_write sample_externals sample_field = Ok arr /\
    dict_get (ds_variables sample_file) "DBZ" = Some v /\
    var_dimensions v = ["time"; "range"] /\
    var_dtype v = nd_dtype arr /\
    var_data v = at_least_1d arr.
Proof.
  apply (written_fields sample_externals sample_environment sample_radar
           None false sample_file "DBZ" sample_field).
  - exact sample_file_written.
  - left. reflexivity.
Defined.

Lemma written_instrument_parameters_witness :
  (forall k d, In (k, d) sample_parameters ->
     exists arr v,
       array_to_write sample_externals d = Ok arr /\
       dict_get (ds_variables sample_file_full) k = Some v /\
       var_dimensions v = instrument_parameter_dims k /\
       var_data v = at_least_1d arr) /\
  (forall d, dict_get sample_parameters "frequency" = Some d ->
     exists data size,
       dict_get d "data" = Some data /\ value_len data = Ok size /\
       dict_get (ds_dimensions sample_file_full) "frequency"
         = Some (Some size)).
Proof.
  apply (written_instrument_parameters sample_externals sample_environment
           sample_radar_full None false sample_file_full sample_parameters).
  - exact sample_file_full_written.
  - reflexivity.
Defined.


Lemma written_global_attributes_witness :
  dict_get (ds_attrs sample_file) "Conventions" =
  if str_in "Conventions" global_variables then None
  else if String.eqb "Conventions" "history"
       then Some (history_of sample_environment sample_radar)
       else match dict_get (Radar.metadata sample_radar) "Conventions" with
            | Some v => Some v
            | None =>
                if String.eqb "Conventions" "Conventions"
                then Some (VStr "CF/Radial")
                else if String.eqb "Conventions" "field_names"
                     then Some (VStr (String.concat ", "
                                        (dict_keys (Radar.fields sample_radar))))
                     else None
            end.
Proof.
  apply (written_global_attributes sample_externals sample_environment
           sample_radar None false sample_file "Conventions").
  - apply distinct_NoDup. reflexivity.
  - exact sample_file_written.
Defined.

Lemma written_variable_names_witness :
  In "DBZ" core_names \/ In "DBZ" (record_names sample_radar) \/
  ("DBZ" = "time_reference" /\ time_reference_emitted sample_radar None) \/
  (("DBZ" = "base_time" \/ "DBZ" = "time_offset") /\ false = true).
Proof.
  apply (written_variable_names sample_externals sample_environment
           sample_radar None false sample_file "DBZ").
  - exact sample_file_written.
  - apply dict_has_keys. vm_compute. reflexivity.
Defined.

Lemma written_volume_number_witness :
  exists v,
    dict_get (ds_variables sample_file_aircraft) "volume_number" = Some v /\
    var_dimensions v = [] /\
    var_dtype v = DInt /\
    var_data v = mk_ndarray DInt [1%nat] [IInt 7].
Proof.
  apply (written_volume_number sample_externals sample_environment
           sample_radar_aircraft None false sample_file_aircraft 7).
  - vm_compute. reflexivity.
  - right. split; reflexivity.
Defined.

Lemma written_time_coverage_witness :
  exists units data t0 t1 start_dt end_dt,
    dict_get (Radar.time sample_radar) "units" = Some units /\
    dict_get (Radar.time sample_radar) "data" = Some data /\
    value_item data 0 = Ok t0 /\
    value_item data (-1) = Ok t1 /\
    num2date sample_externals t0 units = Ok start_dt /\
    num2date sample_externals t1 units = Ok end_dt /\
    exists a0 a1 v0 v1,
      array_to_write sample_externals
        [ ("data", VArr (np_array_str
                           (isoformat sample_externals start_dt ++ "Z")));
          ("long_name", VStr "UTC time of first ray in the file");
          ("units", VStr "unitless") ] = Ok a0 /\
      array_to_write sample_externals
        [ ("data", VArr (np_array_str
                           (isoformat sample_externals end_dt ++ "Z")));
          ("long_name", VStr "UTC time of last ray in the file");
          ("units", VStr "unitless") ] = Ok a1 /\
      dict_get (ds_variables sample_file) "time_coverage_start" = Some v0 /\
      dict_get (ds_variables sample_file) "time_coverage_end" = Some v1 /\
      var_dimensions v0 = ["string_length"] /\
      var_dimensions v1 = ["string_length"] /\
      var_data v0 = at_least_1d a0 /\
      var_data v1 = at_least_1d a1.
Proof.
  apply (written_time_coverage sample_externals sample_environment
           sample_radar None false sample_file).
  exact sample_file_written.
Defined.

Lemma location_follows_latitude_witness :
  exists data size arr v,
    dict_get (Radar.latitude sample_radar) "data" = Some data /\
    value_size data = Ok size /\
    array_to_write sample_externals (Radar.longitude sample_radar) = Ok arr /\
    dict_get (ds_variables sample_file) "longitude" = Some v /\
    var_dimensions v = (if size =? 1 then [] else ["time"]) /\
    var_data v = at_least_1d arr.
Proof.
  apply (location_follows_latitude sample_externals sample_environment
           sample_radar None false sample_file "longitude"
           (Radar.longitude sample_radar)).
  - exact sample_file_written.
  - left. reflexivity.
Defined.

Lemma sample_file_read :
  read_cfradial
    (FileMetadata.get_field_name (FileMetadata.mk None false None))
    None sample_file = Ok sample_read.
Proof. vm_compute. reflexivity. Qed.

Lemma sample_file_full_read :
  read_cfradial
    (FileMetadata.get_field_name (FileMetadata.mk None false None))
    None sample_file_full = Ok sample_read_full.
Proof. vm_compute. reflexivity. Qed.

Lemma sample_stream_file_read :
  read_cfradial
    (FileMetadata.get_field_name (FileMetadata.mk None false None))
    None sample_stream_file = Ok sample_stream_read.
Proof. vm_compute. reflexivity. Qed.

Lemma read_mandatory_variables_witness :
  exists v,
    dict_get (ds_variables sample_file) "azimuth" = Some v /\
    Radar.azimuth sample_read = _ncvar_to_dict v /\
    dict_get (Radar.azimuth sample_read) "data" = Some (VArr (var_data v)).
Proof.
  destruct (read_mandatory_variables
              (FileMetadata.get_field_name (FileMetadata.mk None false None))
              None sample_file sample_read "azimuth" Radar.azimuth)
    as [v [a [Hv [Hd [Ha [Hsame _]]]]]].
  - exact sample_file_read.
  - unfold mandatory_variables. do 10 right. left. reflexivity.
  - exists v. split; [exact Hv|]. split; [exact Hd|].
    rewrite Ha. do 2 f_equal. apply Hsame.
    assert (E : dict_get (ds_variables sample_file) "azimuth"
                = Some (mk_var DFloat ["time"] []
                          (mk_ndarray DFloat [2%nat] (map IFloat [0; 1]%float))))
      by (vm_compute; reflexivity).
    rewrite E in Hv. inversion Hv. discriminate.
Defined.

Lemma read_optional_variables_witness :
  Radar.scan_rate sample_read =
  match dict_get (ds_variables sample_file) "scan_rate" with
  | Some v => Some (_ncvar_to_dict v)
  | None => None
  end.
Proof.
  apply (read_optional_variables
           (FileMetadata.get_field_name (FileMetadata.mk None false None))
           None sample_file sample_read "scan_rate" Radar.scan_rate).
  - exact sample_file_read.
  - unfold optional_variables. do 2 right. left. reflexivity.
Defined.

Lemma read_metadata_defaults_witness :
  (forall k,
     ~ In k ["volume_number"; "platform_type"; "instrument_type";
             "primary_axis"] ->
     dict_get (Radar.metadata sample_read) k
     = dict_get (ds_attrs sample_file) k) /\
  match dict_get (ds_variables sample_file) "volume_number" with
  | Some v => exists n, int_of_array (var_data v) = Ok n /\
                        dict_get (Radar.metadata sample_read) "volume_number"
                        = Some (VInt n)
  | None => dict_get (Radar.metadata sample_read) "volume_number"
            = Some (VInt 0)
  end /\
  (forall k default, In (k, default) global_defaults ->
     match dict_get (ds_variables sample_file) k with
     | Some v => exists s, chartostring (nd_items (var_data v)) = Ok s /\
                           dict_get (Radar.metadata sample_read) k
                           = Some (VStr s)
     | None => dict_get (Radar.metadata sample_read) k = Some (VStr default)
     end).
Proof.
  apply (read_metadata_defaults
           (FileMetadata.get_field_name (FileMetadata.mk None false None))
           None sample_file sample_read).
  exact sample_file_read.
Defined.

Lemma read_instrument_parameters_members_witness :
  match Radar.instrument_parameters sample_read_full with
  | Some ip =>
      ip <> [] /\
      forall k, dict_get ip k =
                if str_in k (dict_keys _INSTRUMENT_PARAMS_DIMS)
                then option_map _ncvar_to_dict
                       (dict_get (ds_variables sample_file_full) k)
                else None
  | None =>
      forall k, In k (dict_keys _INSTRUMENT_PARAMS_DIMS) ->
                dict_get (ds_variables sample_file_full) k = None
  end.
Proof.
  apply (read_instrument_parameters_members
           (FileMetadata.get_field_name (FileMetadata.mk None false None))
           None sample_file_full sample_read_full).
  exact sample_file_full_read.
Defined.

Lemma read_radar_calibration_members_witness :
  exists rc,
    Radar.radar_calibration sample_read_full = Some rc /\
    forall k, dict_get rc k =
              match dict_get (ds_variables sample_file_full) k with
              | Some v => if in_meta_group v "radar_calibration"
                          then Some (_ncvar_to_dict v) else None
              | None => None
              end.
Proof.
  apply (read_radar_calibration_members
           (FileMetadata.get_field_name (FileMetadata.mk None false None))
           None sample_file_full sample_read_full).
  - apply distinct_NoDup. vm_compute. reflexivity.
  - exact sample_file_full_read.
Defined.

Lemma read_fields_uniform_witness :
  exists key v,
    names_field (FileMetadata.get_field_name (FileMetadata.mk None false None))
      None key "DBZ" /\
    dict_get (ds_variables sample_file) key = Some v /\
    var_dimensions v = ["time"; "range"] /\
    the (getitem (Radar.fields sample_read) "DBZ") [] = _ncvar_to_dict v.
Proof.
  apply (read_fields_uniform
           (FileMetadata.get_field_name (FileMetadata.mk None false None))
           None sample_file sample_read "DBZ").
  - apply distinct_NoDup. vm_compute. reflexivity.
  - exact sample_file_read.
  - vm_compute. reflexivity.
  - vm_compute. reflexivity.
Defined.

Lemma read_fields_stream_shape_witness :
  exists nrays maxgates a key v,
    shape0 (ds_variables sample_stream_file) "time" = Ok nrays /\
    shape0 (ds_variables sample_stream_file) "range" = Ok maxgates /\
    dict_get (the (getitem (Radar.fields sample_stream_read) "REF") [])
      "data" = Some (VArr a) /\
    nd_dtype a = DFloat /\
    nd_shape a = [nrays; maxgates] /\
    List.length (nd_items a) = (nrays * maxgates)%nat /\
    names_field (FileMetadata.get_field_name (FileMetadata.mk None false None))
      None key "REF" /\
    dict_get (ds_variables sample_stream_file) key = Some v /\
    forall k, k <> "data" ->
      dict_get (the (getitem (Radar.fields sample_stream_read) "REF") []) k
      = dict_get (var_attrs v) k.
Proof.
  apply (read_fields_stream_shape
           (FileMetadata.get_field_name (FileMetadata.mk None false None))
           None sample_stream_file sample_stream_read "REF").
  - exact sample_stream_file_read.
  - vm_compute. reflexivity.
  - vm_compute. reflexivity.
Defined.

Lemma two_sweeps_packed :
  packed_stream (arange 12) [0; 2] [2; 4] [3; 5; 2; 2] 5 4 [0; 3; 8; 10].
Proof.
  split; [reflexivity|]. split.
  { intros i Hi.
    destruct i as [|[|[|[|i]]]]; try reflexivity. lia. }
  split.
  { intros n [<-|[<-|[<-|[<-|[]]]]]; lia. }
  split; [vm_compute; discriminate|].
  split; [reflexivity|].
  intros k Hk. destruct k as [|[|k]]; cbn in *; lia.
Qed.

Lemma two_sweeps_consistent : stream_consistent [0; 2] [2; 4] [3; 5; 2; 2].
Proof.
  assert (Hk : forall k ss se, 0 <= k < Py.len [2; 4] ->
            Py.get [0; 2] k = Some ss -> Py.get [2; 4] k = Some se ->
            (ss = 0 /\ se = 2) \/ (ss = 2 /\ se = 4)).
  { intros k ss se Hk Hs He. unfold Py.len in Hk. simpl in Hk.
    assert (E : k = 0 \/ k = 1) by lia.
    destruct E as [-> | ->]; inversion Hs; inversion He; auto. }
  split; [|split].
  - intros k ss se H Hs He. destruct (Hk k ss se H Hs He) as [[-> ->]|[-> ->]]; lia.
  - intros i n H. apply get_In in H. simpl in H.
    destruct H as [<-|[<-|[<-|[<-|[]]]]]; lia.
  - intros k ss se rle H Hs He Hr Hu.
    destruct (Hk k ss se H Hs He) as [[-> ->]|[-> ->]];
      inversion Hr; subst rle.
    + vm_compute in Hu. discriminate.
    + intros i Hi. assert (E : i = 2 \/ i = 3) by lia.
      destruct E as [-> | ->]; reflexivity.
Qed.

Lemma stream_to_2d_packed_witness :
  exists start,
    Py.get [0; 3; 8; 10] (Z.of_nat 3) = Some start /\
    Py.get (arange 12) (start + Z.of_nat 1) =
    Some (nth 1
            (nth 3
               [ [0; 1; 2; -9999; -9999]; [3; 4; 5; 6; 7];
                 [8; 9; -9999; -9999; -9999];
                 [10; 11; -9999; -9999; -9999] ]%float [])
            sentinel).
Proof.
  apply (stream_to_2d_packed (arange 12) [0; 2] [2; 4] [3; 5; 2; 2] 5 4
           [0; 3; 8; 10]).
  - exact two_sweeps_packed.
  - exact two_sweeps_consistent.
  - vm_compute. reflexivity.
  - exists 1, 2, 4, 2. repeat split; try reflexivity; try lia.
Defined.

Lemma written_arm_time_variables_witness :
  exists vb vo,
    dict_get (ds_variables sample_file_arm) "base_time" = Some vb /\
    var_dimensions vb = [] /\
    var_data vb = mk_ndarray DInt [1%nat] [IInt 0] /\
    dict_get (var_attrs vb) "string"
      = Some (VStr "01-Jan-1970,00:00:00 GMT") /\
    dict_get (ds_variables sample_file_arm) "time_offset" = Some vo /\
    var_dimensions vo = ["time"] /\
    dict_get (var_attrs vo) "units"
      = Some (VStr "seconds since 1970-01-01 00:00:00").
Proof.
  destruct (written_arm_time_variables sample_externals sample_environment
              sample_radar None sample_file_arm)
    as (data & t0 & units & dt & vb & vo & arr & _ & _ & Hu & _ & Hb & Hbd
        & Hbase & Hs & Ho & Hod & _ & _ & Hou & _ & _).
  - vm_compute. reflexivity.
  - assert (Eu : units = "seconds since 1970-01-01T00:00:00Z").
    { assert (E : dict_get (Radar.time sample_radar) "units"
                  = Some (VStr "seconds since 1970-01-01T00:00:00Z"))
        by reflexivity.
      rewrite E in Hu. now inversion Hu. }
    subst units.
    exists vb, vo. split; [exact Hb|]. split; [exact Hbd|].
    split; [apply Hbase; reflexivity|]. split; [exact Hs|].
    split; [exact Ho|]. split; [exact Hod | exact Hou].
Defined.

Lemma written_platform_variables_witness :
  exists data arr var,
    np_array (VStr "aircraft") = Ok data /\
    array_to_write sample_externals
      [("long_name", VStr "Platform type"); ("data", VArr data)] = Ok arr /\
    dict_get (ds_variables sample_file_aircraft) "platform_type" = Some var /\
    var_dimensions var = ["string_length"] /\
    var_data var = at_least_1d arr /\
    dict_get (var_attrs var) "long_name" = Some (VStr "Platform type").
Proof.
  apply (written_platform_variables sample_externals sample_environment
           sample_radar_aircraft None false sample_file_aircraft
           "platform_type" "Platform type" (VStr "aircraft")).
  - vm_compute. reflexivity.
  - left. reflexivity.
  - reflexivity.
Defined.

Lemma uniform_check_sound_bounded_witness :
  sweep_uniform [3; 5; 2; 2] 2 4 2.
Proof.
  apply uniform_check_sound_bounded.
  - lia.
  - unfold Py.len. simpl. lia.
  - intros i n Hi Hn. assert (E : i = 2 \/ i = 3) by lia.
    destruct E as [-> | ->]; inversion Hn; lia.
  - lia.
  - vm_compute. reflexivity.
Defined.
